(** * GestureHud: the gesture-recognition and signal-conditioning pipeline

    A shallow embedding of [filter.py] (the 1-Euro filter), of
    [tracker.py] (gesture classification, the pinch state machines, the
    per-frame pipeline and the published snapshot), of [controls.py] (the
    mouse controller) and of the gesture-to-action mapping of [main.py],
    followed by the properties of the specification that concern them and
    by further properties of the code.

    Python [float] is IEEE-754 binary64; it is modelled by Rocq's primitive
    floats, which are the same format with the same rounding, so a decimal
    literal such as [0.28] denotes the same number here as in the source.
    Python [int] is modelled by [Z].  A Python exception is a value of the
    result type below. *)

From Stdlib Require Import String Floats ZArith List Bool Lia.
From Stdlib Require Uint63.
Import ListNotations.

Set Warnings "-inexact-float".

(** ** Exceptions and the monads that thread them *)

Inductive exn : Set :=
| ZeroDivisionError
| TypeError
| IndexError
| ValueError.

Inductive result (A : Type) : Type :=
| Ok (a : A)
| Raise (e : exn).

Arguments Ok {A} a.
Arguments Raise {A} e.

Definition rbind {A B : Type} (r : result A) (k : A -> result B) : result B :=
  match r with
  | Ok a => k a
  | Raise e => Raise e
  end.

Declare Scope py_scope.
Delimit Scope py_scope with py.

Notation "x <- e ;; k" := (rbind e (fun x => k))
  (at level 61, e at next level, right associativity) : py_scope.
Notation "' pat <- e ;; k" := (rbind e (fun x => match x with pat => k end))
  (at level 61, pat pattern, e at next level, right associativity) : py_scope.

Open Scope float_scope.
Open Scope py_scope.

(** Python's [/] on floats raises when the divisor compares equal to zero
    (either sign); a NaN divisor does not raise. *)
Definition pydiv (a b : float) : result float :=
  if b =? 0 then Raise ZeroDivisionError else Ok (a / b).

(** [math.sqrt] raises [ValueError] on a negative argument. *)
Definition math_sqrt (v : float) : result float :=
  if v <? 0 then Raise ValueError else Ok (sqrt v).

(** [math.pi] *)
Definition math_pi : float := 0x1.921fb54442d18p+1.

(** The two-argument builtins [min(a, b)] and [max(a, b)]: the first
    argument is kept unless the second compares strictly better. *)
Definition pymin (a b : float) : float := if b <? a then b else a.
Definition pymax (a b : float) : float := if a <? b then b else a.

(** List indexing [l[i]] and item assignment [l[i] = v] for [0 <= i]. *)
Definition getl {A : Type} (l : list A) (i : nat) : result A :=
  match nth_error l i with
  | Some a => Ok a
  | None => Raise IndexError
  end.

Fixpoint setl {A : Type} (l : list A) (i : nat) (v : A) : result (list A) :=
  match l, i with
  | [], _ => Raise IndexError
  | _ :: t, O => Ok (v :: t)
  | h :: t, S j => t' <- setl t j v ;; Ok (h :: t')
  end.

(** ** filter.py *)

Module OneEuroFilter.

Record t : Set := mk {
  min_cutoff : float;
  beta : float;
  d_cutoff : float;
  _x_prev : option float;
  _dx_prev : float;
  _t_prev : option float
}.

(** [__init__] *)
Definition __init__ (min_cutoff beta d_cutoff : float) : t :=
  mk min_cutoff beta d_cutoff None 0.0 None.

(** [_alpha(cutoff, dt)] *)
Definition _alpha (cutoff dt : float) : result float :=
  tau <- pydiv 1.0 (2 * math_pi * cutoff) ;;
  q <- pydiv tau dt ;;
  pydiv 1.0 (1.0 + q).

(** [__call__(x, t)].  The tracker always passes the timestamp, so the
    [t is None] default (a clock read) is the caller's business.  When
    [_t_prev] is set but [_x_prev] is not (no sequence of calls reaches
    that), the source returns [None] or fails on [x - None]; both are
    reported as [TypeError]. *)
Definition __call__ (f : t) (x t : float) : result (float * OneEuroFilter.t) :=
  match _t_prev f with
  | None =>
      Ok (x, mk (min_cutoff f) (beta f) (d_cutoff f) (Some x) (_dx_prev f) (Some t))
  | Some tp =>
      let dt := t - tp in
      if dt <=? 0 then
        match _x_prev f with
        | Some xp => Ok (xp, f)
        | None => Raise TypeError
        end
      else
        match _x_prev f with
        | None => Raise TypeError
        | Some xp =>
            dx <- pydiv (x - xp) dt ;;
            a_d <- _alpha (d_cutoff f) dt ;;
            let dx_hat := a_d * dx + (1 - a_d) * _dx_prev f in
            let cutoff := min_cutoff f + beta f * abs dx_hat in
            a <- _alpha cutoff dt ;;
            let x_hat := a * x + (1 - a) * xp in
            Ok (x_hat,
                mk (min_cutoff f) (beta f) (d_cutoff f)
                   (Some x_hat) dx_hat (Some t))
        end
  end.

(** [reset] *)
Definition reset (f : t) : t :=
  mk (min_cutoff f) (beta f) (d_cutoff f) None 0.0 None.

(** A filter that has received at least one sample since it was made or
    reset: both memories are set. *)
Definition primed (f : t) : Prop :=
  (exists xp, _x_prev f = Some xp) /\ (exists tp, _t_prev f = Some tp).

End OneEuroFilter.

(** ** tracker.py: the data classes *)

(** A landmark as the detector reports it. *)
Module Landmark.

Record t : Set := mk { x : float; y : float; z : float }.

End Landmark.

Module HandState.

Record t : Set := mk {
  x : float;
  y : float;
  click_left : bool;
  click_right : bool;
  is_fist : bool;
  is_peace : bool;
  is_open_palm : bool;
  velocity : float;
  detected : bool;
  landmarks : list (float * float)
}.

(** [HandState()]: the field defaults of the data class. *)
Definition default : t :=
  mk 0.0 0.0 false false false false false 0.0 false [].

End HandState.

Module TrackerState.

Record t : Set := mk {
  primary : HandState.t;
  secondary : HandState.t;
  num_hands : Z;
  fps : float
}.

(** [TrackerState()] *)
Definition default : t := mk HandState.default HandState.default 0%Z 0.0.

End TrackerState.

(** ** tracker.py: the tracker *)

Module HandTracker.

(** Pinch detection thresholds (class attributes). *)
Definition PINCH_ENTER : float := 0.28.
Definition PINCH_EXIT : float := 0.50.
Definition DEBOUNCE : Z := 4.
Definition COOLDOWN : float := 0.45.
Definition Z_WEIGHT : float := 0.5.

(** The attributes of a tracker that the pipeline reads and writes.  The
    detector, the camera handle, the thread and the lock are not data of
    the pipeline; the lock is modelled with the snapshot cell further
    down. *)
Record t : Set := mk {
  state : TrackerState.t;
  _filt_x : list OneEuroFilter.t;
  _filt_y : list OneEuroFilter.t;
  _filt_d_idx : list OneEuroFilter.t;
  _filt_d_mid : list OneEuroFilter.t;
  _prev_x : list float;
  _prev_y : list float;
  _prev_t : list float;
  _idx_state : list string;
  _mid_state : list string;
  _idx_count : list Z;
  _mid_count : list Z;
  _idx_exit : list Z;
  _mid_exit : list Z;
  _last_lclick : list float;
  _last_rclick : list float;
  _fist_cnt : list Z;
  _ftimes : list float
}.

(** Attribute assignment [self.f = v], one function per attribute. *)
Definition set_state (self : t) (v : TrackerState.t) : t :=
  mk v (_filt_x self) (_filt_y self) (_filt_d_idx self) (_filt_d_mid self)
     (_prev_x self) (_prev_y self) (_prev_t self) (_idx_state self)
     (_mid_state self) (_idx_count self) (_mid_count self) (_idx_exit self)
     (_mid_exit self) (_last_lclick self) (_last_rclick self) (_fist_cnt
     self) (_ftimes self).

Definition set__filt_x (self : t) (v : list OneEuroFilter.t) : t :=
  mk (state self) v (_filt_y self) (_filt_d_idx self) (_filt_d_mid self)
     (_prev_x self) (_prev_y self) (_prev_t self) (_idx_state self)
     (_mid_state self) (_idx_count self) (_mid_count self) (_idx_exit self)
     (_mid_exit self) (_last_lclick self) (_last_rclick self) (_fist_cnt
     self) (_ftimes self).

Definition set__filt_y (self : t) (v : list OneEuroFilter.t) : t :=
  mk (state self) (_filt_x self) v (_filt_d_idx self) (_filt_d_mid self)
     (_prev_x self) (_prev_y self) (_prev_t self) (_idx_state self)
     (_mid_state self) (_idx_count self) (_mid_count self) (_idx_exit self)
     (_mid_exit self) (_last_lclick self) (_last_rclick self) (_fist_cnt
     self) (_ftimes self).

Definition set__filt_d_idx (self : t) (v : list OneEuroFilter.t) : t :=
  mk (state self) (_filt_x self) (_filt_y self) v (_filt_d_mid self)
     (_prev_x self) (_prev_y self) (_prev_t self) (_idx_state self)
     (_mid_state self) (_idx_count self) (_mid_count self) (_idx_exit self)
     (_mid_exit self) (_last_lclick self) (_last_rclick self) (_fist_cnt
     self) (_ftimes self).

Definition set__filt_d_mid (self : t) (v : list OneEuroFilter.t) : t :=
  mk (state self) (_filt_x self) (_filt_y self) (_filt_d_idx self) v
     (_prev_x self) (_prev_y self) (_prev_t self) (_idx_state self)
     (_mid_state self) (_idx_count self) (_mid_count self) (_idx_exit self)
     (_mid_exit self) (_last_lclick self) (_last_rclick self) (_fist_cnt
     self) (_ftimes self).

Definition set__prev_x (self : t) (v : list float) : t :=
  mk (state self) (_filt_x self) (_filt_y self) (_filt_d_idx self)
     (_filt_d_mid self) v (_prev_y self) (_prev_t self) (_idx_state self)
     (_mid_state self) (_idx_count self) (_mid_count self) (_idx_exit self)
     (_mid_exit self) (_last_lclick self) (_last_rclick self) (_fist_cnt
     self) (_ftimes self).

Definition set__prev_y (self : t) (v : list float) : t :=
  mk (state self) (_filt_x self) (_filt_y self) (_filt_d_idx self)
     (_filt_d_mid self) (_prev_x self) v (_prev_t self) (_idx_state self)
     (_mid_state self) (_idx_count self) (_mid_count self) (_idx_exit self)
     (_mid_exit self) (_last_lclick self) (_last_rclick self) (_fist_cnt
     self) (_ftimes self).

Definition set__prev_t (self : t) (v : list float) : t :=
  mk (state self) (_filt_x self) (_filt_y self) (_filt_d_idx self)
     (_filt_d_mid self) (_prev_x self) (_prev_y self) v (_idx_state self)
     (_mid_state self) (_idx_count self) (_mid_count self) (_idx_exit self)
     (_mid_exit self) (_last_lclick self) (_last_rclick self) (_fist_cnt
     self) (_ftimes self).

Definition set__idx_state (self : t) (v : list string) : t :=
  mk (state self) (_filt_x self) (_filt_y self) (_filt_d_idx self)
     (_filt_d_mid self) (_prev_x self) (_prev_y self) (_prev_t self) v
     (_mid_state self) (_idx_count self) (_mid_count self) (_idx_exit self)
     (_mid_exit self) (_last_lclick self) (_last_rclick self) (_fist_cnt
     self) (_ftimes self).

Definition set__mid_state (self : t) (v : list string) : t :=
  mk (state self) (_filt_x self) (_filt_y self) (_filt_d_idx self)
     (_filt_d_mid self) (_prev_x self) (_prev_y self) (_prev_t self)
     (_idx_state self) v (_idx_count self) (_mid_count self) (_idx_exit
     self) (_mid_exit self) (_last_lclick self) (_last_rclick self)
     (_fist_cnt self) (_ftimes self).

Definition set__idx_count (self : t) (v : list Z) : t :=
  mk (state self) (_filt_x self) (_filt_y self) (_filt_d_idx self)
     (_filt_d_mid self) (_prev_x self) (_prev_y self) (_prev_t self)
     (_idx_state self) (_mid_state self) v (_mid_count self) (_idx_exit
     self) (_mid_exit self) (_last_lclick self) (_last_rclick self)
     (_fist_cnt self) (_ftimes self).

Definition set__mid_count (self : t) (v : list Z) : t :=
  mk (state self) (_filt_x self) (_filt_y self) (_filt_d_idx self)
     (_filt_d_mid self) (_prev_x self) (_prev_y self) (_prev_t self)
     (_idx_state self) (_mid_state self) (_idx_count self) v (_idx_exit
     self) (_mid_exit self) (_last_lclick self) (_last_rclick self)
     (_fist_cnt self) (_ftimes self).

Definition set__idx_exit (self : t) (v : list Z) : t :=
  mk (state self) (_filt_x self) (_filt_y self) (_filt_d_idx self)
     (_filt_d_mid self) (_prev_x self) (_prev_y self) (_prev_t self)
     (_idx_state self) (_mid_state self) (_idx_count self) (_mid_count self)
     v (_mid_exit self) (_last_lclick self) (_last_rclick self) (_fist_cnt
     self) (_ftimes self).

Definition set__mid_exit (self : t) (v : list Z) : t :=
  mk (state self) (_filt_x self) (_filt_y self) (_filt_d_idx self)
     (_filt_d_mid self) (_prev_x self) (_prev_y self) (_prev_t self)
     (_idx_state self) (_mid_state self) (_idx_count self) (_mid_count self)
     (_idx_exit self) v (_last_lclick self) (_last_rclick self) (_fist_cnt
     self) (_ftimes self).

Definition set__last_lclick (self : t) (v : list float) : t :=
  mk (state self) (_filt_x self) (_filt_y self) (_filt_d_idx self)
     (_filt_d_mid self) (_prev_x self) (_prev_y self) (_prev_t self)
     (_idx_state self) (_mid_state self) (_idx_count self) (_mid_count self)
     (_idx_exit self) (_mid_exit self) v (_last_rclick self) (_fist_cnt
     self) (_ftimes self).

Definition set__last_rclick (self : t) (v : list float) : t :=
  mk (state self) (_filt_x self) (_filt_y self) (_filt_d_idx self)
     (_filt_d_mid self) (_prev_x self) (_prev_y self) (_prev_t self)
     (_idx_state self) (_mid_state self) (_idx_count self) (_mid_count self)
     (_idx_exit self) (_mid_exit self) (_last_lclick self) v (_fist_cnt
     self) (_ftimes self).

Definition set__fist_cnt (self : t) (v : list Z) : t :=
  mk (state self) (_filt_x self) (_filt_y self) (_filt_d_idx self)
     (_filt_d_mid self) (_prev_x self) (_prev_y self) (_prev_t self)
     (_idx_state self) (_mid_state self) (_idx_count self) (_mid_count self)
     (_idx_exit self) (_mid_exit self) (_last_lclick self) (_last_rclick
     self) v (_ftimes self).

Definition set__ftimes (self : t) (v : list float) : t :=
  mk (state self) (_filt_x self) (_filt_y self) (_filt_d_idx self)
     (_filt_d_mid self) (_prev_x self) (_prev_y self) (_prev_t self)
     (_idx_state self) (_mid_state self) (_idx_count self) (_mid_count self)
     (_idx_exit self) (_mid_exit self) (_last_lclick self) (_last_rclick
     self) (_fist_cnt self) v.

(** [__init__]; [clock] is the value [time.perf_counter()] returns there. *)
Definition __init__ (clock : float) : t :=
  mk TrackerState.default
     [OneEuroFilter.__init__ 1.5 0.01 1.0; OneEuroFilter.__init__ 1.5 0.01 1.0]
     [OneEuroFilter.__init__ 1.5 0.01 1.0; OneEuroFilter.__init__ 1.5 0.01 1.0]
     [OneEuroFilter.__init__ 0.5 0.003 1.0; OneEuroFilter.__init__ 0.5 0.003 1.0]
     [OneEuroFilter.__init__ 0.5 0.003 1.0; OneEuroFilter.__init__ 0.5 0.003 1.0]
     [0.5; 0.5] [0.5; 0.5] [clock; clock]
     ["open"%string; "open"%string] ["open"%string; "open"%string]
     [0%Z; 0%Z] [0%Z; 0%Z] [0%Z; 0%Z] [0%Z; 0%Z]
     [0.0; 0.0] [0.0; 0.0]
     [0%Z; 0%Z]
     [].

(** [get_state]: under the lock, a field-by-field copy of the published
    snapshot. *)
Definition get_state (self : t) : TrackerState.t :=
  TrackerState.mk
    (TrackerState.primary (state self))
    (TrackerState.secondary (state self))
    (TrackerState.num_hands (state self))
    (TrackerState.fps (state self)).

(** [_dist3d(a, b)] *)
Definition _dist3d (a b : Landmark.t) : result float :=
  let dx := Landmark.x a - Landmark.x b in
  let dy := Landmark.y a - Landmark.y b in
  let dz := (Landmark.z a - Landmark.z b) * Z_WEIGHT in
  math_sqrt (dx * dx + dy * dy + dz * dz).

(** The four per-hand arrays one pinch machine lives in. *)
Record pinch_arrays : Set := mk_arrays {
  state_arr : list string;
  count_arr : list Z;
  exit_arr : list Z;
  time_arr : list float
}.

(** The head of [_pinch]: the arrays [which] selects.  They are the
    tracker's own lists, so [store_arrays] writes the updated ones back. *)
Definition select_arrays (self : t) (which : string) : pinch_arrays :=
  if String.eqb which "idx" then
    mk_arrays (_idx_state self) (_idx_count self) (_idx_exit self)
              (_last_lclick self)
  else
    mk_arrays (_mid_state self) (_mid_count self) (_mid_exit self)
              (_last_rclick self).

Definition store_arrays (self : t) (which : string) (a : pinch_arrays) : t :=
  if String.eqb which "idx" then
    set__last_lclick
      (set__idx_exit
         (set__idx_count (set__idx_state self (state_arr a)) (count_arr a))
         (exit_arr a))
      (time_arr a)
  else
    set__last_rclick
      (set__mid_exit
         (set__mid_count (set__mid_state self (state_arr a)) (count_arr a))
         (exit_arr a))
      (time_arr a).

(** The body of [_pinch] on the selected arrays. *)
Definition pinch_body (a : pinch_arrays) (i : nat) (dist : float)
    (qualified : bool) (now : float) : result (bool * pinch_arrays) :=
  st <- getl (state_arr a) i ;;
  if String.eqb st "open" then
    cond <- (if dist <? PINCH_ENTER then
               if qualified then
                 last <- getl (time_arr a) i ;;
                 Ok (COOLDOWN <? now - last)
               else Ok false
             else Ok false) ;;
    count1 <- (if cond : bool then
                 c <- getl (count_arr a) i ;; setl (count_arr a) i (c + 1)%Z
               else setl (count_arr a) i 0%Z) ;;
    c1 <- getl count1 i ;;
    if (DEBOUNCE <=? c1)%Z then
      state2 <- setl (state_arr a) i "pinched"%string ;;
      count2 <- setl count1 i 0%Z ;;
      time2 <- setl (time_arr a) i now ;;
      Ok (true, mk_arrays state2 count2 (exit_arr a) time2)
    else
      Ok (false, mk_arrays (state_arr a) count1 (exit_arr a) (time_arr a))
  else if String.eqb st "pinched" then
    exit1 <- (if PINCH_EXIT <? dist then
                e <- getl (exit_arr a) i ;; setl (exit_arr a) i (e + 1)%Z
              else setl (exit_arr a) i 0%Z) ;;
    e1 <- getl exit1 i ;;
    if (3 <=? e1)%Z then
      state2 <- setl (state_arr a) i "open"%string ;;
      exit2 <- setl exit1 i 0%Z ;;
      Ok (false, mk_arrays state2 (count_arr a) exit2 (time_arr a))
    else
      Ok (false, mk_arrays (state_arr a) (count_arr a) exit1 (time_arr a))
  else
    Ok (false, a).

(** [_pinch(i, which, dist, qualified, now)] *)
Definition _pinch (self : t) (i : nat) (which : string) (dist : float)
    (qualified : bool) (now : float) : result (bool * t) :=
  '(click, a) <- pinch_body (select_arrays self which) i dist qualified now ;;
  Ok (click, store_arrays self which a).

(** Monadic map, for the loop over [zip(tips, pips)] that fills [ext]. *)
Fixpoint mapM {A B : Type} (f : A -> result B) (l : list A) : result (list B) :=
  match l with
  | [] => Ok []
  | a :: r => b <- f a ;; bs <- mapM f r ;; Ok (b :: bs)
  end.

(** Lines 195-197 of [_process]: the hand scale that divides the two pinch
    distances. *)
Definition hand_scale (lm : list Landmark.t) : result float :=
  l0 <- getl lm 0 ;;
  l5 <- getl lm 5 ;;
  hand_size <- _dist3d l0 l5 ;;
  Ok (if hand_size <? 0.01 then 0.1 else hand_size).

(** Lines 227-228 of [_process]: the new value of the fist counter. *)
Definition fist_count (cnt : Z) (all_curled : bool) : Z :=
  if all_curled then Z.min (cnt + 1) 20 else 0%Z.

Section Pipeline.

(** Two library functions whose results depend on the C library and the
    interpreter version: [math.hypot] and the builtin [sum] on floats. *)
Variable math_hypot : float -> float -> float.
Variable sum : list float -> float.

(** One turn of the loop over [zip(tips, pips)]. *)
Definition finger_ext (lm : list Landmark.t) (tp : nat * nat) : result bool :=
  let '(t, p) := tp in
  lt <- getl lm t ;;
  l0 <- getl lm 0 ;;
  let tip_d := math_hypot (Landmark.x lt - Landmark.x l0)
                          (Landmark.y lt - Landmark.y l0) in
  lp <- getl lm p ;;
  let pip_d := math_hypot (Landmark.x lp - Landmark.x l0)
                          (Landmark.y lp - Landmark.y l0) in
  Ok (pip_d * 1.05 <? tip_d).

(** A filter of a per-hand list applied in place: [flist[i](x, now)]. *)
Definition call_filter (flist : list OneEuroFilter.t) (i : nat)
    (x now : float) : result (float * list OneEuroFilter.t) :=
  f <- getl flist i ;;
  '(v, f') <- OneEuroFilter.__call__ f x now ;;
  flist' <- setl flist i f' ;;
  Ok (v, flist').

(** [_process], lines 183-185: the cursor position, filtered and clamped
    to the unit square. *)
Definition cursor_position (self : t) (lm : list Landmark.t) (i : nat)
    (now : float) : result (float * float * t) :=
  l8 <- getl lm 8 ;;
  '(vx, fx) <- call_filter (_filt_x self) i (Landmark.x l8) now ;;
  let self := set__filt_x self fx in
  let hs_x := pymax 0.0 (pymin 1.0 vx) in
  l8 <- getl lm 8 ;;
  '(vy, fy) <- call_filter (_filt_y self) i (Landmark.y l8) now ;;
  let self := set__filt_y self fy in
  let hs_y := pymax 0.0 (pymin 1.0 vy) in
  Ok (hs_x, hs_y, self).

(** [_process], lines 187-192: the cursor velocity (the data class default
    0.0 when no time has passed) and the new previous position. *)
Definition cursor_velocity (self : t) (i : nat) (hs_x hs_y now : float)
  : result (float * t) :=
  prev_t <- getl (_prev_t self) i ;;
  let dt := now - prev_t in
  hs_velocity <- (if 0 <? dt then
                    px <- getl (_prev_x self) i ;;
                    py <- getl (_prev_y self) i ;;
                    pydiv (math_hypot (hs_x - px) (hs_y - py)) dt
                  else Ok 0.0) ;;
  prev_x' <- setl (_prev_x self) i hs_x ;;
  prev_y' <- setl (_prev_y self) i hs_y ;;
  prev_t' <- setl (_prev_t self) i now ;;
  Ok (hs_velocity,
      set__prev_t (set__prev_y (set__prev_x self prev_x') prev_y') prev_t').

(** [_process], lines 199-202: the two finger-to-thumb distances,
    normalised by the hand scale and filtered. *)
Definition pinch_distances (self : t) (lm : list Landmark.t) (i : nat)
    (now hand_size : float) : result (float * float * t) :=
  thumb <- getl lm 4 ;;
  l8 <- getl lm 8 ;;
  raw_idx <- _dist3d l8 thumb ;;
  n_idx <- pydiv raw_idx hand_size ;;
  '(d_idx, fdi) <- call_filter (_filt_d_idx self) i n_idx now ;;
  let self := set__filt_d_idx self fdi in
  l12 <- getl lm 12 ;;
  raw_mid <- _dist3d l12 thumb ;;
  n_mid <- pydiv raw_mid hand_size ;;
  '(d_mid, fdm) <- call_filter (_filt_d_mid self) i n_mid now ;;
  let self := set__filt_d_mid self fdm in
  Ok (d_idx, d_mid, self).

(** [_process], lines 204-211: the extension flags [ext]. *)
Definition extension_flags (lm : list Landmark.t) : result (list bool) :=
  mapM (finger_ext lm) (combine [8; 12; 16; 20] [6; 10; 14; 18])%nat.

(** [_process], lines 227-229: the fist counter and the flag read off it. *)
Definition sustained_fist (self : t) (i : nat) (all_curled : bool)
  : result (bool * t) :=
  cnt <- getl (_fist_cnt self) i ;;
  fist' <- setl (_fist_cnt self) i (fist_count cnt all_curled) ;;
  let self := set__fist_cnt self fist' in
  cnt' <- getl (_fist_cnt self) i ;;
  Ok ((8 <=? cnt')%Z, self).

(** [_process(landmarks, i, now)] *)
Definition _process (self : t) (lm : list Landmark.t) (i : nat) (now : float)
  : result (HandState.t * t) :=
  let hs_landmarks := map (fun l => (Landmark.x l, Landmark.y l)) lm in
  '(hs_x, hs_y, self) <- cursor_position self lm i now ;;
  '(hs_velocity, self) <- cursor_velocity self i hs_x hs_y now ;;
  hand_size <- hand_scale lm ;;
  '(d_idx, d_mid, self) <- pinch_distances self lm i now hand_size ;;
  ext <- extension_flags lm ;;
  match ext with
  | [idx_ext; mid_ext; ring_ext; pinky_ext] =>
      (* at least one of ring/pinky must be extended *)
      let can_pinch := ring_ext || pinky_ext in
      '(click_left, self) <- _pinch self i "idx" d_idx can_pinch now ;;
      '(click_right, self) <- _pinch self i "mid" d_mid can_pinch now ;;
      let is_peace :=
        idx_ext && mid_ext && negb ring_ext && negb pinky_ext in
      let is_open_palm := idx_ext && mid_ext && ring_ext && pinky_ext in
      let all_curled := negb (existsb (fun b => b) ext) in
      '(is_fist, self) <- sustained_fist self i all_curled ;;
      Ok (HandState.mk hs_x hs_y click_left click_right is_fist
                       is_peace is_open_palm hs_velocity true hs_landmarks,
          self)
  | _ => Raise ValueError
  end.

(** The [for i, hlm in enumerate(...)] loop of [_loop], with its
    [if i >= 2: break]. *)
Fixpoint process_hands (self : t) (hlms : list (list Landmark.t)) (i : nat)
    (t0 : float) (hands : list HandState.t) : result (list HandState.t * t) :=
  match hlms with
  | [] => Ok (hands, self)
  | hlm :: rest =>
      if (2 <=? i)%nat then Ok (hands, self)
      else
        '(hs, self') <- _process self hlm i t0 ;;
        process_hands self' rest (S i) t0 (hands ++ [hs])
  end.

(** [deque(maxlen=30).append]: the oldest entries make room. *)
Definition deque_append (d : list float) (v : float) : list float :=
  let d' := d ++ [v] in skipn (length d' - 30) d'.

(** [float(n)] for the length of a list. *)
Definition float_of_len {A : Type} (l : list A) : float :=
  of_uint63 (Uint63.of_Z (Z.of_nat (length l))).

(** One turn of [_loop] after a frame was read ([ret] true).  [t0] and [t1]
    are the two clock readings, [multi_hand_landmarks] what the detector
    found in the frame ([None] or a list of hands). *)
Definition _loop_body (self : t) (t0 : float)
    (multi_hand_landmarks : option (list (list Landmark.t))) (t1 : float)
  : result t :=
  '(ns, self) <-
    match multi_hand_landmarks with
    | None | Some [] => Ok (TrackerState.default, self)
    | Some hlms =>
        '(hands, self) <- process_hands self hlms 0 t0 [] ;;
        let ns_num_hands := Z.of_nat (length hands) in
        ns_primary <- (if (1 <=? length hands)%nat then getl hands 0
                       else Ok HandState.default) ;;
        ns_secondary <- (if (2 <=? length hands)%nat then getl hands 1
                         else Ok HandState.default) ;;
        Ok (TrackerState.mk ns_primary ns_secondary ns_num_hands 0.0, self)
    end ;;
  let dt := t1 - t0 in
  let self := set__ftimes self (deque_append (_ftimes self) dt) in
  avg <- pydiv (sum (_ftimes self)) (float_of_len (_ftimes self)) ;;
  (* [else 0]: the integer zero, which equals the float zero *)
  ns_fps <- (if 0 <? avg then pydiv 1.0 avg else Ok 0.0) ;;
  let ns := TrackerState.mk (TrackerState.primary ns)
                            (TrackerState.secondary ns)
                            (TrackerState.num_hands ns) ns_fps in
  Ok (set_state self ns).

End Pipeline.

End HandTracker.

(** ** Views and drivers used to state the properties *)

(** The pinch machine of one slot, read off the four arrays. *)
Record machine : Set := mk_machine {
  m_state : string;
  m_count : Z;
  m_exit : Z;
  m_last : float
}.

Definition machine_at (a : HandTracker.pinch_arrays) (i : nat) : result machine :=
  st <- getl (HandTracker.state_arr a) i ;;
  c <- getl (HandTracker.count_arr a) i ;;
  e <- getl (HandTracker.exit_arr a) i ;;
  l <- getl (HandTracker.time_arr a) i ;;
  Ok (mk_machine st c e l).

Definition machine_of (self : HandTracker.t) (which : string) (i : nat)
  : result machine :=
  machine_at (HandTracker.select_arrays self which) i.

(** What one call of [_pinch] does to the machine it addresses, and the
    click it returns ([pinch_on_view] below proves that it is this). *)
Definition view_step (m : machine) (dist : float) (qualified : bool)
    (now : float) : bool * machine :=
  if String.eqb (m_state m) "open" then
    let cond := (dist <? HandTracker.PINCH_ENTER) && qualified
                && (HandTracker.COOLDOWN <? now - m_last m) in
    let c1 := if cond then (m_count m + 1)%Z else 0%Z in
    if (HandTracker.DEBOUNCE <=? c1)%Z then
      (true, mk_machine "pinched" 0 (m_exit m) now)
    else (false, mk_machine (m_state m) c1 (m_exit m) (m_last m))
  else if String.eqb (m_state m) "pinched" then
    let e1 := if HandTracker.PINCH_EXIT <? dist then (m_exit m + 1)%Z
              else 0%Z in
    if (3 <=? e1)%Z then
      (false, mk_machine "open" (m_count m) 0 (m_last m))
    else (false, mk_machine (m_state m) (m_count m) e1 (m_last m))
  else (false, m).

(** The machines a tracker can be in: an open machine has fewer than four
    qualifying frames counted and no exit frames; a pinched one has no
    qualifying frames counted and fewer than three exit frames. *)
Definition machine_inv (m : machine) : Prop :=
  (m_state m = "open"%string /\ (0 <= m_count m < 4)%Z /\ m_exit m = 0%Z)
  \/ (m_state m = "pinched"%string /\ m_count m = 0%Z
      /\ (0 <= m_exit m < 3)%Z).

(** A machine that is at least [4 - k] qualifying frames away from a
    click: open with a counter of at most [k], or pinched with a counter
    of 0 (the counter it reopens with). *)
Definition short_of_click (k : Z) (m : machine) : Prop :=
  if String.eqb (m_state m) "open" then (0 <= m_count m <= k)%Z
  else if String.eqb (m_state m) "pinched" then m_count m = 0%Z
  else True.

(** One machine driven over consecutive frames; a frame is the filtered
    distance, the eligibility flag and the timestamp that [_process] hands
    to [_pinch].  The clicks come back in frame order. *)
Fixpoint pinch_frames (self : HandTracker.t) (i : nat) (which : string)
    (frames : list (float * bool * float))
  : result (list bool * HandTracker.t) :=
  match frames with
  | [] => Ok ([], self)
  | (dist, qualified, now) :: rest =>
      '(click, self1) <- HandTracker._pinch self i which dist qualified now ;;
      '(clicks, self2) <- pinch_frames self1 i which rest ;;
      Ok (click :: clicks, self2)
  end.

(** The test [_pinch] applies to a frame of an open machine whose last
    click was at [last]. *)
Definition qualifies (last : float) (frame : float * bool * float) : bool :=
  let '(dist, qualified, now) := frame in
  (dist <? HandTracker.PINCH_ENTER) && qualified
  && (HandTracker.COOLDOWN <? now - last).

(** The same test as section 4.3 of the specification words it, with
    "the cooldown has elapsed (>= 0.45 s)". *)
Definition qualifies_as_specified (last : float) (frame : float * bool * float)
  : bool :=
  let '(dist, qualified, now) := frame in
  (dist <? 0.28) && qualified && (0.45 <=? now - last).

(** The test [_pinch] applies to a frame of a pinched machine. *)
Definition past_exit (frame : float * bool * float) : bool :=
  HandTracker.PINCH_EXIT <? fst (fst frame).

(** One hand slot driven over consecutive frames: the successive calls
    [_process(landmarks, i, now)] that [_loop] makes for slot [i]. *)
Fixpoint process_frames (math_hypot : float -> float -> float)
    (self : HandTracker.t) (i : nat) (frames : list (list Landmark.t * float))
  : result (list HandState.t * HandTracker.t) :=
  match frames with
  | [] => Ok ([], self)
  | (lm, now) :: rest =>
      '(hs, self1) <- HandTracker._process math_hypot self lm i now ;;
      '(results, self2) <- process_frames math_hypot self1 i rest ;;
      Ok (hs :: results, self2)
  end.

(** Whether a frame shows all four fingers curled: no extension flag set. *)
Definition frame_curled (math_hypot : float -> float -> float)
    (frame : list Landmark.t * float) : bool :=
  match HandTracker.extension_flags math_hypot (fst frame) with
  | Ok ext => negb (existsb (fun b => b) ext)
  | Raise _ => false
  end.

(** The number of frames at the end of [l] that satisfy [p], on top of a
    run of [n] before [l]. *)
Fixpoint streak_from {A : Type} (p : A -> bool) (n : Z) (l : list A) : Z :=
  match l with
  | [] => n
  | a :: r => streak_from p (if p a then (n + 1)%Z else 0%Z) r
  end.

(** ** Concrete inputs for the worked examples *)

(** One admissible [math.hypot] and one admissible [sum]: the square root
    of the sum of squares, and the left-to-right sum. *)
Definition hypot_plain (a b : float) : float := sqrt (a * a + b * b).
Definition sum_plain (l : list float) : float := fold_left add l 0.

(** An open hand of 21 landmarks: wrist at (0.5, 0.75), index MCP at
    (0.5, 0.5), so the hand scale is 0.25; thumb tip at (0, 0.5) and index
    tip at (d / 4, 0.5), so the normalised thumb-index distance is [d];
    all four fingers extended. *)
Definition open_hand (d : float) : list Landmark.t :=
  [ Landmark.mk 0.5 0.75 0; Landmark.mk 0.4 0.7 0; Landmark.mk 0.3 0.65 0;
    Landmark.mk 0.2 0.6 0; Landmark.mk 0 0.5 0;
    Landmark.mk 0.5 0.5 0; Landmark.mk 0.4 0.5 0; Landmark.mk 0.3 0.5 0;
    Landmark.mk (d / 4) 0.5 0;
    Landmark.mk 0.55 0.5 0; Landmark.mk 0.55 0.4 0; Landmark.mk 0.55 0.35 0;
    Landmark.mk 0.55 0.3 0;
    Landmark.mk 0.6 0.5 0; Landmark.mk 0.6 0.4 0; Landmark.mk 0.6 0.35 0;
    Landmark.mk 0.6 0.3 0;
    Landmark.mk 0.65 0.55 0; Landmark.mk 0.65 0.45 0; Landmark.mk 0.65 0.4 0;
    Landmark.mk 0.65 0.35 0 ].

(** A fist: every fingertip nearer to the wrist than its PIP joint. *)
Definition fist_hand : list Landmark.t :=
  [ Landmark.mk 0.5 0.75 0; Landmark.mk 0.45 0.7 0; Landmark.mk 0.42 0.65 0;
    Landmark.mk 0.45 0.6 0; Landmark.mk 0.5 0.62 0;
    Landmark.mk 0.45 0.55 0; Landmark.mk 0.45 0.5 0; Landmark.mk 0.45 0.55 0;
    Landmark.mk 0.45 0.62 0;
    Landmark.mk 0.5 0.55 0; Landmark.mk 0.5 0.5 0; Landmark.mk 0.5 0.55 0;
    Landmark.mk 0.5 0.62 0;
    Landmark.mk 0.55 0.55 0; Landmark.mk 0.55 0.5 0; Landmark.mk 0.55 0.55 0;
    Landmark.mk 0.55 0.62 0;
    Landmark.mk 0.6 0.57 0; Landmark.mk 0.6 0.52 0; Landmark.mk 0.6 0.57 0;
    Landmark.mk 0.6 0.63 0 ].

(** [n] video frames at 30 per second starting at [1 + k / 30] s, each
    showing the hand [lm]. *)
Fixpoint held (lm : list Landmark.t) (k : Z) (n : nat)
  : list (list Landmark.t * float) :=
  match n with
  | O => []
  | S n' =>
      (lm, 1 + of_uint63 (Uint63.of_Z k) / 30) :: held lm (k + 1)%Z n'
  end.

(** A hand far from the camera: wrist and index MCP are 0.05 apart. *)
Definition far_hand : list Landmark.t :=
  [ Landmark.mk 0.5 0.55 0; Landmark.mk 0.48 0.54 0; Landmark.mk 0.46 0.53 0;
    Landmark.mk 0.45 0.52 0; Landmark.mk 0.44 0.51 0;
    Landmark.mk 0.5 0.5 0; Landmark.mk 0.5 0.49 0; Landmark.mk 0.5 0.48 0;
    Landmark.mk 0.5 0.47 0;
    Landmark.mk 0.51 0.5 0; Landmark.mk 0.51 0.49 0; Landmark.mk 0.51 0.48 0;
    Landmark.mk 0.51 0.47 0;
    Landmark.mk 0.52 0.5 0; Landmark.mk 0.52 0.49 0; Landmark.mk 0.52 0.48 0;
    Landmark.mk 0.52 0.47 0;
    Landmark.mk 0.53 0.51 0; Landmark.mk 0.53 0.5 0; Landmark.mk 0.53 0.49 0;
    Landmark.mk 0.53 0.48 0 ].


(** A slot that [_process] has not been called for since the tracker was
    made at time [clock]: the placeholders of [__init__] are in place and
    the two cursor filters have not seen a sample. *)
Definition untouched (clock : float) (self : HandTracker.t) (i : nat) : Prop :=
  getl (HandTracker._prev_x self) i = Ok 0.5
  /\ getl (HandTracker._prev_y self) i = Ok 0.5
  /\ getl (HandTracker._prev_t self) i = Ok clock
  /\ (exists fx, getl (HandTracker._filt_x self) i = Ok fx
                 /\ OneEuroFilter._t_prev fx = None)
  /\ (exists fy, getl (HandTracker._filt_y self) i = Ok fy
                 /\ OneEuroFilter._t_prev fy = None).

(** Consecutive turns of [_loop]; a frame is the clock reading before the
    capture, what the detector found, and the clock reading after the
    processing.  The snapshots come back as [get_state] returns them after
    each turn. *)
Fixpoint loop_frames (math_hypot : float -> float -> float)
    (sum : list float -> float) (self : HandTracker.t)
    (frames : list (float * option (list (list Landmark.t)) * float))
  : result (list TrackerState.t * HandTracker.t) :=
  match frames with
  | [] => Ok ([], self)
  | (t0, found, t1) :: rest =>
      self1 <- HandTracker._loop_body math_hypot sum self t0 found t1 ;;
      '(snaps, self2) <- loop_frames math_hypot sum self1 rest ;;
      Ok (HandTracker.get_state self1 :: snaps, self2)
  end.

(** The normalised thumb-index distance of a frame, before filtering:
    the value [_process] hands to the index distance filter. *)
Definition normalised_index_distance (lm : list Landmark.t) : result float :=
  hand_size <- HandTracker.hand_scale lm ;;
  thumb <- getl lm 4 ;;
  l8 <- getl lm 8 ;;
  raw_idx <- HandTracker._dist3d l8 thumb ;;
  pydiv raw_idx hand_size.

(** The scenario of section 8: two hands, five frames at 30 per second,
    hand 0 closing its thumb-index distance through 0.5, 0.4, 0.2, 0.15 and
    0.1 with all fingers extended. *)
Definition scenario_hands : list (list Landmark.t) :=
  [open_hand 0.5; open_hand 0.4; open_hand 0.2; open_hand 0.15; open_hand 0.1].

Definition scenario_time (k : Z) : float :=
  1 + of_uint63 (Uint63.of_Z k) / 30.

(** The time between the first two frames of the scenario. *)
Definition frame_gap : float := scenario_time 2 - scenario_time 1.

Definition scenario
  : list (float * option (list (list Landmark.t)) * float) :=
  map (fun kh : Z * list Landmark.t =>
         (scenario_time (fst kh), Some [snd kh; open_hand 0.9],
          scenario_time (fst kh) + 0.01))
      (combine [1; 2; 3; 4; 5]%Z scenario_hands).

(** A tracker as [__init__] makes it, except that the index distance
    filter of slot 0 already holds a sample: 0.05, taken at 1 s. *)
Definition warm_tracker : HandTracker.t :=
  HandTracker.set__filt_d_idx (HandTracker.__init__ 0.0)
    [OneEuroFilter.mk 0.5 0.003 1.0 (Some 0.05) 0.0 (Some 1.0);
     OneEuroFilter.__init__ 0.5 0.003 1.0].

(** ** The snapshot cell shared by the loop and its readers

    [_loop] builds each snapshot in a [TrackerState] object of its own
    ([ns = TrackerState()], then attribute assignments) and publishes it
    with [self.state = ns] inside [with self.lock].  [get_state] reads the
    four attributes of [self.state] one after the other inside
    [with self.lock] and returns a copy.  The two run in different
    threads.  The model below interleaves them attribute access by
    attribute access: objects live in a heap and are named by their index,
    [self.state] is a reference into it, [self.lock] is free or held by
    one thread, and each thread has a program point.  A thread enters
    [with self.lock] only when the lock is free. *)

Module Snapshot.

Inductive thread : Set := Producer | Reader.

(** Program points of one turn of [_loop]. *)
Inductive producer_pc : Set :=
| PTop                    (* before [ns = TrackerState()] *)
| PBuild (ns : nat)       (* [ns] allocated; its attributes are being set *)
| PLocked (ns : nat)      (* inside [with self.lock], before the assignment *)
| PAssigned.              (* [self.state = ns] done, lock still held *)

(** Program points of [get_state]. *)
Inductive reader_pc : Set :=
| RIdle
| RLocked                                         (* inside [with self.lock] *)
| RPrimary (p : HandState.t)                      (* primary copied *)
| RSecondary (p s : HandState.t)                  (* secondary copied *)
| RNum (p s : HandState.t) (n : Z)                (* num_hands read *)
| RDone (r : TrackerState.t).                     (* fps read, copy built *)

(** What an observer sees: a publication with the content of the published
    object, and a value returned by [get_state]. *)
Inductive event : Set :=
| Published (v : TrackerState.t)
| Returned (r : TrackerState.t).

Record config : Set := mk {
  heap : list TrackerState.t;
  cell : nat;
  lock : option thread;
  prod : producer_pc;
  read : reader_pc;
  trace : list event          (* newest first *)
}.

(** After [__init__]: [self.state = TrackerState()], lock free. *)
Definition init : config :=
  mk [TrackerState.default] 0 None PTop RIdle [].

Definition deref (h : list TrackerState.t) (k : nat) : TrackerState.t :=
  nth k h TrackerState.default.

Fixpoint update (h : list TrackerState.t) (k : nat)
    (f : TrackerState.t -> TrackerState.t) : list TrackerState.t :=
  match h, k with
  | [], _ => []
  | o :: r, O => f o :: r
  | o :: r, S j => o :: update r j f
  end.

Definition set_primary (v : HandState.t) (o : TrackerState.t) :=
  TrackerState.mk v (TrackerState.secondary o) (TrackerState.num_hands o)
                  (TrackerState.fps o).
Definition set_secondary (v : HandState.t) (o : TrackerState.t) :=
  TrackerState.mk (TrackerState.primary o) v (TrackerState.num_hands o)
                  (TrackerState.fps o).
Definition set_num_hands (v : Z) (o : TrackerState.t) :=
  TrackerState.mk (TrackerState.primary o) (TrackerState.secondary o) v
                  (TrackerState.fps o).
Definition set_fps (v : float) (o : TrackerState.t) :=
  TrackerState.mk (TrackerState.primary o) (TrackerState.secondary o)
                  (TrackerState.num_hands o) v.

(** One step of one thread. *)
Inductive step : config -> config -> Prop :=
(* the loop *)
| p_alloc h c l r t :
    step (mk h c l PTop r t)
         (mk (h ++ [TrackerState.default]) c l (PBuild (length h)) r t)
| p_set_num_hands h c l ns r t v :
    step (mk h c l (PBuild ns) r t)
         (mk (update h ns (set_num_hands v)) c l (PBuild ns) r t)
| p_set_primary h c l ns r t v :
    step (mk h c l (PBuild ns) r t)
         (mk (update h ns (set_primary v)) c l (PBuild ns) r t)
| p_set_secondary h c l ns r t v :
    step (mk h c l (PBuild ns) r t)
         (mk (update h ns (set_secondary v)) c l (PBuild ns) r t)
| p_set_fps h c l ns r t v :
    step (mk h c l (PBuild ns) r t)
         (mk (update h ns (set_fps v)) c l (PBuild ns) r t)
| p_acquire h c ns r t :
    step (mk h c None (PBuild ns) r t)
         (mk h c (Some Producer) (PLocked ns) r t)
| p_assign h c l ns r t :
    step (mk h c l (PLocked ns) r t)
         (mk h ns l PAssigned r (Published (deref h ns) :: t))
| p_release h c l r t :
    step (mk h c l PAssigned r t)
         (mk h c None PTop r t)
(* get_state *)
| r_acquire h c p t :
    step (mk h c None p RIdle t)
         (mk h c (Some Reader) p RLocked t)
| r_primary h c l p t :
    step (mk h c l p RLocked t)
         (mk h c l p (RPrimary (TrackerState.primary (deref h c))) t)
| r_secondary h c l p t x :
    step (mk h c l p (RPrimary x) t)
         (mk h c l p (RSecondary x (TrackerState.secondary (deref h c))) t)
| r_num_hands h c l p t x y :
    step (mk h c l p (RSecondary x y) t)
         (mk h c l p (RNum x y (TrackerState.num_hands (deref h c))) t)
| r_fps h c l p t x y n :
    step (mk h c l p (RNum x y n) t)
         (mk h c l p
             (RDone (TrackerState.mk x y n (TrackerState.fps (deref h c)))) t)
| r_return h c l p t res :
    step (mk h c l p (RDone res) t)
         (mk h c None p RIdle (Returned res :: t)).

Inductive reachable : config -> Prop :=
| reach_init : reachable init
| reach_step c c' : reachable c -> step c c' -> reachable c'.

(** The snapshot in force after the events [t] (newest first): the one
    published last, or the one [__init__] installed. *)
Fixpoint latest (t : list event) : TrackerState.t :=
  match t with
  | [] => TrackerState.default
  | Published v :: _ => v
  | Returned _ :: rest => latest rest
  end.

(** Every value returned is the snapshot in force when it is returned. *)
Definition reads_latest (t : list event) : Prop :=
  forall front r rest, t = front ++ Returned r :: rest -> r = latest rest.

(** The property as the specification words it: every value returned was
    published by some turn of the loop before. *)
Definition reads_published (t : list event) : Prop :=
  forall front r rest,
    t = front ++ Returned r :: rest -> In (Published r) rest.

(** No publication among the events. *)
Definition quiet (t : list event) : Prop :=
  forall v, ~ In (Published v) t.

(** The invariant of the interleaving: who holds the lock, by program
    point; what the reader has copied; the privacy of the object under
    construction. *)
Definition producer_holds (p : producer_pc) : bool :=
  match p with PLocked _ | PAssigned => true | _ => false end.

Definition reader_holds (r : reader_pc) : bool :=
  match r with RIdle => false | _ => true end.

(** What the reader has copied so far is what the published object holds. *)
Definition reader_ok (c : config) : Prop :=
  match read c with
  | RIdle | RLocked => True
  | RPrimary p => p = TrackerState.primary (deref (heap c) (cell c))
  | RSecondary p s =>
      p = TrackerState.primary (deref (heap c) (cell c))
      /\ s = TrackerState.secondary (deref (heap c) (cell c))
  | RNum p s n =>
      p = TrackerState.primary (deref (heap c) (cell c))
      /\ s = TrackerState.secondary (deref (heap c) (cell c))
      /\ n = TrackerState.num_hands (deref (heap c) (cell c))
  | RDone r => r = deref (heap c) (cell c)
  end.

(** The object under construction is not the published one. *)
Definition private_ok (c : config) : Prop :=
  match prod c with
  | PBuild ns | PLocked ns => ns < length (heap c) /\ ns <> cell c
  | _ => True
  end.

Record inv (c : config) : Prop := mk_inv {
  inv_cell : cell c < length (heap c);
  inv_latest : deref (heap c) (cell c) = latest (trace c);
  inv_private : private_ok c;
  inv_excl : producer_holds (prod c) && reader_holds (read c) = false;
  inv_lock : lock c = if producer_holds (prod c) then Some Producer
                      else if reader_holds (read c) then Some Reader
                      else None;
  inv_reader : reader_ok c;
  inv_reads : reads_latest (trace c)
}.

(** Two runs, by their final configurations: a read that completes before
    the loop has published anything, and a read after the loop published a
    snapshot with two hands. *)
Definition early_read : config :=
  mk [TrackerState.default] 0 None PTop RIdle [Returned TrackerState.default].

Definition two_hands : TrackerState.t :=
  TrackerState.mk HandState.default HandState.default 2%Z 0.0.

Definition read_after_publish : config :=
  mk [TrackerState.default; two_hands] 1 None PTop RIdle
     [Returned two_hands; Published two_hands].

End Snapshot.

(** ** Further views and drivers *)

(** The two memories of a filter are set together. *)
Definition filter_consistent (f : OneEuroFilter.t) : Prop :=
  match OneEuroFilter._x_prev f, OneEuroFilter._t_prev f with
  | None, None | Some _, Some _ => True
  | _, _ => False
  end.

(** Any sequence of calls [_pinch(i, which, dist, qualified, now)], on any
    slots and fingers. *)
Fixpoint pinch_calls (self : HandTracker.t)
    (calls : list (nat * string * float * bool * float))
  : result HandTracker.t :=
  match calls with
  | [] => Ok self
  | (i, which, dist, qualified, now) :: rest =>
      '(_, self1) <- HandTracker._pinch self i which dist qualified now ;;
      pinch_calls self1 rest
  end.

(** Everything the tracker keeps for one hand slot. *)
Definition slot_view (self : HandTracker.t) (j : nat) :=
  (getl (HandTracker._filt_x self) j, getl (HandTracker._filt_y self) j,
   getl (HandTracker._filt_d_idx self) j, getl (HandTracker._filt_d_mid self) j,
   (getl (HandTracker._prev_x self) j, getl (HandTracker._prev_y self) j,
    getl (HandTracker._prev_t self) j),
   (machine_of self "idx" j, machine_of self "mid" j),
   getl (HandTracker._fist_cnt self) j).

(** The hands of a detector result. *)
Definition hands_of (found : option (list (list Landmark.t)))
  : list (list Landmark.t) :=
  match found with
  | None => []
  | Some hlms => hlms
  end.

(** A list after item assignments at index [i] only. *)
Inductive assigned {A : Type} (i : nat) (l : list A) : list A -> Prop :=
| assigned_same : assigned i l l
| assigned_set v l1 l' :
    assigned i l l1 -> setl l1 i v = Ok l' -> assigned i l l'.

(** Two names for the same pinch machine family: [_pinch] tests only
    whether [which] is ["idx"]. *)
Definition same_family (w which : string) : bool :=
  Bool.eqb (String.eqb w "idx") (String.eqb which "idx").

(** ** controls.py: the mouse controller *)

(** [int(x)] of a float raises [ValueError] on a NaN and [OverflowError] on
    an infinity, and an [int] too large for a float raises [OverflowError]
    when it meets a float in a product.  These are the only failures of
    the controller; they are kept apart from the exceptions of the
    tracker. *)
Inductive conversion_error : Set :=
| NaNToInt
| InfinityToInt
| IntTooLarge.

Inductive outcome (A : Type) : Type :=
| Returns (a : A)
| Fails (e : conversion_error).

Arguments Returns {A} a.
Arguments Fails {A} e.

Definition obind {A B : Type} (r : outcome A) (k : A -> outcome B)
  : outcome B :=
  match r with
  | Returns a => k a
  | Fails e => Fails e
  end.

Notation "x <~ e ;; k" := (obind e (fun x => k))
  (at level 61, e at next level, right associativity) : py_scope.
Notation "' pat <~ e ;; k" := (obind e (fun x => match x with pat => k end))
  (at level 61, pat pattern, e at next level, right associativity) : py_scope.

(** [int(f)]: truncation toward zero. *)
Definition py_int (f : float) : outcome Z :=
  match Prim2SF f with
  | S754_zero _ => Returns 0%Z
  | S754_finite s m e =>
      let mag := Z.shiftl (Zpos m) e in
      Returns (if s then (- mag)%Z else mag)
  | S754_infinity _ => Fails InfinityToInt
  | S754_nan => Fails NaNToInt
  end.

(** The float of an [int] operand of a float product: the nearest float,
    ties to even; it raises when that is out of range. *)
Definition float_of_int (z : Z) : outcome float :=
  let f := SF2Prim (binary_normalize prec emax z 0 false) in
  if is_infinity f then Fails IntTooLarge else Returns f.

Module MouseController.

Definition MOUSEEVENTF_MOVE : Z := 0x0001%Z.
Definition MOUSEEVENTF_LEFTDOWN : Z := 0x0002%Z.
Definition MOUSEEVENTF_LEFTUP : Z := 0x0004%Z.
Definition MOUSEEVENTF_RIGHTDOWN : Z := 0x0008%Z.
Definition MOUSEEVENTF_RIGHTUP : Z := 0x0010%Z.
Definition MOUSEEVENTF_WHEEL : Z := 0x0800%Z.
Definition MOUSEEVENTF_ABSOLUTE : Z := 0x8000%Z.

(** What the controller asks of the operating system: a call of
    [user32.SetCursorPos(x, y)] or of [_send(flags, x, y, data)], with the
    arguments as Python passes them. *)
Inductive call : Set :=
| SetCursorPos (x y : Z)
| _send (flags x y data : Z).

Record t : Set := mk {
  screen_w : Z;
  screen_h : Z;
  _last_left : float;
  _last_right : float;
  _click_cooldown : float;
  _dragging : bool;
  _last_scroll_y : option float
}.

Definition set__last_left (self : t) (v : float) : t :=
  mk (screen_w self) (screen_h self) v (_last_right self)
     (_click_cooldown self) (_dragging self) (_last_scroll_y self).

Definition set__last_right (self : t) (v : float) : t :=
  mk (screen_w self) (screen_h self) (_last_left self) v
     (_click_cooldown self) (_dragging self) (_last_scroll_y self).

Definition set__dragging (self : t) (v : bool) : t :=
  mk (screen_w self) (screen_h self) (_last_left self) (_last_right self)
     (_click_cooldown self) v (_last_scroll_y self).

Definition set__last_scroll_y (self : t) (v : option float) : t :=
  mk (screen_w self) (screen_h self) (_last_left self) (_last_right self)
     (_click_cooldown self) (_dragging self) v.

Definition __init__ (screen_w screen_h : Z) : t :=
  mk screen_w screen_h 0.0 0.0 0.4 false None.

(** [move(nx, ny)]; the controller itself does not change. *)
Definition move (self : t) (nx ny : float) : outcome (list call) :=
  w <~ float_of_int (screen_w self) ;;
  kx <~ py_int (nx * w) ;;
  let x := Z.max 0 (Z.min kx (screen_w self - 1)) in
  h <~ float_of_int (screen_h self) ;;
  ky <~ py_int (ny * h) ;;
  let y := Z.max 0 (Z.min ky (screen_h self - 1)) in
  Returns [SetCursorPos x y].

(** [left_click()], with [now] the reading of [time.time()]: the value
    returned, the controller afterwards and the calls made. *)
Definition left_click (self : t) (now : float) : bool * t * list call :=
  if _click_cooldown self <? now - _last_left self then
    (true, set__last_left self now,
     [_send MOUSEEVENTF_LEFTDOWN 0 0 0; _send MOUSEEVENTF_LEFTUP 0 0 0])
  else (false, self, []).

Definition right_click (self : t) (now : float) : bool * t * list call :=
  if _click_cooldown self <? now - _last_right self then
    (true, set__last_right self now,
     [_send MOUSEEVENTF_RIGHTDOWN 0 0 0; _send MOUSEEVENTF_RIGHTUP 0 0 0])
  else (false, self, []).

Definition start_drag (self : t) : t * list call :=
  if negb (_dragging self) then
    (set__dragging self true, [_send MOUSEEVENTF_LEFTDOWN 0 0 0])
  else (self, []).

Definition stop_drag (self : t) : t * list call :=
  if _dragging self then
    (set__dragging self false, [_send MOUSEEVENTF_LEFTUP 0 0 0])
  else (self, []).

Definition is_dragging (self : t) : bool := _dragging self.

(** [scroll(ny, sensitivity)].  The new reference is stored before the
    wheel amount is converted. *)
Definition scroll (self : t) (ny sensitivity : float)
  : outcome (t * list call) :=
  match _last_scroll_y self with
  | None => Returns (set__last_scroll_y self (Some ny), [])
  | Some last =>
      let delta := (last - ny) * sensitivity in
      let self1 := set__last_scroll_y self (Some ny) in
      if 0.3 <? abs delta then
        data <~ py_int (delta * 120) ;;
        Returns (self1, [_send MOUSEEVENTF_WHEEL 0 0 data])
      else Returns (self1, [])
  end.

Definition reset_scroll (self : t) : t := set__last_scroll_y self None.

End MouseController.

(** Any sequence of method calls on a controller.  [run] gives the
    controller afterwards, every call made in order, and what each method
    returned ([None] where the method returns nothing). *)
Inductive method : Set :=
| Move (nx ny : float)
| LeftClick (now : float)
| RightClick (now : float)
| StartDrag
| StopDrag
| Scroll (ny sensitivity : float)
| ResetScroll.

Definition invoke (self : MouseController.t) (m : method)
  : outcome (option bool * MouseController.t * list MouseController.call) :=
  match m with
  | Move nx ny =>
      calls <~ MouseController.move self nx ny ;; Returns (None, self, calls)
  | LeftClick now =>
      let '(r, self1, calls) := MouseController.left_click self now in
      Returns (Some r, self1, calls)
  | RightClick now =>
      let '(r, self1, calls) := MouseController.right_click self now in
      Returns (Some r, self1, calls)
  | StartDrag =>
      let '(self1, calls) := MouseController.start_drag self in
      Returns (None, self1, calls)
  | StopDrag =>
      let '(self1, calls) := MouseController.stop_drag self in
      Returns (None, self1, calls)
  | Scroll ny sensitivity =>
      '(self1, calls) <~ MouseController.scroll self ny sensitivity ;;
      Returns (None, self1, calls)
  | ResetScroll => Returns (None, MouseController.reset_scroll self, [])
  end.

Fixpoint run (self : MouseController.t) (ms : list method)
  : outcome (MouseController.t * list MouseController.call
             * list (option bool)) :=
  match ms with
  | [] => Returns (self, [], [])
  | m :: rest =>
      '(r, self1, calls) <~ invoke self m ;;
      '(self2, calls', rs) <~ run self1 rest ;;
      Returns (self2, calls ++ calls', r :: rs)
  end.

(** How many of the calls are [_send] with the given flags. *)
Definition sent (flags : Z) (calls : list MouseController.call) : nat :=
  length (filter (fun c => match c with
                           | MouseController._send f _ _ _ => Z.eqb f flags
                           | _ => false
                           end) calls).

(** The click method of a button, and the method call that invokes it. *)
Definition click (right : bool) (self : MouseController.t) (now : float)
  : bool * MouseController.t * list MouseController.call :=
  if right then MouseController.right_click self now
  else MouseController.left_click self now.

Definition Click (right : bool) (now : float) : method :=
  if right then RightClick now else LeftClick now.

(** The time of the last click of a button that the controller remembers. *)
Definition stamp (right : bool) (self : MouseController.t) : float :=
  if right then MouseController._last_right self
  else MouseController._last_left self.

(** One more press than release exactly when dragging. *)
Definition button_held (self : MouseController.t) : nat :=
  if MouseController._dragging self then 1 else 0.

(** ** main.py: the gesture-to-action mapping of one turn of the main loop *)

Module Main.

(** What a turn asks of the controller and of the overlay. *)
Inductive effect : Set :=
| Mouse (c : MouseController.call)
| force_topmost
| toggle_visibility.

Record turn : Set := mk_turn {
  mouse : MouseController.t;
  hud_toggle_cooldown : float;
  effects : list effect;
  gesture_label : string;
  mode : string;
  cursor_state : string
}.

(** ["L-" in gesture_label] *)
Definition contains (needle s : string) : bool :=
  match String.index 0 needle s with
  | Some _ => true
  | None => false
  end.

(** The part of the loop body between [tracker.get_state()] and the
    rendering: [state] is the snapshot read, [now_click] and [now_toggle]
    are the readings of [time.time()] in the click methods and in the
    overlay toggle. *)
Definition gesture_turn (mouse : MouseController.t)
    (hud_toggle_cooldown : float) (state : TrackerState.t)
    (now_click now_toggle : float) : outcome turn :=
  let primary := TrackerState.primary state in
  let secondary := TrackerState.secondary state in
  '(mouse, hud_toggle_cooldown, effects, gesture_label, mode) <~
    (if HandState.detected primary then
       moved <~ MouseController.move mouse (HandState.x primary)
                  (HandState.y primary) ;;
       '(mouse, acted, gesture_label, mode) <~
         (if HandState.click_left primary then
            let '(_, mouse, calls) :=
              MouseController.left_click mouse now_click in
            Returns (mouse, map Mouse calls ++ [force_topmost],
                     "L-CLICK"%string, "CLICK"%string)
          else if HandState.click_right primary then
            let '(_, mouse, calls) :=
              MouseController.right_click mouse now_click in
            Returns (mouse, map Mouse calls ++ [force_topmost],
                     "R-CLICK"%string, "CLICK"%string)
          else if HandState.is_peace primary then
            '(mouse, calls) <~
              MouseController.scroll mouse (HandState.y primary) 15.0 ;;
            Returns (mouse, map Mouse calls,
                     "SCROLL"%string, "SCROLL"%string)
          else if HandState.is_fist primary then
            let '(mouse, calls) := MouseController.start_drag mouse in
            Returns (mouse, map Mouse calls, "DRAG"%string, "DRAG"%string)
          else if HandState.is_open_palm primary then
            let '(mouse, calls) := MouseController.stop_drag mouse in
            Returns (MouseController.reset_scroll mouse, map Mouse calls,
                     "OPEN"%string, "IDLE"%string)
          else
            let '(mouse, calls) := MouseController.stop_drag mouse in
            Returns (mouse, map Mouse calls, ""%string, "MOVE"%string)) ;;
       let '(hud_toggle_cooldown, toggled) :=
         if HandState.detected secondary && HandState.click_left secondary
         then
           if 1.0 <? now_toggle - hud_toggle_cooldown
           then (now_toggle, [toggle_visibility])
           else (hud_toggle_cooldown, [])
         else (hud_toggle_cooldown, []) in
       Returns (mouse, hud_toggle_cooldown,
                map Mouse moved ++ acted ++ toggled, gesture_label, mode)
     else
       let '(mouse, calls) := MouseController.stop_drag mouse in
       Returns (MouseController.reset_scroll mouse, hud_toggle_cooldown,
                map Mouse calls, ""%string, "IDLE"%string)) ;;
  let mouse :=
    if negb (String.eqb mode "SCROLL")
    then MouseController.reset_scroll mouse else mouse in
  let cursor_state :=
    if String.eqb mode "CLICK" then
      if contains "L-" gesture_label
      then "left_click"%string else "right_click"%string
    else if String.eqb mode "DRAG" then "drag"%string
    else if String.eqb mode "SCROLL" then "scroll"%string
    else "idle"%string in
  Returns (mk_turn mouse hud_toggle_cooldown effects gesture_label mode
             cursor_state).

(** The controller calls among the effects of a turn. *)
Definition mouse_calls (effs : list effect) : list MouseController.call :=
  flat_map (fun e => match e with Mouse c => [c] | _ => [] end) effs.

End Main.

(** Snapshots for the worked examples: one detected hand with the given
    result, no second hand. *)
Definition seen (hs : HandState.t) : TrackerState.t :=
  TrackerState.mk hs HandState.default 1%Z 30.0.

Definition peace_at (y : float) : HandState.t :=
  HandState.mk 0.5 y false false false true false 0.0 true [].

Definition fist_at (y : float) : HandState.t :=
  HandState.mk 0.5 y false false true false false 0.0 true [].

Definition left_pinch_at (y : float) : HandState.t :=
  HandState.mk 0.5 y true false false false false 0.0 true [].

(** * Properties *)

(** ** Lists as Python lists *)

Lemma getl_setl_same {A : Type} (l l' : list A) (i : nat) (v : A) :
  setl l i v = Ok l' -> getl l' i = Ok v.
Proof.
  revert l' i; induction l as [|h t IH]; intros l' [|j] H; simpl in H;
    try discriminate.
  - now inversion H.
  - destruct (setl t j v) as [t'|] eqn:E; simpl in H; [|discriminate].
    inversion H; subst. unfold getl; simpl.
    specialize (IH _ _ E). unfold getl in IH. exact IH.
Qed.

Lemma getl_setl_other {A : Type} (l l' : list A) (i j : nat) (v : A) :
  setl l i v = Ok l' -> i <> j -> getl l' j = getl l j.
Proof.
  revert l' i j; induction l as [|h t IH]; intros l' [|i] j H Hij;
    simpl in H; try discriminate.
  - inversion H; subst. destruct j; [congruence | reflexivity].
  - destruct (setl t i v) as [t'|] eqn:E; simpl in H; [|discriminate].
    inversion H; subst. destruct j; [reflexivity|].
    unfold getl; simpl. apply (IH _ _ j E). congruence.
Qed.

Lemma setl_defined {A : Type} (l : list A) (i : nat) (a v : A) :
  getl l i = Ok a -> exists l', setl l i v = Ok l'.
Proof.
  revert i; induction l as [|h t IH]; intros [|i] H; unfold getl in H;
    simpl in H; try discriminate.
  - eexists; reflexivity.
  - destruct (IH i) as [t' Ht'].
    + unfold getl. exact H.
    + simpl. rewrite Ht'. eexists; reflexivity.
Qed.

(** ** The pinch machine through its view *)

Lemma machine_at_inv (a : HandTracker.pinch_arrays) (i : nat) (m : machine) :
  machine_at a i = Ok m ->
  getl (HandTracker.state_arr a) i = Ok (m_state m)
  /\ getl (HandTracker.count_arr a) i = Ok (m_count m)
  /\ getl (HandTracker.exit_arr a) i = Ok (m_exit m)
  /\ getl (HandTracker.time_arr a) i = Ok (m_last m).
Proof.
  unfold machine_at. intros H.
  destruct (getl (HandTracker.state_arr a) i); [|discriminate].
  destruct (getl (HandTracker.count_arr a) i); [|discriminate].
  destruct (getl (HandTracker.exit_arr a) i); [|discriminate].
  destruct (getl (HandTracker.time_arr a) i); [|discriminate].
  simpl in H. inversion H; subst; simpl. auto.
Qed.

Lemma machine_at_intro (a : HandTracker.pinch_arrays) (i : nat)
    (st : string) (c e : Z) (l : float) :
  getl (HandTracker.state_arr a) i = Ok st ->
  getl (HandTracker.count_arr a) i = Ok c ->
  getl (HandTracker.exit_arr a) i = Ok e ->
  getl (HandTracker.time_arr a) i = Ok l ->
  machine_at a i = Ok (mk_machine st c e l).
Proof.
  unfold machine_at. intros -> -> -> ->. reflexivity.
Qed.

Lemma pinch_body_view (a : HandTracker.pinch_arrays) (i : nat) (m : machine)
    (dist : float) (qualified : bool) (now : float) :
  machine_at a i = Ok m ->
  exists a',
    HandTracker.pinch_body a i dist qualified now
    = Ok (fst (view_step m dist qualified now), a')
    /\ machine_at a' i = Ok (snd (view_step m dist qualified now))
    /\ forall j, j <> i -> machine_at a' j = machine_at a j.
Proof.
  intros Hm. destruct (machine_at_inv _ _ _ Hm) as (Hs & Hc & He & Hl).
  destruct a as [sa ca ea ta]; simpl in *.
  unfold HandTracker.pinch_body, view_step; simpl.
  rewrite Hs; simpl rbind.
  destruct (String.eqb (m_state m) "open") eqn:Eo.
  - set (cond := (dist <? HandTracker.PINCH_ENTER) && qualified
                 && (HandTracker.COOLDOWN <? now - m_last m)).
    assert (Hcond :
      (if dist <? HandTracker.PINCH_ENTER
       then if qualified
            then last <- getl ta i ;; Ok (HandTracker.COOLDOWN <? now - last)
            else Ok false
       else Ok false) = Ok cond).
    { unfold cond. rewrite Hl.
      destruct (dist <? HandTracker.PINCH_ENTER), qualified; reflexivity. }
    rewrite Hcond; simpl rbind.
    set (c1 := if cond then (m_count m + 1)%Z else 0%Z).
    assert (Hcount : exists count1,
      (if cond then c <- getl ca i ;; setl ca i (c + 1)%Z else setl ca i 0%Z)
      = Ok count1 /\ setl ca i c1 = Ok count1).
    { unfold c1. destruct cond.
      - rewrite Hc; simpl rbind.
        destruct (setl_defined ca i _ (m_count m + 1)%Z Hc) as [l' H'].
        exists l'; auto.
      - destruct (setl_defined ca i _ 0%Z Hc) as [l' H']. exists l'; auto. }
    destruct Hcount as (count1 & -> & Hset1); simpl rbind.
    rewrite (getl_setl_same _ _ _ _ Hset1); simpl rbind.
    destruct (HandTracker.DEBOUNCE <=? c1)%Z.
    + destruct (setl_defined sa i _ "pinched"%string Hs) as [s2 Hs2].
      rewrite Hs2; simpl rbind.
      destruct (setl_defined count1 i _ 0%Z (getl_setl_same _ _ _ _ Hset1))
        as [c2 Hc2].
      rewrite Hc2; simpl rbind.
      destruct (setl_defined ta i _ now Hl) as [t2 Ht2].
      rewrite Ht2; simpl rbind.
      eexists; split; [reflexivity|]. split.
      * apply machine_at_intro; simpl; eauto using getl_setl_same.
      * intros j Hj. unfold machine_at; simpl.
        rewrite (getl_setl_other _ _ _ j _ Hs2) by congruence.
        rewrite (getl_setl_other _ _ _ j _ Hc2) by congruence.
        rewrite (getl_setl_other _ _ _ j _ Hset1) by congruence.
        rewrite (getl_setl_other _ _ _ j _ Ht2) by congruence.
        reflexivity.
    + eexists; split; [reflexivity|]. split.
      * apply machine_at_intro; simpl; eauto using getl_setl_same.
      * intros j Hj. unfold machine_at; simpl.
        rewrite (getl_setl_other _ _ _ j _ Hset1) by congruence.
        reflexivity.
  - destruct (String.eqb (m_state m) "pinched") eqn:Ep.
    + set (e1 := if HandTracker.PINCH_EXIT <? dist then (m_exit m + 1)%Z
                 else 0%Z).
      assert (Hexit : exists exit1,
        (if HandTracker.PINCH_EXIT <? dist
         then e <- getl ea i ;; setl ea i (e + 1)%Z else setl ea i 0%Z)
        = Ok exit1 /\ setl ea i e1 = Ok exit1).
      { unfold e1. destruct (HandTracker.PINCH_EXIT <? dist).
        - rewrite He; simpl rbind.
          destruct (setl_defined ea i _ (m_exit m + 1)%Z He) as [l' H'].
          exists l'; auto.
        - destruct (setl_defined ea i _ 0%Z He) as [l' H']. exists l'; auto. }
      destruct Hexit as (exit1 & -> & Hset1); simpl rbind.
      rewrite (getl_setl_same _ _ _ _ Hset1); simpl rbind.
      destruct (3 <=? e1)%Z.
      * destruct (setl_defined sa i _ "open"%string Hs) as [s2 Hs2].
        rewrite Hs2; simpl rbind.
        destruct (setl_defined exit1 i _ 0%Z (getl_setl_same _ _ _ _ Hset1))
          as [e2 He2].
        rewrite He2; simpl rbind.
        eexists; split; [reflexivity|]. split.
        -- apply machine_at_intro; simpl; eauto using getl_setl_same.
        -- intros j Hj. unfold machine_at; simpl.
           rewrite (getl_setl_other _ _ _ j _ Hs2) by congruence.
           rewrite (getl_setl_other _ _ _ j _ He2) by congruence.
           rewrite (getl_setl_other _ _ _ j _ Hset1) by congruence.
           reflexivity.
      * eexists; split; [reflexivity|]. split.
        -- apply machine_at_intro; simpl; eauto using getl_setl_same.
        -- intros j Hj. unfold machine_at; simpl.
           rewrite (getl_setl_other _ _ _ j _ Hset1) by congruence.
           reflexivity.
    + eexists; split; [reflexivity|]. split.
      * destruct m; simpl in *. apply machine_at_intro; simpl; auto.
      * reflexivity.
Qed.

Lemma select_store (self : HandTracker.t) (which : string)
    (a : HandTracker.pinch_arrays) :
  HandTracker.select_arrays (HandTracker.store_arrays self which a) which = a.
Proof.
  unfold HandTracker.select_arrays, HandTracker.store_arrays.
  destruct (String.eqb which "idx"); destruct a; reflexivity.
Qed.

Lemma pinch_on_view (self : HandTracker.t) (i : nat) (which : string)
    (m : machine) (dist : float) (qualified : bool) (now : float) :
  machine_of self which i = Ok m ->
  exists self',
    HandTracker._pinch self i which dist qualified now
    = Ok (fst (view_step m dist qualified now), self')
    /\ machine_of self' which i = Ok (snd (view_step m dist qualified now)).
Proof.
  unfold machine_of, HandTracker._pinch. intros Hm.
  destruct (pinch_body_view _ _ _ dist qualified now Hm) as (a' & Hb & Hv & _).
  rewrite Hb; simpl rbind.
  eexists; split; [reflexivity|]. rewrite select_store. exact Hv.
Qed.

Lemma view_step_open (m : machine) (dist : float) (qualified : bool)
    (now : float) :
  m_state m = "open"%string ->
  view_step m dist qualified now =
  let c1 := if qualifies (m_last m) (dist, qualified, now)
            then (m_count m + 1)%Z else 0%Z in
  if (HandTracker.DEBOUNCE <=? c1)%Z
  then (true, mk_machine "pinched" 0 (m_exit m) now)
  else (false, mk_machine "open" c1 (m_exit m) (m_last m)).
Proof.
  intros Hs. unfold view_step, qualifies. rewrite Hs. reflexivity.
Qed.

Lemma view_step_pinched (m : machine) (dist : float) (qualified : bool)
    (now : float) :
  m_state m = "pinched"%string ->
  view_step m dist qualified now =
  let e1 := if HandTracker.PINCH_EXIT <? dist then (m_exit m + 1)%Z
            else 0%Z in
  if (3 <=? e1)%Z
  then (false, mk_machine "open" (m_count m) 0 (m_last m))
  else (false, mk_machine "pinched" (m_count m) e1 (m_last m)).
Proof.
  intros Hs. unfold view_step. rewrite Hs. reflexivity.
Qed.

(** The counters stay below their thresholds: every machine of a new
    tracker satisfies [machine_inv], and [_pinch] preserves it. *)
Lemma machine_inv_init (clock : float) (which : string) (i : nat) (m : machine) :
  machine_of (HandTracker.__init__ clock) which i = Ok m -> machine_inv m.
Proof.
  unfold machine_of, HandTracker.select_arrays. intros H.
  destruct (String.eqb which "idx"), i as [|[|[|i]]];
    unfold machine_at, getl in H; simpl in H;
    try discriminate; inversion H; subst; left; simpl;
    (split; [reflexivity|split; [lia|reflexivity]]).
Qed.

Lemma machine_inv_step (m : machine) (dist : float) (qualified : bool)
    (now : float) :
  machine_inv m -> machine_inv (snd (view_step m dist qualified now)).
Proof.
  unfold machine_inv.
  intros [(Hs & Hc & He) | (Hs & Hc & He)].
  - rewrite (view_step_open _ _ _ _ Hs). cbv zeta.
    unfold HandTracker.DEBOUNCE.
    destruct (qualifies (m_last m) (dist, qualified, now)).
    + destruct (Z.leb_spec 4 (m_count m + 1)); simpl.
      * right. split; [reflexivity|]. split; [reflexivity|lia].
      * left. split; [reflexivity|]. split; [lia|exact He].
    + simpl. left. split; [reflexivity|]. split; [lia|exact He].
  - rewrite (view_step_pinched _ _ _ _ Hs). cbv zeta.
    destruct (HandTracker.PINCH_EXIT <? dist).
    + destruct (Z.leb_spec 3 (m_exit m + 1)); simpl.
      * left. split; [reflexivity|]. split; [lia|reflexivity].
      * right. split; [reflexivity|]. split; [exact Hc|lia].
    + simpl. right. split; [reflexivity|]. split; [exact Hc|lia].
Qed.

(** An open machine whose counter cannot reach the debounce count within
    the given frames stays open and silent, whatever the frames are. *)
Lemma open_run_short (frames : list (float * bool * float)) :
  forall (self : HandTracker.t) (i : nat) (which : string) (m : machine),
    machine_of self which i = Ok m ->
    m_state m = "open"%string ->
    (0 <= m_count m)%Z ->
    (m_count m + Z.of_nat (length frames) < HandTracker.DEBOUNCE)%Z ->
    exists self' c,
      pinch_frames self i which frames
      = Ok (repeat false (length frames), self')
      /\ machine_of self' which i
         = Ok (mk_machine "open" c (m_exit m) (m_last m))
      /\ (0 <= c <= m_count m + Z.of_nat (length frames))%Z
      /\ (forallb (qualifies (m_last m)) frames = true ->
          c = (m_count m + Z.of_nat (length frames))%Z)
      /\ (forall f front, frames = front ++ [f] ->
          qualifies (m_last m) f = false -> c = 0%Z).
Proof.
  induction frames as [|[[dist qualified] now] rest IH];
    intros self i which m Hm Hs Hc Hlen.
  - exists self, (m_count m). simpl.
    split; [reflexivity|]. split; [destruct m; simpl in *; subst; exact Hm|].
    split; [lia|]. split; [intros _; lia|].
    intros f [|? ?]; discriminate.
  - simpl length in *.
    destruct (pinch_on_view self i which m dist qualified now Hm)
      as (self1 & Hp & Hm1).
    rewrite (view_step_open m dist qualified now Hs) in Hp, Hm1.
    cbv zeta in Hp, Hm1.
    set (c1 := if qualifies (m_last m) (dist, qualified, now)
               then (m_count m + 1)%Z else 0%Z) in *.
    assert (Hc1 : (0 <= c1 <= m_count m + 1)%Z).
    { unfold c1; destruct (qualifies _ _); lia. }
    unfold HandTracker.DEBOUNCE in *.
    destruct (4 <=? c1)%Z eqn:E4; [apply Z.leb_le in E4; lia|].
    simpl in Hp, Hm1.
    destruct (IH self1 i which _ Hm1 eq_refl) as (self2 & c & Hr & Hm2 & Hb & Hq & Hd);
      simpl; try lia.
    exists self2, c. simpl pinch_frames. rewrite Hp; simpl rbind.
    rewrite Hr; simpl rbind.
    split; [reflexivity|]. split; [exact Hm2|]. split; [simpl in Hb; lia|].
    split.
    + intros Hall. simpl forallb in Hall.
      apply andb_prop in Hall as [Hq1 Hall].
      specialize (Hq Hall). simpl in Hq.
      assert (Hq1' : qualifies (m_last m) (dist, qualified, now) = true)
        by exact Hq1.
      assert (c1 = (m_count m + 1)%Z) by (unfold c1; rewrite Hq1'; reflexivity).
      lia.
    + intros f front Hfr Hf.
      destruct front as [|f0 front'].
      * simpl in Hfr. inversion Hfr; subst.
        assert (c1 = 0%Z) by (unfold c1; rewrite Hf; reflexivity).
        simpl in Hb. lia.
      * simpl in Hfr. inversion Hfr; subst. eapply Hd; eauto.
Qed.

Lemma pinch_frames_app (front back : list (float * bool * float)) :
  forall (self : HandTracker.t) (i : nat) (which : string),
    pinch_frames self i which (front ++ back) =
    ('(c1, s1) <- pinch_frames self i which front ;;
     '(c2, s2) <- pinch_frames s1 i which back ;;
     Ok (c1 ++ c2, s2))%list.
Proof.
  induction front as [|[[d q] n] rest IH]; intros self i which; simpl.
  - destruct (pinch_frames self i which back) as [[c2 s2]|]; reflexivity.
  - destruct (HandTracker._pinch self i which d q n) as [[c s]|];
      [simpl rbind | reflexivity].
    rewrite IH.
    destruct (pinch_frames s i which rest) as [[c1 s1]|]; [simpl | reflexivity].
    destruct (pinch_frames s1 i which back) as [[c2 s2]|]; reflexivity.
Qed.

(** C1 (amended: the cooldown test is strict).  For every pinch machine
    of a tracker, read through its view [m]:
    - in state open, a frame increments the qualifying counter exactly when
      the filtered distance is below 0.28, pinch is eligible and MORE THAN
      0.45 s have passed since the last click of the pair, and resets it to
      0 otherwise; when the counter reaches 4 the machine becomes pinched,
      the counter is reset, the click time is stamped and the call returns
      a click, and otherwise it returns none;
    - in state pinched no frame returns a click, and the counter and the
      click time stay as they are;
    - from an open machine with counter 0, no three frames click whatever
      they are; four qualifying frames click on the fourth only; three
      qualifying frames followed by a disqualifying one never click and
      leave the counter at 0. *)
Theorem pinch_open_debounce :
  forall (self : HandTracker.t) (i : nat) (which : string) (m : machine),
    machine_of self which i = Ok m ->
    (m_state m = "open"%string ->
     forall dist qualified now,
       let c1 := if qualifies (m_last m) (dist, qualified, now)
                 then (m_count m + 1)%Z else 0%Z in
       exists self',
         HandTracker._pinch self i which dist qualified now
         = Ok ((4 <=? c1)%Z, self')
         /\ machine_of self' which i
            = Ok (if (4 <=? c1)%Z
                  then mk_machine "pinched" 0 (m_exit m) now
                  else mk_machine "open" c1 (m_exit m) (m_last m)))
    /\ (m_state m = "pinched"%string ->
        forall dist qualified now,
        exists self' m',
          HandTracker._pinch self i which dist qualified now = Ok (false, self')
          /\ machine_of self' which i = Ok m'
          /\ m_count m' = m_count m /\ m_last m' = m_last m)
    /\ (m_state m = "open"%string -> m_count m = 0%Z ->
        forall f1 f2 f3 f4,
          (exists self',
             pinch_frames self i which [f1; f2; f3]
             = Ok ([false; false; false], self'))
          /\ (forallb (qualifies (m_last m)) [f1; f2; f3; f4] = true ->
              exists self',
                pinch_frames self i which [f1; f2; f3; f4]
                = Ok ([false; false; false; true], self')
                /\ machine_of self' which i
                   = Ok (mk_machine "pinched" 0 (m_exit m) (snd f4)))
          /\ (forallb (qualifies (m_last m)) [f1; f2; f3] = true ->
              qualifies (m_last m) f4 = false ->
              exists self',
                pinch_frames self i which [f1; f2; f3; f4]
                = Ok ([false; false; false; false], self')
                /\ machine_of self' which i
                   = Ok (mk_machine "open" 0 (m_exit m) (m_last m)))).
Proof.
  intros self i which m Hm. split; [|split].
  - intros Hs dist qualified now c1.
    destruct (pinch_on_view self i which m dist qualified now Hm)
      as (self' & Hp & Hm').
    rewrite (view_step_open m dist qualified now Hs) in Hp, Hm'.
    cbv zeta in Hp, Hm'. fold c1 in Hp, Hm'.
    unfold HandTracker.DEBOUNCE in *.
    exists self'. destruct (4 <=? c1)%Z; simpl in Hp, Hm'; auto.
  - intros Hs dist qualified now.
    destruct (pinch_on_view self i which m dist qualified now Hm)
      as (self' & Hp & Hm').
    rewrite (view_step_pinched m dist qualified now Hs) in Hp, Hm'.
    cbv zeta in Hp, Hm'.
    destruct (3 <=? _)%Z; simpl in Hp, Hm'; eexists _, _; eauto.
  - intros Hs Hc f1 f2 f3 f4.
    assert (H3 : forall g1 g2 g3 : float * bool * float,
      exists self' c,
        pinch_frames self i which [g1; g2; g3]
        = Ok ([false; false; false], self')
        /\ machine_of self' which i
           = Ok (mk_machine "open" c (m_exit m) (m_last m))
        /\ (forallb (qualifies (m_last m)) [g1; g2; g3] = true -> c = 3%Z)).
    { intros g1 g2 g3.
      destruct (open_run_short [g1; g2; g3] self i which m Hm Hs)
        as (self' & c & Hr & Hm' & _ & Hq & _).
      - lia.
      - rewrite Hc. reflexivity.
      - exists self', c. repeat split; auto.
        intros Hall. rewrite (Hq Hall), Hc. reflexivity. }
    assert (H4 : forall self3,
      machine_of self3 which i = Ok (mk_machine "open" 3 (m_exit m) (m_last m)) ->
      exists self',
        HandTracker._pinch self3 i which (fst (fst f4)) (snd (fst f4)) (snd f4)
        = Ok (qualifies (m_last m) f4, self')
        /\ machine_of self' which i
           = Ok (if qualifies (m_last m) f4
                 then mk_machine "pinched" 0 (m_exit m) (snd f4)
                 else mk_machine "open" 0 (m_exit m) (m_last m))).
    { intros self3 Hm3. destruct f4 as [[d4 q4] n4].
      destruct (pinch_on_view self3 i which _ d4 q4 n4 Hm3)
        as (self' & Hp & Hm').
      rewrite view_step_open in Hp, Hm' by reflexivity.
      cbv zeta in Hp, Hm'. simpl m_last in *. simpl m_count in *.
      simpl m_exit in *. exists self'. simpl fst; simpl snd.
      destruct (qualifies (m_last m) (d4, q4, n4)); simpl in Hp, Hm'; auto. }
    split; [|split].
    + destruct (H3 f1 f2 f3) as (self' & c & Hr & _). eauto.
    + intros Hall.
      assert (Hall3 : forallb (qualifies (m_last m)) [f1; f2; f3] = true).
      { simpl forallb in *.
        repeat (apply andb_prop in Hall as [? Hall]).
        repeat (apply andb_true_intro; split); auto. }
      assert (Hq4 : qualifies (m_last m) f4 = true).
      { simpl forallb in Hall.
        repeat (apply andb_prop in Hall as [? Hall]). assumption. }
      destruct (H3 f1 f2 f3) as (self3 & c & Hr & Hm3 & Hc3).
      rewrite (Hc3 Hall3) in Hm3.
      destruct (H4 self3 Hm3) as (self' & Hp & Hm').
      rewrite Hq4 in Hp, Hm'.
      exists self'. split; [|exact Hm'].
      change [f1; f2; f3; f4] with ([f1; f2; f3] ++ [f4]).
      rewrite pinch_frames_app, Hr; simpl rbind.
      destruct f4 as [[d4 q4] n4]. simpl pinch_frames.
      simpl in Hp. rewrite Hp. reflexivity.
    + intros Hall3 Hq4.
      destruct (H3 f1 f2 f3) as (self3 & c & Hr & Hm3 & Hc3).
      rewrite (Hc3 Hall3) in Hm3.
      destruct (H4 self3 Hm3) as (self' & Hp & Hm').
      rewrite Hq4 in Hp, Hm'.
      exists self'. split; [|exact Hm'].
      change [f1; f2; f3; f4] with ([f1; f2; f3] ++ [f4]).
      rewrite pinch_frames_app, Hr; simpl rbind.
      destruct f4 as [[d4 q4] n4]. simpl pinch_frames.
      simpl in Hp. rewrite Hp. reflexivity.
Qed.

(** Four eligible frames below the enter threshold, after the cooldown,
    on a new tracker: the fourth clicks. *)
Lemma pinch_open_debounce_witness :
  exists self',
    pinch_frames (HandTracker.__init__ 0.0) 0 "idx"
      [(0.2, true, 1.0); (0.15, true, 1.1); (0.1, true, 1.2); (0.1, true, 1.3)]
    = Ok ([false; false; false; true], self')
    /\ machine_of self' "idx" 0 = Ok (mk_machine "pinched" 0 0 1.3).
Proof.
  destruct (pinch_open_debounce (HandTracker.__init__ 0.0) 0 "idx"
              (mk_machine "open" 0 0 0.0) eq_refl) as (_ & _ & H).
  destruct (H eq_refl eq_refl (0.2, true, 1.0) (0.15, true, 1.1)
              (0.1, true, 1.2) (0.1, true, 1.3)) as (_ & H4 & _).
  exact (H4 eq_refl).
Defined.

(** C1 as stated fails at the cooldown boundary.  On a new tracker (last
    click stamp 0.0) take four eligible frames with distance 0.1 at times
    0.45, 0.5, 0.55 and 0.6.  Each has at least 0.45 s elapsed, so by the
    claim the counter reaches 4 and the fourth frame clicks.  The code
    tests [now - last > 0.45]: the first frame leaves the counter at 0
    and no frame clicks. *)
Lemma pinch_cooldown_boundary_counterexample :
  forallb (qualifies_as_specified 0.0)
    [(0.1, true, 0.45); (0.1, true, 0.5); (0.1, true, 0.55); (0.1, true, 0.6)]
  = true
  /\ (exists self',
        HandTracker._pinch (HandTracker.__init__ 0.0) 0 "idx" 0.1 true 0.45
        = Ok (false, self')
        /\ machine_of self' "idx" 0 = Ok (mk_machine "open" 0 0 0.0))
  /\ (exists self',
        pinch_frames (HandTracker.__init__ 0.0) 0 "idx"
          [(0.1, true, 0.45); (0.1, true, 0.5); (0.1, true, 0.55);
           (0.1, true, 0.6)]
        = Ok ([false; false; false; false], self')).
Proof.
  split; [vm_compute; reflexivity|].
  split; eexists; [split|]; vm_compute; reflexivity.
Qed.

(** A pinched machine whose exit counter cannot reach 3 within the given
    frames stays pinched and silent, whatever the frames are. *)
Lemma pinched_run_short (frames : list (float * bool * float)) :
  forall (self : HandTracker.t) (i : nat) (which : string) (m : machine),
    machine_of self which i = Ok m ->
    m_state m = "pinched"%string ->
    (0 <= m_exit m)%Z ->
    (m_exit m + Z.of_nat (length frames) < 3)%Z ->
    exists self' e,
      pinch_frames self i which frames
      = Ok (repeat false (length frames), self')
      /\ machine_of self' which i
         = Ok (mk_machine "pinched" (m_count m) e (m_last m))
      /\ (0 <= e <= m_exit m + Z.of_nat (length frames))%Z
      /\ (forallb past_exit frames = true ->
          e = (m_exit m + Z.of_nat (length frames))%Z)
      /\ (forall f front, frames = front ++ [f] ->
          past_exit f = false -> e = 0%Z).
Proof.
  induction frames as [|[[dist qualified] now] rest IH];
    intros self i which m Hm Hs He Hlen.
  - exists self, (m_exit m). simpl.
    split; [reflexivity|]. split; [destruct m; simpl in *; subst; exact Hm|].
    split; [lia|]. split; [intros _; lia|].
    intros f [|? ?]; discriminate.
  - simpl length in *.
    destruct (pinch_on_view self i which m dist qualified now Hm)
      as (self1 & Hp & Hm1).
    rewrite (view_step_pinched m dist qualified now Hs) in Hp, Hm1.
    cbv zeta in Hp, Hm1.
    set (e1 := if HandTracker.PINCH_EXIT <? dist then (m_exit m + 1)%Z
               else 0%Z) in *.
    assert (He1 : (0 <= e1 <= m_exit m + 1)%Z).
    { unfold e1; destruct (_ <? _); lia. }
    destruct (3 <=? e1)%Z eqn:E3; [apply Z.leb_le in E3; lia|].
    simpl in Hp, Hm1.
    destruct (IH self1 i which _ Hm1 eq_refl)
      as (self2 & e & Hr & Hm2 & Hb & Hq & Hd); simpl; try lia.
    exists self2, e. simpl pinch_frames. rewrite Hp; simpl rbind.
    rewrite Hr; simpl rbind.
    split; [reflexivity|]. split; [exact Hm2|]. split; [simpl in Hb; lia|].
    split.
    + intros Hall. simpl forallb in Hall.
      apply andb_prop in Hall as [Hq1 Hall].
      specialize (Hq Hall). simpl in Hq.
      assert (Hq1' : (HandTracker.PINCH_EXIT <? dist) = true) by exact Hq1.
      assert (e1 = (m_exit m + 1)%Z) by (unfold e1; rewrite Hq1'; reflexivity).
      lia.
    + intros f front Hfr Hf.
      destruct front as [|f0 front'].
      * simpl in Hfr. inversion Hfr; subst.
        assert (Hf' : (HandTracker.PINCH_EXIT <? dist) = false) by exact Hf.
        assert (e1 = 0%Z) by (unfold e1; rewrite Hf'; reflexivity).
        simpl in Hb. lia.
      * simpl in Hfr. inversion Hfr; subst. eapply Hd; eauto.
Qed.

Lemma pinched_one (self : HandTracker.t) (i : nat) (which : string)
    (m : machine) (f : float * bool * float) :
  machine_of self which i = Ok m ->
  m_state m = "pinched"%string ->
  let e1 := if past_exit f then (m_exit m + 1)%Z else 0%Z in
  exists self',
    pinch_frames self i which [f] = Ok ([false], self')
    /\ machine_of self' which i
       = Ok (if (3 <=? e1)%Z
             then mk_machine "open" (m_count m) 0 (m_last m)
             else mk_machine "pinched" (m_count m) e1 (m_last m)).
Proof.
  intros Hm Hs e1. destruct f as [[dist qualified] now].
  destruct (pinch_on_view self i which m dist qualified now Hm)
    as (self' & Hp & Hm').
  rewrite (view_step_pinched m dist qualified now Hs) in Hp, Hm'.
  cbv zeta in Hp, Hm'. unfold past_exit in e1. simpl fst in e1. fold e1 in Hp, Hm'.
  exists self'. simpl pinch_frames.
  destruct (3 <=? e1)%Z; simpl in Hp, Hm'; rewrite Hp; simpl; auto.
Qed.

(** C4.  For every pinch machine in state pinched, read through its view
    [m]: a frame increments the exit counter when the distance exceeds 0.50
    and resets it to 0 otherwise; the machine goes back to open, with the
    exit counter reset, when the counter reaches 3, and stays pinched
    otherwise; no frame returns a click or touches the qualifying counter
    or the click time.  From an exit counter of 0: no two frames reopen the
    machine; three frames past the threshold reopen it on the third; three
    frames that are not all past the threshold leave it pinched, with the
    exit counter at 0 when the last one dipped back. *)
Theorem pinch_release_hysteresis :
  forall (self : HandTracker.t) (i : nat) (which : string) (m : machine),
    machine_of self which i = Ok m ->
    m_state m = "pinched"%string ->
    (forall dist qualified now,
       let e1 := if 0.50 <? dist then (m_exit m + 1)%Z else 0%Z in
       exists self',
         HandTracker._pinch self i which dist qualified now = Ok (false, self')
         /\ machine_of self' which i
            = Ok (if (3 <=? e1)%Z
                  then mk_machine "open" (m_count m) 0 (m_last m)
                  else mk_machine "pinched" (m_count m) e1 (m_last m)))
    /\ (m_exit m = 0%Z ->
        forall f1 f2 f3,
          (exists self' e,
             pinch_frames self i which [f1; f2] = Ok ([false; false], self')
             /\ machine_of self' which i
                = Ok (mk_machine "pinched" (m_count m) e (m_last m)))
          /\ (forallb past_exit [f1; f2; f3] = true ->
              exists self',
                pinch_frames self i which [f1; f2; f3]
                = Ok ([false; false; false], self')
                /\ machine_of self' which i
                   = Ok (mk_machine "open" (m_count m) 0 (m_last m)))
          /\ (forallb past_exit [f1; f2; f3] = false ->
              exists self' e,
                pinch_frames self i which [f1; f2; f3]
                = Ok ([false; false; false], self')
                /\ machine_of self' which i
                   = Ok (mk_machine "pinched" (m_count m) e (m_last m))
                /\ (past_exit f3 = false -> e = 0%Z))).
Proof.
  intros self i which m Hm Hs. split.
  - intros dist qualified now e1.
    destruct (pinch_on_view self i which m dist qualified now Hm)
      as (self' & Hp & Hm').
    rewrite (view_step_pinched m dist qualified now Hs) in Hp, Hm'.
    cbv zeta in Hp, Hm'. change HandTracker.PINCH_EXIT with 0.50 in Hp, Hm'.
    fold e1 in Hp, Hm'.
    exists self'. destruct (3 <=? e1)%Z; simpl in Hp, Hm'; auto.
  - intros He f1 f2 f3.
    assert (H2 : exists self' e,
      pinch_frames self i which [f1; f2] = Ok ([false; false], self')
      /\ machine_of self' which i
         = Ok (mk_machine "pinched" (m_count m) e (m_last m))
      /\ (0 <= e <= 2)%Z
      /\ (forallb past_exit [f1; f2] = true -> e = 2%Z)
      /\ (past_exit f2 = false -> e = 0%Z)).
    { destruct (pinched_run_short [f1; f2] self i which m Hm Hs)
        as (self' & e & Hr & Hm' & Hb & Hq & Hd); simpl length; try lia.
      exists self', e. rewrite He in *. simpl length in *.
      split; [exact Hr|]. split; [exact Hm'|]. split; [lia|].
      split; [intros Hall; rewrite (Hq Hall); reflexivity|].
      intros Hf. apply (Hd f2 [f1]); auto. }
    destruct H2 as (self2 & e & Hr2 & Hm2 & Hb2 & Hq2 & Hd2).
    destruct (pinched_one self2 i which _ f3 Hm2 eq_refl) as (self3 & Hr3 & Hm3).
    simpl m_exit in *; simpl m_count in *; simpl m_last in *.
    assert (Hrun : pinch_frames self i which [f1; f2; f3]
                   = Ok ([false; false; false], self3)).
    { change [f1; f2; f3] with ([f1; f2] ++ [f3]).
      rewrite pinch_frames_app, Hr2; cbn [rbind]. rewrite Hr3. reflexivity. }
    split; [eauto|]. split.
    + intros Hall. simpl forallb in Hall.
      apply andb_prop in Hall as [H1 Hall].
      apply andb_prop in Hall as [H2 Hall].
      apply andb_prop in Hall as [H3 _].
      assert (e = 2%Z) by (apply Hq2; simpl; rewrite H1, H2; reflexivity).
      subst e. rewrite H3 in Hm3. simpl in Hm3. eauto.
    + intros Hnot. destruct (past_exit f3) eqn:E3.
      * assert (e <> 2%Z).
        { intros ->. simpl forallb in Hnot. rewrite E3 in Hnot.
          destruct (past_exit f2) eqn:E2.
          - destruct (past_exit f1) eqn:E1; [discriminate|].
            (* f1 dipped: the run over f1, f2 restarts after f1 *)
            destruct (pinched_run_short [f1] self i which m Hm Hs)
              as (s1 & e1 & Hr1 & Hm1 & _ & _ & Hd1); simpl length;
              try lia.
            assert (e1 = 0%Z) by (apply (Hd1 f1 []); auto). subst e1.
            destruct (pinched_run_short [f2] s1 i which _ Hm1 eq_refl)
              as (s2 & e2 & Hr2' & Hm2' & Hb2' & _ & _); simpl; try lia.
            assert (Hrun2 : pinch_frames self i which [f1; f2]
                            = Ok ([false; false], s2)).
            { change [f1; f2] with ([f1] ++ [f2]).
              rewrite pinch_frames_app, Hr1; cbn [rbind].
              rewrite Hr2'. reflexivity. }
            rewrite Hr2 in Hrun2. inversion Hrun2; subst s2.
            rewrite Hm2 in Hm2'. inversion Hm2'. simpl in Hb2'. lia.
          - specialize (Hd2 eq_refl). discriminate. }
        assert (Hlt : (3 <=? e + 1)%Z = false) by (apply Z.leb_gt; lia).
        rewrite Hlt in Hm3. exists self3, (e + 1)%Z.
        split; [exact Hrun|]. split; [exact Hm3|]. discriminate.
      * simpl in Hm3. exists self3, 0%Z. auto.
Qed.

(** A pinched machine: three frames past 0.50 reopen it; a dip on the third
    frame keeps it pinched with the exit counter at 0. *)
Lemma pinch_release_hysteresis_witness :
  (exists self',
     pinch_frames
       (HandTracker.set__idx_state (HandTracker.__init__ 0.0)
          ["pinched"%string; "open"%string])
       0 "idx" [(0.6, true, 1.0); (0.7, true, 1.1); (0.8, true, 1.2)]
     = Ok ([false; false; false], self')
     /\ machine_of self' "idx" 0 = Ok (mk_machine "open" 0 0 0.0))
  /\ (exists self' e,
        pinch_frames
          (HandTracker.set__idx_state (HandTracker.__init__ 0.0)
             ["pinched"%string; "open"%string])
          0 "idx" [(0.6, true, 1.0); (0.7, true, 1.1); (0.4, true, 1.2)]
        = Ok ([false; false; false], self')
        /\ machine_of self' "idx" 0 = Ok (mk_machine "pinched" 0 e 0.0)
        /\ (past_exit (0.4, true, 1.2) = false -> e = 0%Z)).
Proof.
  destruct (pinch_release_hysteresis
              (HandTracker.set__idx_state (HandTracker.__init__ 0.0)
                 ["pinched"%string; "open"%string])
              0 "idx" (mk_machine "pinched" 0 0 0.0) eq_refl eq_refl)
    as (_ & H).
  split.
  - destruct (H eq_refl (0.6, true, 1.0) (0.7, true, 1.1) (0.8, true, 1.2))
      as (_ & H3 & _).
    exact (H3 eq_refl).
  - destruct (H eq_refl (0.6, true, 1.0) (0.7, true, 1.1) (0.4, true, 1.2))
      as (_ & _ & H3).
    exact (H3 eq_refl).
Defined.

(** ** filter.py: the monotonic-time guard *)

(** Every successful call leaves the filter primed, with the memories it
    returns from now on. *)
Lemma call_primes (f f' : OneEuroFilter.t) (x t v : float) :
  OneEuroFilter.__call__ f x t = Ok (v, f') -> OneEuroFilter.primed f'.
Proof.
  unfold OneEuroFilter.__call__, OneEuroFilter.primed.
  destruct (OneEuroFilter._t_prev f) as [tp|] eqn:Et.
  - destruct (t - tp <=? 0).
    + destruct (OneEuroFilter._x_prev f) as [xp|] eqn:Ex; [|discriminate].
      intros H; inversion H; subst. rewrite Ex, Et. eauto.
    + destruct (OneEuroFilter._x_prev f) as [xp|]; [|discriminate].
      destruct (pydiv (x - xp) (t - tp)); [simpl rbind|discriminate].
      destruct (OneEuroFilter._alpha _ _); [simpl rbind|discriminate].
      destruct (OneEuroFilter._alpha _ _); [simpl rbind|discriminate].
      intros H; inversion H; subst; simpl. eauto.
  - intros H; inversion H; subst; simpl. eauto.
Qed.

Lemma call_memory (f f' : OneEuroFilter.t) (x t v : float) :
  OneEuroFilter.__call__ f x t = Ok (v, f') ->
  OneEuroFilter._x_prev f' = Some v.
Proof.
  unfold OneEuroFilter.__call__.
  destruct (OneEuroFilter._t_prev f) as [tp|] eqn:Et.
  - destruct (t - tp <=? 0).
    + destruct (OneEuroFilter._x_prev f) as [xp|] eqn:Ex; [|discriminate].
      intros H; inversion H; subst. exact Ex.
    + destruct (OneEuroFilter._x_prev f) as [xp|]; [|discriminate].
      destruct (pydiv (x - xp) (t - tp)); [simpl rbind|discriminate].
      destruct (OneEuroFilter._alpha _ _); [simpl rbind|discriminate].
      destruct (OneEuroFilter._alpha _ _); [simpl rbind|discriminate].
      intros H; inversion H; subst; reflexivity.
  - intros H; inversion H; subst; reflexivity.
Qed.

Lemma guard_returns_memory (f : OneEuroFilter.t) (x t xp tp : float) :
  OneEuroFilter._x_prev f = Some xp ->
  OneEuroFilter._t_prev f = Some tp ->
  (t - tp <=? 0) = true ->
  OneEuroFilter.__call__ f x t = Ok (xp, f).
Proof.
  intros Hx Ht Hdt. unfold OneEuroFilter.__call__.
  rewrite Ht, Hdt, Hx. reflexivity.
Qed.

(** C6.  Let [f] be a filter that has received a sample: it is what a call
    left behind, and [v] is the value that call returned.  Then [f] holds
    [v] and a timestamp [tp]; and a further call, with any input, at a
    timestamp with [t - tp <= 0] returns [v] again and leaves the filter
    exactly as it was: stored value, derivative estimate and timestamp.
    The stored timestamp is that of the call when the call was the first
    sample or was itself later than the one before. *)
Theorem filter_time_guard :
  forall (f0 f : OneEuroFilter.t) (x0 t0 v : float),
    OneEuroFilter.__call__ f0 x0 t0 = Ok (v, f) ->
    (exists tp, OneEuroFilter._t_prev f = Some tp)
    /\ (forall x t tp,
          OneEuroFilter._t_prev f = Some tp ->
          (t - tp <=? 0) = true ->
          OneEuroFilter.__call__ f x t = Ok (v, f))
    /\ (OneEuroFilter._t_prev f0 = None ->
        OneEuroFilter._t_prev f = Some t0)
    /\ (forall tp0, OneEuroFilter._t_prev f0 = Some tp0 ->
        (t0 - tp0 <=? 0) = false ->
        OneEuroFilter._t_prev f = Some t0).
Proof.
  intros f0 f x0 t0 v Hcall.
  pose proof (call_primes _ _ _ _ _ Hcall) as [_ Ht].
  pose proof (call_memory _ _ _ _ _ Hcall) as Hx.
  split; [exact Ht|]. split.
  - intros x t tp Htp Hdt. exact (guard_returns_memory f x t v tp Hx Htp Hdt).
  - unfold OneEuroFilter.__call__ in Hcall. split.
    + intros Hn. rewrite Hn in Hcall. inversion Hcall; subst; reflexivity.
    + intros tp0 Hs Hdt. rewrite Hs, Hdt in Hcall.
      destruct (OneEuroFilter._x_prev f0) as [xp|]; [|discriminate].
      destruct (pydiv (x0 - xp) (t0 - tp0)); [simpl rbind in Hcall|discriminate].
      destruct (OneEuroFilter._alpha _ _); [simpl rbind in Hcall|discriminate].
      destruct (OneEuroFilter._alpha _ _); [simpl rbind in Hcall|discriminate].
      inversion Hcall; subst; reflexivity.
Qed.

(** A filter fed 0.3 at time 2.0 returns 0.3 for a repeated and for an
    earlier timestamp, and is unchanged. *)
Lemma filter_time_guard_witness :
  OneEuroFilter.__call__
    (OneEuroFilter.mk 1.5 0.01 1.0 (Some 0.3) 0.0 (Some 2.0)) 0.9 2.0
  = Ok (0.3, OneEuroFilter.mk 1.5 0.01 1.0 (Some 0.3) 0.0 (Some 2.0))
  /\ OneEuroFilter.__call__
       (OneEuroFilter.mk 1.5 0.01 1.0 (Some 0.3) 0.0 (Some 2.0)) 0.9 1.5
     = Ok (0.3, OneEuroFilter.mk 1.5 0.01 1.0 (Some 0.3) 0.0 (Some 2.0)).
Proof.
  destruct (filter_time_guard (OneEuroFilter.__init__ 1.5 0.01 1.0)
              (OneEuroFilter.mk 1.5 0.01 1.0 (Some 0.3) 0.0 (Some 2.0))
              0.3 2.0 0.3 eq_refl) as (_ & H & _).
  split; apply (H _ _ 2.0); reflexivity.
Defined.

(** ** The frame pipeline, section by section *)

Ltac inv_res H :=
  repeat match type of H with
  | rbind ?e _ = Ok _ =>
      let E := fresh "E" in
      destruct e as [?|?] eqn:E; [cbn [rbind] in H | discriminate H]
  | context [match ?p with pair _ _ => _ end] => destruct p
  end.

Lemma process_inv (math_hypot : float -> float -> float)
    (self self' : HandTracker.t) (lm : list Landmark.t) (i : nat)
    (now : float) (hs : HandState.t) :
  HandTracker._process math_hypot self lm i now = Ok (hs, self') ->
  exists hs_x hs_y s1 vel s2 h d_idx d_mid s3 e1 e2 e3 e4 cl s4 cr s5 fist,
    HandTracker.cursor_position self lm i now = Ok (hs_x, hs_y, s1)
    /\ HandTracker.cursor_velocity math_hypot s1 i hs_x hs_y now = Ok (vel, s2)
    /\ HandTracker.hand_scale lm = Ok h
    /\ HandTracker.pinch_distances s2 lm i now h = Ok (d_idx, d_mid, s3)
    /\ HandTracker.extension_flags math_hypot lm = Ok [e1; e2; e3; e4]
    /\ HandTracker._pinch s3 i "idx" d_idx (e3 || e4) now = Ok (cl, s4)
    /\ HandTracker._pinch s4 i "mid" d_mid (e3 || e4) now = Ok (cr, s5)
    /\ HandTracker.sustained_fist s5 i
         (negb (existsb (fun b => b) [e1; e2; e3; e4])) = Ok (fist, self')
    /\ hs = HandState.mk hs_x hs_y cl cr fist
              (e1 && e2 && negb e3 && negb e4) (e1 && e2 && e3 && e4)
              vel true (map (fun l => (Landmark.x l, Landmark.y l)) lm).
Proof.
  unfold HandTracker._process. intros H.
  destruct (HandTracker.cursor_position self lm i now)
    as [[[hs_x hs_y] s1]|] eqn:E1; [cbn [rbind] in H | discriminate].
  destruct (HandTracker.cursor_velocity math_hypot s1 i hs_x hs_y now)
    as [[vel s2]|] eqn:E2; [cbn [rbind] in H | discriminate].
  destruct (HandTracker.hand_scale lm) as [h|] eqn:E3;
    [cbn [rbind] in H | discriminate].
  destruct (HandTracker.pinch_distances s2 lm i now h)
    as [[[d_idx d_mid] s3]|] eqn:E4; [cbn [rbind] in H | discriminate].
  destruct (HandTracker.extension_flags math_hypot lm) as [ext|] eqn:E5;
    [cbn [rbind] in H | discriminate].
  destruct ext as [|e1 [|e2 [|e3 [|e4 [|? ?]]]]]; try discriminate.
  destruct (HandTracker._pinch s3 i "idx" d_idx (e3 || e4) now)
    as [[cl s4]|] eqn:E6; [cbn [rbind] in H | discriminate].
  destruct (HandTracker._pinch s4 i "mid" d_mid (e3 || e4) now)
    as [[cr s5]|] eqn:E7; [cbn [rbind] in H | discriminate].
  destruct (HandTracker.sustained_fist s5 i _) as [[fist s6]|] eqn:E8;
    [cbn [rbind] in H | discriminate].
  inversion H; subst.
  exists hs_x, hs_y, s1, vel, s2, h, d_idx, d_mid, s3, e1, e2, e3, e4,
         cl, s4, cr, s5, fist.
  repeat (split; [first [assumption | reflexivity]|]). reflexivity.
Qed.

Lemma sustained_fist_inv (self self' : HandTracker.t) (i : nat)
    (all_curled fist : bool) :
  HandTracker.sustained_fist self i all_curled = Ok (fist, self') ->
  exists cnt,
    getl (HandTracker._fist_cnt self) i = Ok cnt
    /\ getl (HandTracker._fist_cnt self') i
       = Ok (HandTracker.fist_count cnt all_curled)
    /\ fist = (8 <=? HandTracker.fist_count cnt all_curled)%Z.
Proof.
  unfold HandTracker.sustained_fist. intros H.
  destruct (getl (HandTracker._fist_cnt self) i) as [cnt|] eqn:Ec;
    [cbn [rbind] in H | discriminate].
  destruct (setl (HandTracker._fist_cnt self) i _) as [l'|] eqn:Es;
    [cbn [rbind] in H | discriminate].
  simpl in H. rewrite (getl_setl_same _ _ _ _ Es) in H. cbn [rbind] in H.
  inversion H; subst. exists cnt. simpl.
  rewrite (getl_setl_same _ _ _ _ Es). auto.
Qed.

(** The sections before the fist counter leave the counter list alone. *)
Lemma cursor_position_fist (self s : HandTracker.t) (lm : list Landmark.t)
    (i : nat) (now x y : float) :
  HandTracker.cursor_position self lm i now = Ok (x, y, s) ->
  HandTracker._fist_cnt s = HandTracker._fist_cnt self.
Proof.
  unfold HandTracker.cursor_position. intros H. inv_res H.
  inversion H; subst. reflexivity.
Qed.

Lemma cursor_velocity_fist (math_hypot : float -> float -> float)
    (self s : HandTracker.t) (i : nat) (x y now v : float) :
  HandTracker.cursor_velocity math_hypot self i x y now = Ok (v, s) ->
  HandTracker._fist_cnt s = HandTracker._fist_cnt self.
Proof.
  unfold HandTracker.cursor_velocity. intros H. inv_res H.
  inversion H; subst. reflexivity.
Qed.

Lemma pinch_distances_fist (self s : HandTracker.t) (lm : list Landmark.t)
    (i : nat) (now h di dm : float) :
  HandTracker.pinch_distances self lm i now h = Ok (di, dm, s) ->
  HandTracker._fist_cnt s = HandTracker._fist_cnt self.
Proof.
  unfold HandTracker.pinch_distances. intros H. inv_res H.
  inversion H; subst. reflexivity.
Qed.

Lemma pinch_fist (self s : HandTracker.t) (i : nat) (which : string)
    (dist now : float) (qualified click : bool) :
  HandTracker._pinch self i which dist qualified now = Ok (click, s) ->
  HandTracker._fist_cnt s = HandTracker._fist_cnt self.
Proof.
  unfold HandTracker._pinch. intros H. inv_res H.
  inversion H; subst. unfold HandTracker.store_arrays.
  destruct (String.eqb which "idx"); reflexivity.
Qed.

Lemma process_fist (math_hypot : float -> float -> float)
    (self self' : HandTracker.t) (lm : list Landmark.t) (i : nat)
    (now : float) (hs : HandState.t) :
  HandTracker._process math_hypot self lm i now = Ok (hs, self') ->
  exists cnt e1 e2 e3 e4,
    HandTracker.extension_flags math_hypot lm = Ok [e1; e2; e3; e4]
    /\ frame_curled math_hypot (lm, now)
       = negb (existsb (fun b => b) [e1; e2; e3; e4])
    /\ getl (HandTracker._fist_cnt self) i = Ok cnt
    /\ getl (HandTracker._fist_cnt self') i
       = Ok (HandTracker.fist_count cnt (frame_curled math_hypot (lm, now)))
    /\ HandState.is_fist hs
       = (8 <=? HandTracker.fist_count cnt
                  (frame_curled math_hypot (lm, now)))%Z
    /\ HandState.is_peace hs = e1 && e2 && negb e3 && negb e4
    /\ HandState.is_open_palm hs = e1 && e2 && e3 && e4.
Proof.
  intros H.
  destruct (process_inv _ _ _ _ _ _ _ H)
    as (hs_x & hs_y & s1 & vel & s2 & h & d_idx & d_mid & s3 & e1 & e2 & e3
        & e4 & cl & s4 & cr & s5 & fist
        & E1 & E2 & E3 & E4 & E5 & E6 & E7 & E8 & ->).
  destruct (sustained_fist_inv _ _ _ _ _ E8) as (cnt & Hc & Hc' & ->).
  rewrite (pinch_fist _ _ _ _ _ _ _ _ E7), (pinch_fist _ _ _ _ _ _ _ _ E6),
    (pinch_distances_fist _ _ _ _ _ _ _ _ E4),
    (cursor_velocity_fist _ _ _ _ _ _ _ _ E2),
    (cursor_position_fist _ _ _ _ _ _ _ E1) in Hc.
  assert (Hcurl : frame_curled math_hypot (lm, now)
                  = negb (existsb (fun b => b) [e1; e2; e3; e4])).
  { unfold frame_curled. simpl fst. rewrite E5. reflexivity. }
  exists cnt, e1, e2, e3, e4. rewrite Hcurl. simpl HandState.is_fist.
  simpl HandState.is_peace. simpl HandState.is_open_palm. auto 10.
Qed.

Lemma streak_all {A : Type} (p : A -> bool) (l : list A) :
  forall n, forallb p l = true ->
            streak_from p n l = (n + Z.of_nat (length l))%Z.
Proof.
  induction l as [|a r IH]; intros n H; simpl in *.
  - lia.
  - apply andb_prop in H as [Ha Hr]. rewrite Ha, (IH _ Hr). lia.
Qed.

Lemma streak_app {A : Type} (p : A -> bool) (front back : list A) :
  forall n, streak_from p n (front ++ back)
            = streak_from p (streak_from p n front) back.
Proof.
  induction front as [|a r IH]; intros n; simpl; [reflexivity | apply IH].
Qed.

Lemma fist_run (math_hypot : float -> float -> float)
    (frames : list (list Landmark.t * float)) :
  forall (self self' : HandTracker.t) (i : nat) (a : Z)
         (results : list HandState.t),
    getl (HandTracker._fist_cnt self) i = Ok (Z.min a 20) ->
    process_frames math_hypot self i frames = Ok (results, self') ->
    getl (HandTracker._fist_cnt self') i
    = Ok (Z.min (streak_from (frame_curled math_hypot) a frames) 20)
    /\ length results = length frames
    /\ (frames <> [] ->
        HandState.is_fist (last results HandState.default)
        = (8 <=? streak_from (frame_curled math_hypot) a frames)%Z).
Proof.
  induction frames as [|[lm now] rest IH]; intros self self' i a results Hc Hr.
  - simpl in Hr. inversion Hr; subst. simpl. repeat split; auto.
    intros H; contradiction.
  - simpl in Hr.
    destruct (HandTracker._process math_hypot self lm i now)
      as [[hs self1]|] eqn:Ep; [cbn [rbind] in Hr | discriminate].
    destruct (process_frames math_hypot self1 i rest)
      as [[results1 self2]|] eqn:Er; [cbn [rbind] in Hr | discriminate].
    inversion Hr; subst.
    destruct (process_fist _ _ _ _ _ _ _ Ep)
      as (cnt & e1 & e2 & e3 & e4 & _ & _ & Hcnt & Hcnt' & Hfist & _).
    rewrite Hc in Hcnt. inversion Hcnt; subst cnt.
    set (b := frame_curled math_hypot (lm, now)) in *.
    set (a' := if b then (a + 1)%Z else 0%Z).
    assert (Hstep : HandTracker.fist_count (Z.min a 20) b = Z.min a' 20).
    { unfold HandTracker.fist_count, a'. destruct b; lia. }
    rewrite Hstep in Hcnt', Hfist.
    destruct (IH _ _ _ a' _ Hcnt' Er) as (Hfin & Hlen & Hlast).
    simpl streak_from. fold b. fold a'.
    split; [exact Hfin|]. split; [simpl; congruence|].
    intros _. destruct rest as [|f rest'].
    + simpl in Er. inversion Er; subst. simpl. rewrite Hfist.
      destruct (Z.leb_spec 8 (Z.min a' 20)), (Z.leb_spec 8 a');
        try reflexivity; lia.
    + destruct results1 as [|r1 rs]; [simpl in Hlen; discriminate|].
      change (last (hs :: r1 :: rs) HandState.default)
        with (last (r1 :: rs) HandState.default).
      apply Hlast. discriminate.
Qed.

(** C5.  Take a hand slot whose fist counter is 0 (a new tracker, or the
    frame before showed an extended finger) and process any run of frames
    on it.  Afterwards the counter is the number of frames at the end of
    the run that showed no extended finger, capped at 20, and the
    [is_fist] flag of the last frame is true exactly when that number is
    at least 8.  So seven all-curled frames in a row never set the flag,
    the eighth does, and one frame with an extended finger puts the
    counter back to 0. *)
Theorem fist_sustain :
  forall (math_hypot : float -> float -> float) (self self' : HandTracker.t)
         (i : nat) (frames : list (list Landmark.t * float))
         (results : list HandState.t),
    getl (HandTracker._fist_cnt self) i = Ok 0%Z ->
    process_frames math_hypot self i frames = Ok (results, self') ->
    let n := streak_from (frame_curled math_hypot) 0 frames in
    getl (HandTracker._fist_cnt self') i = Ok (Z.min n 20)
    /\ (frames <> [] ->
        HandState.is_fist (last results HandState.default) = (8 <=? n)%Z)
    /\ (forallb (frame_curled math_hypot) frames = true ->
        n = Z.of_nat (length frames))
    /\ (forall front f, frames = front ++ [f] ->
        frame_curled math_hypot f = false -> n = 0%Z).
Proof.
  intros math_hypot self self' i frames results Hc Hr n.
  destruct (fist_run math_hypot frames self self' i 0 results Hc Hr)
    as (Hfin & _ & Hlast).
  split; [exact Hfin|]. split; [exact Hlast|]. split.
  - intros Hall. unfold n. rewrite (streak_all _ _ _ Hall). lia.
  - intros front f -> Hf. unfold n. rewrite streak_app. simpl.
    rewrite Hf. reflexivity.
Qed.

(** A fist held before the camera of a new tracker: after seven frames the
    flag is still off, after eight it is on. *)
Lemma fist_sustain_witness :
  (exists results self',
     process_frames hypot_plain (HandTracker.__init__ 0.0) 0
       (held fist_hand 1 7) = Ok (results, self')
     /\ getl (HandTracker._fist_cnt self') 0 = Ok 7%Z
     /\ HandState.is_fist (last results HandState.default) = false)
  /\ (exists results self',
        process_frames hypot_plain (HandTracker.__init__ 0.0) 0
          (held fist_hand 1 8) = Ok (results, self')
        /\ getl (HandTracker._fist_cnt self') 0 = Ok 8%Z
        /\ HandState.is_fist (last results HandState.default) = true).
Proof.
  split.
  - destruct (process_frames hypot_plain (HandTracker.__init__ 0.0) 0
                (held fist_hand 1 7)) as [[results self']|] eqn:E.
    + exists results, self'. split; [reflexivity|].
      destruct (fist_sustain hypot_plain (HandTracker.__init__ 0.0) self' 0%nat
                  _ results eq_refl E)
        as (Hc & Hf & _).
      split; [exact Hc|]. rewrite Hf by discriminate. reflexivity.
    + exfalso. vm_compute in E. discriminate.
  - destruct (process_frames hypot_plain (HandTracker.__init__ 0.0) 0
                (held fist_hand 1 8)) as [[results self']|] eqn:E.
    + exists results, self'. split; [reflexivity|].
      destruct (fist_sustain hypot_plain (HandTracker.__init__ 0.0) self' 0%nat
                  _ results eq_refl E)
        as (Hc & Hf & _).
      split; [exact Hc|]. rewrite Hf by discriminate. reflexivity.
    + exfalso. vm_compute in E. discriminate.
Defined.

(** C9.  In every hand result that [_process] produces, the three pose
    flags exclude one another: [is_fist] is set only on a frame with no
    extension flag set, which leaves [is_peace] and [is_open_palm] unset,
    and [is_peace] and [is_open_palm] differ on ring and pinky. *)
Theorem pose_flags_exclusive :
  forall (math_hypot : float -> float -> float) (self self' : HandTracker.t)
         (lm : list Landmark.t) (i : nat) (now : float) (hs : HandState.t),
    HandTracker._process math_hypot self lm i now = Ok (hs, self') ->
    (HandState.is_fist hs = true ->
     HandTracker.extension_flags math_hypot lm
     = Ok [false; false; false; false])
    /\ HandState.is_fist hs && HandState.is_peace hs = false
    /\ HandState.is_fist hs && HandState.is_open_palm hs = false
    /\ HandState.is_peace hs && HandState.is_open_palm hs = false.
Proof.
  intros math_hypot self self' lm i now hs H.
  destruct (process_fist _ _ _ _ _ _ _ H)
    as (cnt & e1 & e2 & e3 & e4 & Hext & Hcurl & _ & _ & Hfist & Hpeace & Hpalm).
  rewrite Hcurl in Hfist. rewrite Hfist, Hpeace, Hpalm, Hext.
  unfold HandTracker.fist_count.
  destruct e1, e2, e3, e4; simpl;
    rewrite ?andb_false_r;
    (split; [first [reflexivity | discriminate]|]); auto.
Qed.

(** An open palm on a new tracker. *)
Lemma pose_flags_exclusive_witness :
  exists hs self',
    HandTracker._process hypot_plain (HandTracker.__init__ 0.0)
      (open_hand 0.5) 0 1.0 = Ok (hs, self')
    /\ HandState.is_open_palm hs = true
    /\ HandState.is_fist hs && HandState.is_peace hs = false
    /\ HandState.is_fist hs && HandState.is_open_palm hs = false
    /\ HandState.is_peace hs && HandState.is_open_palm hs = false.
Proof.
  destruct (HandTracker._process hypot_plain (HandTracker.__init__ 0.0)
              (open_hand 0.5) 0 1.0) as [[hs self']|] eqn:E.
  - exists hs, self'. split; [reflexivity|].
    split; [vm_compute in E; inversion E; reflexivity|].
    exact (proj2 (pose_flags_exclusive _ _ _ _ _ _ _ E)).
  - exfalso. vm_compute in E. discriminate.
Defined.

(** ** Comparisons of binary64 numbers with constants *)



(** A number above zero does not compare equal to zero. *)
Lemma positive_nonzero (a : float) : (0 <? a) = true -> (a =? 0) = false.
Proof.
  rewrite FloatAxioms.eqb_spec, FloatAxioms.ltb_spec.
  change (Prim2SF 0) with (S754_zero false).
  destruct (Prim2SF a) as [s|s| |s m e]; cbn; try congruence.
  all: destruct s; cbn; congruence.
Qed.

Lemma float_of_len_table :
  forallb (fun n => negb (of_uint63 (Uint63.of_Z (Z.of_nat n)) =? 0))
          (seq 1 30) = true.
Proof. vm_compute. reflexivity. Qed.

Lemma float_of_len_nonzero {A : Type} (l : list A) :
  (1 <= length l <= 30)%nat -> (HandTracker.float_of_len l =? 0) = false.
Proof.
  intros H. pose proof float_of_len_table as T.
  rewrite forallb_forall in T. specialize (T (length l)).
  apply negb_true_iff. apply T. apply in_seq. lia.
Qed.

(** ** A frame without hands *)

Lemma deque_append_length (d : list float) (v : float) :
  (1 <= length (HandTracker.deque_append d v) <= 30)%nat.
Proof.
  unfold HandTracker.deque_append. rewrite length_skipn, length_app.
  simpl. lia.
Qed.

(** C8.  A turn of the loop in which the detector reports no hand ([None]
    or an empty list) does not fail; it publishes a snapshot with
    [num_hands = 0] and both hand results at the data class defaults (not
    detected), and it leaves every filter, every pinch machine (states,
    counters, click stamps), the fist counters and the previous cursor
    positions and times exactly as they were. *)
Theorem no_hands_frame :
  forall (math_hypot : float -> float -> float) (sum : list float -> float)
         (self : HandTracker.t) (t0 t1 : float)
         (found : option (list (list Landmark.t))),
    found = None \/ found = Some [] ->
    exists self',
      HandTracker._loop_body math_hypot sum self t0 found t1 = Ok self'
      /\ TrackerState.num_hands (HandTracker.get_state self') = 0%Z
      /\ TrackerState.primary (HandTracker.get_state self') = HandState.default
      /\ TrackerState.secondary (HandTracker.get_state self')
         = HandState.default
      /\ HandState.detected HandState.default = false
      /\ HandTracker._filt_x self' = HandTracker._filt_x self
      /\ HandTracker._filt_y self' = HandTracker._filt_y self
      /\ HandTracker._filt_d_idx self' = HandTracker._filt_d_idx self
      /\ HandTracker._filt_d_mid self' = HandTracker._filt_d_mid self
      /\ HandTracker._idx_state self' = HandTracker._idx_state self
      /\ HandTracker._mid_state self' = HandTracker._mid_state self
      /\ HandTracker._idx_count self' = HandTracker._idx_count self
      /\ HandTracker._mid_count self' = HandTracker._mid_count self
      /\ HandTracker._idx_exit self' = HandTracker._idx_exit self
      /\ HandTracker._mid_exit self' = HandTracker._mid_exit self
      /\ HandTracker._last_lclick self' = HandTracker._last_lclick self
      /\ HandTracker._last_rclick self' = HandTracker._last_rclick self
      /\ HandTracker._fist_cnt self' = HandTracker._fist_cnt self
      /\ HandTracker._prev_x self' = HandTracker._prev_x self
      /\ HandTracker._prev_y self' = HandTracker._prev_y self
      /\ HandTracker._prev_t self' = HandTracker._prev_t self.
Proof.
  intros math_hypot sum self t0 t1 found Hf.
  assert (Hbody :
    HandTracker._loop_body math_hypot sum self t0 found t1 =
    (let self1 := HandTracker.set__ftimes self
                    (HandTracker.deque_append (HandTracker._ftimes self)
                                              (t1 - t0)) in
     avg <- pydiv (sum (HandTracker._ftimes self1))
                  (HandTracker.float_of_len (HandTracker._ftimes self1)) ;;
     ns_fps <- (if 0 <? avg then pydiv 1.0 avg else Ok 0.0) ;;
     Ok (HandTracker.set_state self1
           (TrackerState.mk HandState.default HandState.default 0%Z ns_fps)))).
  { destruct Hf as [-> | ->]; reflexivity. }
  rewrite Hbody. cbv zeta. simpl HandTracker._ftimes.
  unfold pydiv at 1.
  rewrite (float_of_len_nonzero _ (deque_append_length _ _)). cbn [rbind].
  set (avg := sum _ / _).
  assert (Hfps : exists fps,
    (if 0 <? avg then pydiv 1.0 avg else Ok 0.0) = Ok fps).
  { destruct (0 <? avg) eqn:E; [|eauto].
    unfold pydiv. rewrite (positive_nonzero _ E). eauto. }
  destruct Hfps as [fps ->]. cbn [rbind].
  eexists. split; [reflexivity|]. simpl. repeat split; reflexivity.
Qed.

(** An empty detection on a new tracker. *)
Lemma no_hands_frame_witness :
  exists self',
    HandTracker._loop_body hypot_plain sum_plain (HandTracker.__init__ 0.0)
      1.0 (Some []) 1.01 = Ok self'
    /\ TrackerState.num_hands (HandTracker.get_state self') = 0%Z
    /\ HandTracker._fist_cnt self' = [0%Z; 0%Z]
    /\ HandTracker._idx_state self' = ["open"%string; "open"%string].
Proof.
  destruct (no_hands_frame hypot_plain sum_plain (HandTracker.__init__ 0.0)
              1.0 1.01 (Some []) (or_intror eq_refl))
    as (self' & Hr & Hn & _ & _ & _ & _ & _ & _ & _ & Hs & _ & _ & _ & _ & _
        & _ & _ & Hf & _).
  exists self'. auto.
Defined.

(** ** The velocity of a slot's first frame *)

Lemma call_filter_other (flist flist' : list OneEuroFilter.t) (j i : nat)
    (x now v : float) :
  HandTracker.call_filter flist j x now = Ok (v, flist') ->
  j <> i -> getl flist' i = getl flist i.
Proof.
  unfold HandTracker.call_filter. intros H Hji. inv_res H.
  inversion H; subst. eapply getl_setl_other; eauto.
Qed.



Lemma pinch_keeps_cursor (self s : HandTracker.t) (i : nat) (which : string)
    (dist now : float) (qualified click : bool) :
  HandTracker._pinch self i which dist qualified now = Ok (click, s) ->
  HandTracker._prev_x s = HandTracker._prev_x self
  /\ HandTracker._prev_y s = HandTracker._prev_y self
  /\ HandTracker._prev_t s = HandTracker._prev_t self
  /\ HandTracker._filt_x s = HandTracker._filt_x self
  /\ HandTracker._filt_y s = HandTracker._filt_y self.
Proof.
  unfold HandTracker._pinch. intros H. inv_res H.
  inversion H; subst. unfold HandTracker.store_arrays.
  destruct (String.eqb which "idx"); repeat split; reflexivity.
Qed.

(** Processing one slot leaves the other slot untouched. *)
Lemma process_other_untouched (math_hypot : float -> float -> float)
    (clock : float) (self self' : HandTracker.t) (lm : list Landmark.t)
    (j i : nat) (now : float) (hs : HandState.t) :
  HandTracker._process math_hypot self lm j now = Ok (hs, self') ->
  j <> i -> untouched clock self i -> untouched clock self' i.
Proof.
  intros H Hji (Hx & Hy & Ht & Hfx & Hfy).
  destruct (process_inv _ _ _ _ _ _ _ H)
    as (hs_x & hs_y & s1 & vel & s2 & h & d_idx & d_mid & s3 & e1 & e2 & e3
        & e4 & cl & s4 & cr & s5 & fist
        & E1 & E2 & E3 & E4 & E5 & E6 & E7 & E8 & _).
  destruct (pinch_keeps_cursor _ _ _ _ _ _ _ _ E6) as (P1 & P2 & P3 & P4 & P5).
  destruct (pinch_keeps_cursor _ _ _ _ _ _ _ _ E7) as (Q1 & Q2 & Q3 & Q4 & Q5).
  assert (F : HandTracker._prev_x self' = HandTracker._prev_x s5
              /\ HandTracker._prev_y self' = HandTracker._prev_y s5
              /\ HandTracker._prev_t self' = HandTracker._prev_t s5
              /\ HandTracker._filt_x self' = HandTracker._filt_x s5
              /\ HandTracker._filt_y self' = HandTracker._filt_y s5).
  { unfold HandTracker.sustained_fist in E8. inv_res E8.
    inversion E8; subst. repeat split; reflexivity. }
  destruct F as (F1 & F2 & F3 & F4 & F5).
  assert (D : HandTracker._prev_x s3 = HandTracker._prev_x s2
              /\ HandTracker._prev_y s3 = HandTracker._prev_y s2
              /\ HandTracker._prev_t s3 = HandTracker._prev_t s2
              /\ HandTracker._filt_x s3 = HandTracker._filt_x s2
              /\ HandTracker._filt_y s3 = HandTracker._filt_y s2).
  { unfold HandTracker.pinch_distances in E4. inv_res E4.
    inversion E4; subst. repeat split; reflexivity. }
  destruct D as (D1 & D2 & D3 & D4 & D5).
  assert (V : getl (HandTracker._prev_x s2) i = getl (HandTracker._prev_x s1) i
              /\ getl (HandTracker._prev_y s2) i
                 = getl (HandTracker._prev_y s1) i
              /\ getl (HandTracker._prev_t s2) i
                 = getl (HandTracker._prev_t s1) i
              /\ HandTracker._filt_x s2 = HandTracker._filt_x s1
              /\ HandTracker._filt_y s2 = HandTracker._filt_y s1).
  { unfold HandTracker.cursor_velocity in E2.
    destruct (getl (HandTracker._prev_t s1) j) as [pt|];
      [cbn [rbind] in E2|discriminate].
    destruct (if 0 <? now - pt then _ else _) as [v|];
      [cbn [rbind] in E2|discriminate].
    destruct (setl (HandTracker._prev_x s1) j hs_x) as [px'|] eqn:Sx;
      [cbn [rbind] in E2|discriminate].
    destruct (setl (HandTracker._prev_y s1) j hs_y) as [py'|] eqn:Sy;
      [cbn [rbind] in E2|discriminate].
    destruct (setl (HandTracker._prev_t s1) j now) as [pt'|] eqn:St;
      [cbn [rbind] in E2|discriminate].
    inversion E2; subst. simpl.
    rewrite (getl_setl_other _ _ _ i _ Sx Hji),
            (getl_setl_other _ _ _ i _ Sy Hji),
            (getl_setl_other _ _ _ i _ St Hji).
    repeat split; reflexivity. }
  destruct V as (V1 & V2 & V3 & V4 & V5).
  assert (C : HandTracker._prev_x s1 = HandTracker._prev_x self
              /\ HandTracker._prev_y s1 = HandTracker._prev_y self
              /\ HandTracker._prev_t s1 = HandTracker._prev_t self
              /\ getl (HandTracker._filt_x s1) i
                 = getl (HandTracker._filt_x self) i
              /\ getl (HandTracker._filt_y s1) i
                 = getl (HandTracker._filt_y self) i).
  { unfold HandTracker.cursor_position in E1.
    destruct (getl lm 8) as [l8|]; [cbn [rbind] in E1|discriminate].
    destruct (HandTracker.call_filter (HandTracker._filt_x self) j _ now)
      as [[vx fx]|] eqn:Cx; [cbn [rbind] in E1|discriminate].
    simpl in E1.
    destruct (HandTracker.call_filter (HandTracker._filt_y self) j _ now)
      as [[vy fy]|] eqn:Cy; [cbn [rbind] in E1|discriminate].
    inversion E1; subst. simpl.
    rewrite (call_filter_other _ _ _ i _ _ _ Cx Hji),
            (call_filter_other _ _ _ i _ _ _ Cy Hji).
    repeat split; reflexivity. }
  destruct C as (C1 & C2 & C3 & C4 & C5).
  unfold untouched.
  rewrite F1, F2, F3, F4, F5, Q1, Q2, Q3, Q4, Q5, P1, P2, P3, P4, P5,
          D1, D2, D3, D4, D5, V1, V2, V3, V4, V5, C1, C2, C3, C4, C5.
  auto.
Qed.




(** ** The snapshot cell *)

Module SnapshotFacts.
Import Snapshot.

Lemma update_length (h : list TrackerState.t) (k : nat)
    (f : TrackerState.t -> TrackerState.t) :
  length (update h k f) = length h.
Proof.
  revert k; induction h as [|o r IH]; intros [|k]; simpl; auto.
Qed.

Lemma deref_update_other (h : list TrackerState.t) (k c : nat)
    (f : TrackerState.t -> TrackerState.t) :
  k <> c -> deref (update h k f) c = deref h c.
Proof.
  unfold deref. revert k c; induction h as [|o r IH]; intros [|k] [|c] H;
    simpl; auto; try congruence.
Qed.

Lemma deref_alloc (h : list TrackerState.t) (c : nat) (o : TrackerState.t) :
  c < length h -> deref (h ++ [o]) c = deref h c.
Proof. intros H. unfold deref. apply app_nth1. exact H. Qed.

Lemma copy_is_object (o : TrackerState.t) :
  TrackerState.mk (TrackerState.primary o) (TrackerState.secondary o)
                  (TrackerState.num_hands o) (TrackerState.fps o) = o.
Proof. destruct o; reflexivity. Qed.

Lemma reads_latest_cons_published (v : TrackerState.t) (t : list event) :
  reads_latest t -> reads_latest (Published v :: t).
Proof.
  intros H front r rest E. destruct front as [|e front']; simpl in E.
  - discriminate.
  - inversion E; subst. eapply H; eauto.
Qed.

Lemma reads_latest_cons_returned (r : TrackerState.t) (t : list event) :
  reads_latest t -> r = latest t -> reads_latest (Returned r :: t).
Proof.
  intros H Hr front r' rest E. destruct front as [|e front']; simpl in E.
  - inversion E; subst. reflexivity.
  - inversion E; subst. eapply H; eauto.
Qed.

Lemma inv_init : inv init.
Proof.
  constructor; simpl; auto; try exact I.
  unfold reads_latest. intros front r rest E. destruct front; discriminate.
Qed.

Lemma inv_step (c c' : config) : inv c -> step c c' -> inv c'.
Proof.
  intros [Hc Hl Hp He Hk Hr Ht] Hs.
  destruct Hs; unfold private_ok, reader_ok in *; simpl in *.
  - (* p_alloc *)
    constructor; unfold private_ok, reader_ok; simpl;
      rewrite ?length_app, ?deref_alloc by assumption; simpl; auto; try lia.
  - (* p_set_num_hands *)
    destruct Hp as [Hn Hne].
    constructor; unfold private_ok, reader_ok; simpl;
      rewrite ?update_length, ?deref_update_other by assumption; auto.
  - (* p_set_primary *)
    destruct Hp as [Hn Hne].
    constructor; unfold private_ok, reader_ok; simpl;
      rewrite ?update_length, ?deref_update_other by assumption; auto.
  - (* p_set_secondary *)
    destruct Hp as [Hn Hne].
    constructor; unfold private_ok, reader_ok; simpl;
      rewrite ?update_length, ?deref_update_other by assumption; auto.
  - (* p_set_fps *)
    destruct Hp as [Hn Hne].
    constructor; unfold private_ok, reader_ok; simpl;
      rewrite ?update_length, ?deref_update_other by assumption; auto.
  - (* p_acquire: the lock was free, so the reader is outside *)
    destruct (reader_holds r) eqn:Er; [discriminate|].
    constructor; unfold private_ok, reader_ok; simpl; rewrite ?Er; auto.
  - (* p_assign: the reader is outside, the cell moves to the new object *)
    destruct Hp as [Hn Hne].
    destruct r; try discriminate.
    constructor; unfold private_ok, reader_ok; simpl; auto.
    apply reads_latest_cons_published. exact Ht.
  - (* p_release *)
    destruct r; try discriminate.
    constructor; unfold private_ok, reader_ok; simpl; auto.
  - (* r_acquire: the lock was free, so the loop is outside *)
    destruct (producer_holds p) eqn:Ep; [discriminate|].
    constructor; unfold private_ok, reader_ok; simpl; rewrite ?Ep; auto.
  - (* r_primary *)
    constructor; unfold private_ok, reader_ok; simpl; auto.
  - (* r_secondary *)
    constructor; unfold private_ok, reader_ok; simpl; auto.
  - (* r_num_hands *)
    destruct Hr. constructor; unfold private_ok, reader_ok; simpl; auto.
  - (* r_fps *)
    destruct Hr as (-> & -> & ->).
    constructor; unfold private_ok, reader_ok; simpl; auto.
    apply copy_is_object.
  - (* r_return *)
    assert (Ep : producer_holds p = false).
    { rewrite andb_true_r in He. exact He. }
    constructor; unfold private_ok, reader_ok; simpl;
      rewrite ?Ep, ?andb_false_r; auto.
    apply reads_latest_cons_returned; [exact Ht | congruence].
Qed.

Lemma inv_reachable (c : config) : reachable c -> inv c.
Proof.
  induction 1 as [|c c' _ IH Hs]; [apply inv_init | eapply inv_step; eauto].
Qed.

Lemma latest_quiet (mid t : list event) :
  quiet mid -> latest (mid ++ t) = latest t.
Proof.
  induction mid as [|[v|r] mid IH]; intros Hq; simpl.
  - reflexivity.
  - exfalso. apply (Hq v). left. reflexivity.
  - apply IH. intros v Hin. apply (Hq v). right. exact Hin.
Qed.

Lemma latest_origin (t : list event) :
  In (Published (latest t)) t \/ (quiet t /\ latest t = TrackerState.default).
Proof.
  induction t as [|[v|r] t IH]; simpl.
  - right. split; [intros v H; exact H | reflexivity].
  - left. left. reflexivity.
  - destruct IH as [H | [Hq Hd]].
    + left. right. exact H.
    + right. split; [|exact Hd].
      intros v [H|H]; [discriminate | exact (Hq v H)].
Qed.

Lemma early_read_reachable : reachable early_read.
Proof.
  pose proof reach_init as R.
  pose proof (reach_step _ _ R (r_acquire _ _ _ _)) as R1.
  pose proof (reach_step _ _ R1 (r_primary _ _ _ _ _)) as R2.
  pose proof (reach_step _ _ R2 (r_secondary _ _ _ _ _ _)) as R3.
  pose proof (reach_step _ _ R3 (r_num_hands _ _ _ _ _ _ _)) as R4.
  pose proof (reach_step _ _ R4 (r_fps _ _ _ _ _ _ _ _)) as R5.
  exact (reach_step _ _ R5 (r_return _ _ _ _ _ _)).
Qed.

Lemma read_after_publish_reachable : reachable read_after_publish.
Proof.
  pose proof reach_init as R.
  pose proof (reach_step _ _ R (p_alloc _ _ _ _ _)) as P1.
  pose proof (reach_step _ _ P1 (p_set_num_hands _ _ _ _ _ _ 2%Z)) as P2.
  pose proof (reach_step _ _ P2 (p_acquire _ _ _ _ _)) as P3.
  pose proof (reach_step _ _ P3 (p_assign _ _ _ _ _ _)) as P4.
  pose proof (reach_step _ _ P4 (p_release _ _ _ _ _)) as P5.
  pose proof (reach_step _ _ P5 (r_acquire _ _ _ _)) as R1.
  pose proof (reach_step _ _ R1 (r_primary _ _ _ _ _)) as R2.
  pose proof (reach_step _ _ R2 (r_secondary _ _ _ _ _ _)) as R3.
  pose proof (reach_step _ _ R3 (r_num_hands _ _ _ _ _ _ _)) as R4.
  pose proof (reach_step _ _ R4 (r_fps _ _ _ _ _ _ _ _)) as R5.
  exact (reach_step _ _ R5 (r_return _ _ _ _ _ _)).
Qed.

End SnapshotFacts.

(** C7 (amended: before the first publication a read returns the snapshot
    [__init__] installed).  In every interleaving of the loop and
    [get_state]: each value [get_state] returns is, whole, the snapshot in
    force when it returns -- the object published last, with the content
    it had when it was published, or the default snapshot of [__init__] if
    nothing has been published yet; so it is never a mix of two
    publications, and two reads with no publication between them return
    the same value. *)
Theorem snapshot_reads_whole :
  forall c : Snapshot.config,
    Snapshot.reachable c ->
    Snapshot.reads_latest (Snapshot.trace c)
    /\ (forall front r rest,
          Snapshot.trace c = front ++ Snapshot.Returned r :: rest ->
          In (Snapshot.Published r) rest
          \/ (Snapshot.quiet rest /\ r = TrackerState.default))
    /\ (forall front r2 mid r1 rest,
          Snapshot.trace c
          = front ++ Snapshot.Returned r2 :: mid ++ Snapshot.Returned r1 :: rest ->
          Snapshot.quiet mid -> r1 = r2).
Proof.
  intros c Hc. pose proof (Snapshot.inv_reads c
                             (SnapshotFacts.inv_reachable c Hc)) as H.
  split; [exact H|]. split.
  - intros front r rest E. rewrite (H _ _ _ E).
    apply SnapshotFacts.latest_origin.
  - intros front r2 mid r1 rest E Hq.
    rewrite (H front r2 _ E).
    rewrite (SnapshotFacts.latest_quiet mid _ Hq). simpl.
    apply (H (front ++ Snapshot.Returned r2 :: mid) r1 rest).
    rewrite E, <- app_assoc. reflexivity.
Qed.

(** A read after one publication returns what was published. *)
Lemma snapshot_reads_whole_witness :
  Snapshot.reachable Snapshot.read_after_publish
  /\ Snapshot.reads_latest
       [Snapshot.Returned Snapshot.two_hands;
        Snapshot.Published Snapshot.two_hands].
Proof.
  split; [exact SnapshotFacts.read_after_publish_reachable|].
  exact (proj1 (snapshot_reads_whole Snapshot.read_after_publish
                  SnapshotFacts.read_after_publish_reachable)).
Defined.

(** C7 as stated fails for a read that completes before the first turn of
    the loop has published: it returns the snapshot of [__init__], which no
    production cycle produced. *)
Lemma snapshot_early_read_counterexample :
  Snapshot.reachable Snapshot.early_read
  /\ Snapshot.trace Snapshot.early_read
     = [Snapshot.Returned TrackerState.default]
  /\ ~ Snapshot.reads_published (Snapshot.trace Snapshot.early_read).
Proof.
  split; [exact SnapshotFacts.early_read_reachable|].
  split; [reflexivity|].
  intros H. exact (H [] TrackerState.default [] eq_refl).
Qed.

(** * Further properties of the code *)

(** ** More comparisons of binary64 numbers *)

(** Strictly below implies below or equal. *)
Lemma ltb_leb (a b : float) : (a <? b) = true -> (a <=? b) = true.
Proof.
  rewrite FloatAxioms.ltb_spec, FloatAxioms.leb_spec.
  unfold SFltb, SFleb.
  destruct (SFcompare (Prim2SF a) (Prim2SF b)) as [[| |]|]; congruence.
Qed.

(** A number that is not below or equal to zero does not compare equal to
    zero. *)
Lemma above_guard_nonzero (a : float) : (a <=? 0) = false -> (a =? 0) = false.
Proof.
  rewrite FloatAxioms.eqb_spec, FloatAxioms.leb_spec.
  unfold SFeqb, SFleb.
  destruct (SFcompare (Prim2SF a) (Prim2SF 0)) as [[| |]|]; congruence.
Qed.

(** The two zeros are the only numbers that compare equal to zero. *)
Lemma eqb_zero_cases (c : float) :
  (c =? 0) = true -> c = 0 \/ c = (-0)%float.
Proof.
  rewrite FloatAxioms.eqb_spec. change (Prim2SF 0) with (S754_zero false).
  intros H. rewrite <- (FloatAxioms.SF2Prim_Prim2SF c).
  destruct (Prim2SF c) as [s|s| |s m e]; cbn in H; try discriminate.
  - destruct s; [right | left]; reflexivity.
  - destruct s; discriminate.
  - destruct s; discriminate.
Qed.

(** ** filter.py: reset, consistency, failure *)

(** X1.  After [reset], whatever the filter has seen and whatever the
    timestamp, the next call returns its sample unchanged and stores it
    with its timestamp; the derivative estimate is 0 and the parameters are
    those the filter was made with.  In particular the time guard does not
    outlive a reset. *)
Theorem reset_then_first_sample :
  forall (f : OneEuroFilter.t) (x t : float),
    OneEuroFilter.__call__ (OneEuroFilter.reset f) x t
    = Ok (x, OneEuroFilter.mk (OneEuroFilter.min_cutoff f)
               (OneEuroFilter.beta f) (OneEuroFilter.d_cutoff f)
               (Some x) 0.0 (Some t))
    /\ OneEuroFilter.reset f
       = OneEuroFilter.__init__ (OneEuroFilter.min_cutoff f)
           (OneEuroFilter.beta f) (OneEuroFilter.d_cutoff f)
    /\ (forall v f1 x' t',
          OneEuroFilter.__call__ f x t = Ok (v, f1) ->
          OneEuroFilter.__call__ (OneEuroFilter.reset f1) x' t'
          = OneEuroFilter.__call__
              (OneEuroFilter.__init__ (OneEuroFilter.min_cutoff f)
                 (OneEuroFilter.beta f) (OneEuroFilter.d_cutoff f)) x' t').
Proof.
  intros f x t. split; [reflexivity|]. split; [reflexivity|].
  intros v f1 x' t' H. unfold OneEuroFilter.__call__ in H.
  destruct (OneEuroFilter._t_prev f) as [tp|].
  - destruct (t - tp <=? 0).
    + destruct (OneEuroFilter._x_prev f); [|discriminate].
      inversion H; subst. reflexivity.
    + destruct (OneEuroFilter._x_prev f) as [xp|]; [|discriminate].
      destruct (pydiv (x - xp) (t - tp)); [cbn [rbind] in H|discriminate].
      destruct (OneEuroFilter._alpha _ _); [cbn [rbind] in H|discriminate].
      destruct (OneEuroFilter._alpha _ _); [cbn [rbind] in H|discriminate].
      inversion H; subst. reflexivity.
  - inversion H; subst. reflexivity.
Qed.

Lemma alpha_raises (cutoff dt : float) (e : exn) :
  OneEuroFilter._alpha cutoff dt = Raise e -> e = ZeroDivisionError.
Proof.
  unfold OneEuroFilter._alpha, pydiv.
  destruct (2 * math_pi * cutoff =? 0); cbn [rbind]; [congruence|].
  destruct (dt =? 0); cbn [rbind]; [congruence|].
  destruct (1.0 + _ =? 0); congruence.
Qed.

(** X2.  A filter made by [__init__] has its two memories set together,
    [reset] and every successful call keep it so and keep the three
    parameters; and on such a filter a call can fail in one way only, by a
    division by zero. *)
Theorem filter_calls_consistent :
  forall (f : OneEuroFilter.t) (x t : float),
    filter_consistent f ->
    filter_consistent (OneEuroFilter.reset f)
    /\ (forall v f',
          OneEuroFilter.__call__ f x t = Ok (v, f') ->
          filter_consistent f'
          /\ OneEuroFilter.min_cutoff f' = OneEuroFilter.min_cutoff f
          /\ OneEuroFilter.beta f' = OneEuroFilter.beta f
          /\ OneEuroFilter.d_cutoff f' = OneEuroFilter.d_cutoff f)
    /\ (forall e,
          OneEuroFilter.__call__ f x t = Raise e -> e = ZeroDivisionError).
Proof.
  intros f x t Hc. split; [exact I|].
  unfold filter_consistent in Hc. unfold OneEuroFilter.__call__.
  destruct (OneEuroFilter._t_prev f) as [tp|] eqn:Et,
           (OneEuroFilter._x_prev f) as [xp|] eqn:Ex; try contradiction.
  - split.
    + intros v f' H. destruct (t - tp <=? 0).
      * inversion H; subst f' v. unfold filter_consistent.
        rewrite Et, Ex. auto.
      * destruct (pydiv (x - xp) (t - tp)); [cbn [rbind] in H|discriminate].
        destruct (OneEuroFilter._alpha _ _); [cbn [rbind] in H|discriminate].
        destruct (OneEuroFilter._alpha _ _); [cbn [rbind] in H|discriminate].
        inversion H; subst; simpl. auto.
    + intros e H. destruct (t - tp <=? 0); [discriminate|].
      unfold pydiv at 1 in H.
      destruct (t - tp =? 0); cbn [rbind] in H; [congruence|].
      destruct (OneEuroFilter._alpha (OneEuroFilter.d_cutoff f) (t - tp))
        eqn:Ea; cbn [rbind] in H.
      * destruct (OneEuroFilter._alpha _ _) eqn:Eb in H; cbn [rbind] in H;
          [discriminate|].
        inversion H; subst. eapply alpha_raises; eauto.
      * inversion H; subst. eapply alpha_raises; eauto.
  - split.
    + intros v f' H. inversion H; subst; simpl. auto.
    + intros e H. discriminate.
Qed.

Lemma filter_calls_consistent_witness :
  filter_consistent (OneEuroFilter.reset (OneEuroFilter.__init__ 0.5 0.003 1.0))
  /\ (forall v f',
        OneEuroFilter.__call__ (OneEuroFilter.__init__ 0.5 0.003 1.0) 0.4 1.0
        = Ok (v, f') ->
        filter_consistent f'
        /\ OneEuroFilter.min_cutoff f' = 0.5
        /\ OneEuroFilter.beta f' = 0.003
        /\ OneEuroFilter.d_cutoff f' = 1.0).
Proof.
  destruct (filter_calls_consistent (OneEuroFilter.__init__ 0.5 0.003 1.0)
              0.4 1.0 I) as (H1 & H2 & _).
  split; [exact H1 | exact H2].
Defined.

(** X3.  A filter whose derivative cutoff is zero fails on its second
    sample: once it holds a sample, any call at a later timestamp raises
    [ZeroDivisionError] (the first sample and the guarded calls never
    divide). *)
Theorem zero_derivative_cutoff_fails :
  forall (f : OneEuroFilter.t) (x t xp tp : float),
    OneEuroFilter._x_prev f = Some xp ->
    OneEuroFilter._t_prev f = Some tp ->
    (OneEuroFilter.d_cutoff f =? 0) = true ->
    (t - tp <=? 0) = false ->
    OneEuroFilter.__call__ f x t = Raise ZeroDivisionError.
Proof.
  intros f x t xp tp Hx Ht Hd Hdt. unfold OneEuroFilter.__call__.
  rewrite Ht, Hdt, Hx. unfold pydiv at 1.
  rewrite (above_guard_nonzero _ Hdt). cbn [rbind].
  unfold OneEuroFilter._alpha at 1, pydiv at 1.
  assert (Hz : (2 * math_pi * OneEuroFilter.d_cutoff f =? 0) = true).
  { destruct (eqb_zero_cases _ Hd) as [-> | ->]; reflexivity. }
  rewrite Hz. reflexivity.
Qed.

Lemma zero_derivative_cutoff_fails_witness :
  OneEuroFilter.__call__
    (OneEuroFilter.mk 1.0 0.007 0.0 (Some 0.3) 0.0 (Some 2.0)) 0.4 2.5
  = Raise ZeroDivisionError.
Proof.
  apply (zero_derivative_cutoff_fails _ 0.4 2.5 0.3 2.0); reflexivity.
Defined.

(** ** tracker.py: the four pinch machines *)

Lemma setl_keeps_length {A : Type} (l l' : list A) (i : nat) (v : A) :
  setl l i v = Ok l' -> length l' = length l.
Proof.
  revert l' i; induction l as [|h t IH]; intros l' [|i] H; simpl in H;
    try discriminate.
  - now inversion H.
  - destruct (setl t i v) as [t'|] eqn:E; simpl in H; [|discriminate].
    inversion H; subst. simpl. f_equal. eauto.
Qed.

Lemma getl_defined_iff {A : Type} (l : list A) (i : nat) :
  (exists a, getl l i = Ok a) <-> i < length l.
Proof.
  unfold getl. split.
  - intros [a H]. apply nth_error_Some.
    destruct (nth_error l i); [discriminate | discriminate].
  - intros H. apply nth_error_Some in H.
    destruct (nth_error l i) as [a|]; [eauto | contradiction].
Qed.

Lemma assigned_other {A : Type} (i j : nat) (l l' : list A) :
  assigned i l l' -> i <> j -> getl l' j = getl l j.
Proof.
  induction 1 as [|v l1 l' _ IH Hs]; intros Hij; [reflexivity|].
  rewrite (getl_setl_other _ _ _ j _ Hs Hij). auto.
Qed.

Lemma assigned_length {A : Type} (i : nat) (l l' : list A) :
  assigned i l l' -> length l' = length l.
Proof.
  induction 1 as [|v l1 l' _ IH Hs]; [reflexivity|].
  rewrite (setl_keeps_length _ _ _ _ Hs). exact IH.
Qed.

Lemma pinch_body_assigns (a a' : HandTracker.pinch_arrays) (i : nat)
    (dist now : float) (qualified click : bool) :
  HandTracker.pinch_body a i dist qualified now = Ok (click, a') ->
  assigned i (HandTracker.state_arr a) (HandTracker.state_arr a')
  /\ assigned i (HandTracker.count_arr a) (HandTracker.count_arr a')
  /\ assigned i (HandTracker.exit_arr a) (HandTracker.exit_arr a')
  /\ assigned i (HandTracker.time_arr a) (HandTracker.time_arr a').
Proof.
  unfold HandTracker.pinch_body. intros H.
  destruct (getl (HandTracker.state_arr a) i) as [st|];
    [cbn [rbind] in H|discriminate].
  destruct (String.eqb st "open").
  - destruct (if dist <? HandTracker.PINCH_ENTER then _ else _) as [cond|];
      [cbn [rbind] in H|discriminate].
    destruct (if cond then _ else _) as [count1|] eqn:Ec;
      [cbn [rbind] in H|discriminate].
    assert (Hc1 : assigned i (HandTracker.count_arr a) count1).
    { destruct cond.
      - destruct (getl (HandTracker.count_arr a) i);
          [cbn [rbind] in Ec|discriminate].
        eapply assigned_set; [apply assigned_same | exact Ec].
      - eapply assigned_set; [apply assigned_same | exact Ec]. }
    destruct (getl count1 i) as [c1|]; [cbn [rbind] in H|discriminate].
    destruct (HandTracker.DEBOUNCE <=? c1)%Z.
    + destruct (setl (HandTracker.state_arr a) i _) as [s2|] eqn:Es;
        [cbn [rbind] in H|discriminate].
      destruct (setl count1 i _) as [c2|] eqn:Ec2;
        [cbn [rbind] in H|discriminate].
      destruct (setl (HandTracker.time_arr a) i now) as [t2|] eqn:Et;
        [cbn [rbind] in H|discriminate].
      inversion H; subst; simpl.
      repeat split; try apply assigned_same;
        eauto using assigned_set, (@assigned_same).
    + inversion H; subst; simpl.
      repeat split; try apply assigned_same; exact Hc1.
  - destruct (String.eqb st "pinched").
    + destruct (if HandTracker.PINCH_EXIT <? dist then _ else _)
        as [exit1|] eqn:Ee; [cbn [rbind] in H|discriminate].
      assert (He1 : assigned i (HandTracker.exit_arr a) exit1).
      { destruct (HandTracker.PINCH_EXIT <? dist).
        - destruct (getl (HandTracker.exit_arr a) i);
            [cbn [rbind] in Ee|discriminate].
          eapply assigned_set; [apply assigned_same | exact Ee].
        - eapply assigned_set; [apply assigned_same | exact Ee]. }
      destruct (getl exit1 i) as [e1|]; [cbn [rbind] in H|discriminate].
      destruct (3 <=? e1)%Z.
      * destruct (setl (HandTracker.state_arr a) i _) as [s2|] eqn:Es;
          [cbn [rbind] in H|discriminate].
        destruct (setl exit1 i _) as [e2|] eqn:Ee2;
          [cbn [rbind] in H|discriminate].
        inversion H; subst; simpl.
        repeat split; try apply assigned_same;
          eauto using assigned_set, (@assigned_same).
      * inversion H; subst; simpl.
        repeat split; try apply assigned_same; exact He1.
    + inversion H; subst. repeat split; apply assigned_same.
Qed.

Lemma select_same_family (self : HandTracker.t) (w which : string) :
  same_family w which = true ->
  HandTracker.select_arrays self w = HandTracker.select_arrays self which.
Proof.
  unfold same_family, HandTracker.select_arrays.
  destruct (String.eqb w "idx"), (String.eqb which "idx");
    simpl; intros H; try discriminate; reflexivity.
Qed.

Lemma select_store_other (self : HandTracker.t) (w which : string)
    (a : HandTracker.pinch_arrays) :
  same_family w which = false ->
  HandTracker.select_arrays (HandTracker.store_arrays self which a) w
  = HandTracker.select_arrays self w.
Proof.
  unfold same_family, HandTracker.select_arrays, HandTracker.store_arrays.
  destruct (String.eqb w "idx"), (String.eqb which "idx");
    simpl; intros H; try discriminate; reflexivity.
Qed.

Lemma machine_at_other (a a' : HandTracker.pinch_arrays) (i j : nat) :
  assigned i (HandTracker.state_arr a) (HandTracker.state_arr a') ->
  assigned i (HandTracker.count_arr a) (HandTracker.count_arr a') ->
  assigned i (HandTracker.exit_arr a) (HandTracker.exit_arr a') ->
  assigned i (HandTracker.time_arr a) (HandTracker.time_arr a') ->
  i <> j -> machine_at a' j = machine_at a j.
Proof.
  intros Hs Hc He Ht Hij. unfold machine_at.
  rewrite (assigned_other _ _ _ _ Hs Hij), (assigned_other _ _ _ _ Hc Hij),
          (assigned_other _ _ _ _ He Hij), (assigned_other _ _ _ _ Ht Hij).
  reflexivity.
Qed.

Lemma pinch_frame :
  forall (self self' : HandTracker.t) (i : nat) (which : string)
         (dist now : float) (qualified click : bool),
    HandTracker._pinch self i which dist qualified now = Ok (click, self') ->
    (forall w j, j <> i \/ same_family w which = false ->
                 machine_of self' w j = machine_of self w j)
    /\ HandTracker._filt_x self' = HandTracker._filt_x self
    /\ HandTracker._filt_y self' = HandTracker._filt_y self
    /\ HandTracker._filt_d_idx self' = HandTracker._filt_d_idx self
    /\ HandTracker._filt_d_mid self' = HandTracker._filt_d_mid self
    /\ HandTracker._prev_x self' = HandTracker._prev_x self
    /\ HandTracker._prev_y self' = HandTracker._prev_y self
    /\ HandTracker._prev_t self' = HandTracker._prev_t self
    /\ HandTracker._fist_cnt self' = HandTracker._fist_cnt self
    /\ HandTracker._ftimes self' = HandTracker._ftimes self
    /\ HandTracker.state self' = HandTracker.state self.
Proof.
  intros self self' i which dist now qualified click H.
  unfold HandTracker._pinch in H.
  destruct (HandTracker.pinch_body _ i dist qualified now)
    as [[c a']|] eqn:Eb; [cbn [rbind] in H|discriminate].
  inversion H; subst click self'. clear H.
  destruct (pinch_body_assigns _ _ _ _ _ _ _ Eb) as (As & Ac & Ae & At).
  split.
  - intros w j Hor. unfold machine_of.
    destruct (same_family w which) eqn:Ef.
    + destruct Hor as [Hj | Hf]; [|discriminate].
      rewrite (select_same_family _ w which Ef), select_store.
      rewrite (select_same_family self w which Ef).
      apply (machine_at_other _ _ i j); auto.
    + rewrite (select_store_other _ _ _ _ Ef). reflexivity.
  - unfold HandTracker.store_arrays.
    destruct (String.eqb which "idx"); repeat split; reflexivity.
Qed.

(** X4.  A call of [_pinch] for slot [i] and one finger leaves the three
    other pinch machines as they are (the other slot of the same finger,
    and both slots of the other finger), and does not touch the filters,
    the previous cursor, the fist counters, the frame times or the
    published snapshot. *)
Theorem pinch_machines_independent :
  forall (self self' : HandTracker.t) (i : nat) (which : string)
         (dist now : float) (qualified click : bool),
    HandTracker._pinch self i which dist qualified now = Ok (click, self') ->
    (forall w j, j <> i \/ same_family w which = false ->
                 machine_of self' w j = machine_of self w j)
    /\ HandTracker._filt_x self' = HandTracker._filt_x self
    /\ HandTracker._filt_y self' = HandTracker._filt_y self
    /\ HandTracker._filt_d_idx self' = HandTracker._filt_d_idx self
    /\ HandTracker._filt_d_mid self' = HandTracker._filt_d_mid self
    /\ HandTracker._prev_x self' = HandTracker._prev_x self
    /\ HandTracker._prev_y self' = HandTracker._prev_y self
    /\ HandTracker._prev_t self' = HandTracker._prev_t self
    /\ HandTracker._fist_cnt self' = HandTracker._fist_cnt self
    /\ HandTracker._ftimes self' = HandTracker._ftimes self
    /\ HandTracker.state self' = HandTracker.state self.
Proof. exact pinch_frame. Qed.

Lemma pinch_machines_independent_witness :
  exists self',
    HandTracker._pinch (HandTracker.__init__ 0.0) 0 "idx" 0.1 true 1.0
    = Ok (false, self')
    /\ machine_of self' "idx" 1 = Ok (mk_machine "open" 0 0 0.0)
    /\ machine_of self' "mid" 0 = Ok (mk_machine "open" 0 0 0.0).
Proof.
  destruct (HandTracker._pinch (HandTracker.__init__ 0.0) 0 "idx" 0.1 true 1.0)
    as [[c self']|] eqn:E; [|exfalso; vm_compute in E; discriminate].
  assert (c = false) by (vm_compute in E; inversion E; reflexivity).
  subst c. exists self'. split; [reflexivity|].
  destruct (pinch_machines_independent _ _ _ _ _ _ _ _ E) as (H & _).
  split.
  - rewrite (H "idx"%string 1%nat); [reflexivity | left; discriminate].
  - rewrite (H "mid"%string 0%nat); [reflexivity | right; reflexivity].
Defined.

Lemma machine_at_transfer (a a' : HandTracker.pinch_arrays) (i : nat)
    (m : machine) :
  length (HandTracker.state_arr a') = length (HandTracker.state_arr a) ->
  length (HandTracker.count_arr a') = length (HandTracker.count_arr a) ->
  length (HandTracker.exit_arr a') = length (HandTracker.exit_arr a) ->
  length (HandTracker.time_arr a') = length (HandTracker.time_arr a) ->
  machine_at a' i = Ok m -> exists m0, machine_at a i = Ok m0.
Proof.
  intros Ls Lc Le Ltm H.
  destruct (machine_at_inv _ _ _ H) as (Hs & Hc & He & Ht).
  assert (Gs : exists v, getl (HandTracker.state_arr a) i = Ok v).
  { apply (proj2 (getl_defined_iff _ _)). rewrite <- Ls.
    apply (proj1 (getl_defined_iff _ _)). eauto. }
  assert (Gc : exists v, getl (HandTracker.count_arr a) i = Ok v).
  { apply (proj2 (getl_defined_iff _ _)). rewrite <- Lc.
    apply (proj1 (getl_defined_iff _ _)). eauto. }
  assert (Ge : exists v, getl (HandTracker.exit_arr a) i = Ok v).
  { apply (proj2 (getl_defined_iff _ _)). rewrite <- Le.
    apply (proj1 (getl_defined_iff _ _)). eauto. }
  assert (Gt : exists v, getl (HandTracker.time_arr a) i = Ok v).
  { apply (proj2 (getl_defined_iff _ _)). rewrite <- Ltm.
    apply (proj1 (getl_defined_iff _ _)). eauto. }
  destruct Gs as [s Gs], Gc as [c Gc], Ge as [e Ge], Gt as [t Gt].
  exists (mk_machine s c e t). apply machine_at_intro; assumption.
Qed.

Lemma pinch_keeps_inv (self self' : HandTracker.t) (i : nat) (which : string)
    (dist now : float) (qualified click : bool) :
  (forall w j m, machine_of self w j = Ok m -> machine_inv m) ->
  HandTracker._pinch self i which dist qualified now = Ok (click, self') ->
  forall w j m, machine_of self' w j = Ok m -> machine_inv m.
Proof.
  intros Hinv Hp w j m Hm.
  destruct (pinch_frame _ _ _ _ _ _ _ _ Hp) as (Hind & _).
  destruct (Nat.eq_dec j i) as [->|Hj];
    [|rewrite (Hind w j (or_introl Hj)) in Hm; eapply Hinv; eauto].
  destruct (same_family w which) eqn:Ef;
    [|rewrite (Hind w i (or_intror Ef)) in Hm; eapply Hinv; eauto].
  assert (Hsel : forall s, machine_of s w i = machine_of s which i).
  { intros s. unfold machine_of. rewrite (select_same_family s w which Ef).
    reflexivity. }
  rewrite Hsel in Hm.
  assert (Hold : exists m0, machine_of self which i = Ok m0).
  { unfold HandTracker._pinch in Hp.
    destruct (HandTracker.pinch_body _ i dist qualified now)
      as [[c a']|] eqn:Eb; [cbn [rbind] in Hp|discriminate].
    inversion Hp; subst click self'.
    destruct (pinch_body_assigns _ _ _ _ _ _ _ Eb) as (As & Ac & Ae & At).
    unfold machine_of in Hm. rewrite select_store in Hm.
    apply (machine_at_transfer _ a' i m);
      [eapply assigned_length; exact As | eapply assigned_length; exact Ac
       | eapply assigned_length; exact Ae | eapply assigned_length; exact At
       | exact Hm]. }
  destruct Hold as [m0 Hm0].
  destruct (pinch_on_view self i which m0 dist qualified now Hm0)
    as (self2 & Hp2 & Hm2).
  rewrite Hp in Hp2. inversion Hp2; subst self2.
  rewrite Hm in Hm2. inversion Hm2; subst m.
  apply machine_inv_step. eapply Hinv. rewrite Hsel. exact Hm0.
Qed.

(** X5.  The counters stay below their thresholds: after any sequence of
    [_pinch] calls on a new tracker (any slots, fingers and inputs), every
    pinch machine is either open with a qualifying counter between 0 and 3
    and an exit counter of 0, or pinched with a qualifying counter of 0 and
    an exit counter between 0 and 2. *)
Theorem pinch_counters_bounded :
  forall (clock : float) (calls : list (nat * string * float * bool * float))
         (self' : HandTracker.t),
    pinch_calls (HandTracker.__init__ clock) calls = Ok self' ->
    forall w j m, machine_of self' w j = Ok m -> machine_inv m.
Proof.
  intros clock calls.
  assert (G : forall self,
    (forall w j m, machine_of self w j = Ok m -> machine_inv m) ->
    forall self', pinch_calls self calls = Ok self' ->
    forall w j m, machine_of self' w j = Ok m -> machine_inv m).
  { induction calls as [|[[[[i which] dist] qualified] now] rest IH];
      intros self Hinv self' H.
    - simpl in H. inversion H; subst. exact Hinv.
    - simpl in H.
      destruct (HandTracker._pinch self i which dist qualified now)
        as [[c self1]|] eqn:Ep; [cbn [rbind] in H|discriminate].
      eapply IH; [|exact H]. eapply pinch_keeps_inv; eauto. }
  intros self' H. eapply G; [|exact H].
  intros w j m Hm. eapply machine_inv_init; eauto.
Qed.

Lemma pinch_counters_bounded_witness :
  exists self' m,
    pinch_calls (HandTracker.__init__ 0.0)
      [(0%nat, "idx"%string, 0.1, true, 1.0);
       (0%nat, "idx"%string, 0.1, true, 1.1);
       (1%nat, "mid"%string, 0.2, true, 1.1);
       (0%nat, "idx"%string, 0.1, true, 1.2);
       (0%nat, "idx"%string, 0.1, true, 1.3);
       (0%nat, "idx"%string, 0.9, true, 1.4)] = Ok self'
    /\ machine_of self' "idx" 0 = Ok m
    /\ machine_inv m.
Proof.
  destruct (pinch_calls (HandTracker.__init__ 0.0)
              [(0%nat, "idx"%string, 0.1, true, 1.0);
               (0%nat, "idx"%string, 0.1, true, 1.1);
               (1%nat, "mid"%string, 0.2, true, 1.1);
               (0%nat, "idx"%string, 0.1, true, 1.2);
               (0%nat, "idx"%string, 0.1, true, 1.3);
               (0%nat, "idx"%string, 0.9, true, 1.4)])
    as [self'|] eqn:E; [|exfalso; vm_compute in E; discriminate].
  destruct (machine_of self' "idx" 0) as [m|] eqn:Em.
  - exists self', m. split; [reflexivity|]. split; [exact Em|].
    exact (pinch_counters_bounded 0.0 _ self' E _ _ _ Em).
  - exfalso. vm_compute in E. inversion E; subst self'.
    vm_compute in Em. discriminate.
Defined.

Lemma view_step_click (m : machine) (dist now : float) (qualified : bool) :
  fst (view_step m dist qualified now) = true ->
  m_state m = "open"%string
  /\ qualifies (m_last m) (dist, qualified, now) = true
  /\ (3 <= m_count m)%Z
  /\ snd (view_step m dist qualified now)
     = mk_machine "pinched" 0 (m_exit m) now.
Proof.
  unfold view_step.
  destruct (String.eqb (m_state m) "open") eqn:Eo.
  - apply String.eqb_eq in Eo.
    change ((dist <? HandTracker.PINCH_ENTER) && qualified
            && (HandTracker.COOLDOWN <? now - m_last m))
      with (qualifies (m_last m) (dist, qualified, now)).
    destruct (qualifies (m_last m) (dist, qualified, now)).
    + unfold HandTracker.DEBOUNCE.
      destruct (Z.leb_spec 4 (m_count m + 1)) as [Hle|Hlt]; simpl;
        intros Hclick; [|discriminate].
      split; [exact Eo|]. split; [reflexivity|]. split; [lia|reflexivity].
    + simpl. discriminate.
  - destruct (String.eqb (m_state m) "pinched");
      [destruct (3 <=? _)%Z|]; simpl; discriminate.
Qed.

Lemma view_step_silent (m : machine) (dist now : float) (qualified : bool) :
  fst (view_step m dist qualified now) = false ->
  m_last (snd (view_step m dist qualified now)) = m_last m.
Proof.
  unfold view_step.
  destruct (String.eqb (m_state m) "open").
  - destruct (HandTracker.DEBOUNCE <=? _)%Z; simpl;
      [discriminate | reflexivity].
  - destruct (String.eqb (m_state m) "pinched");
      [destruct (3 <=? _)%Z|]; reflexivity.
Qed.

Lemma click_frame :
  forall (self self' : HandTracker.t) (i : nat) (which : string) (m : machine)
         (dist now : float) (qualified : bool),
    machine_of self which i = Ok m ->
    HandTracker._pinch self i which dist qualified now = Ok (true, self') ->
    m_state m = "open"%string
    /\ (dist <? 0.28) = true /\ qualified = true
    /\ (0.45 <? now - m_last m) = true
    /\ (3 <= m_count m)%Z
    /\ (machine_inv m -> m_count m = 3%Z)
    /\ machine_of self' which i = Ok (mk_machine "pinched" 0 (m_exit m) now).
Proof.
  intros self self' i which m dist now qualified Hm Hp.
  destruct (pinch_on_view self i which m dist qualified now Hm)
    as (self2 & Hp2 & Hm2).
  rewrite Hp in Hp2. inversion Hp2 as [[Hc Hs]]. subst self2.
  destruct (view_step_click m dist now qualified (eq_sym Hc))
    as (Ho & Hq & H3 & Hsnd).
  rewrite Hsnd in Hm2. unfold qualifies in Hq.
  apply andb_prop in Hq as [Hq Hcool]. apply andb_prop in Hq as [Hd Hqual].
  repeat split; auto.
  intros [(_ & Hb & _) | (Hpin & _)]; [lia | congruence].
Qed.

(** X6.  [_pinch] returns a click only on a frame that itself passes the
    test -- distance below 0.28, pinch eligible, more than 0.45 s since the
    machine's last click -- and only from an open machine that has counted
    at least three qualifying frames (exactly three on a tracker reached
    from [__init__]); the machine is then pinched and stamped with the
    frame's time. *)
Theorem click_only_on_qualifying_frame :
  forall (self self' : HandTracker.t) (i : nat) (which : string) (m : machine)
         (dist now : float) (qualified : bool),
    machine_of self which i = Ok m ->
    HandTracker._pinch self i which dist qualified now = Ok (true, self') ->
    m_state m = "open"%string
    /\ (dist <? 0.28) = true /\ qualified = true
    /\ (0.45 <? now - m_last m) = true
    /\ (3 <= m_count m)%Z
    /\ (machine_inv m -> m_count m = 3%Z)
    /\ machine_of self' which i = Ok (mk_machine "pinched" 0 (m_exit m) now).
Proof. exact click_frame. Qed.

Lemma click_only_on_qualifying_frame_witness :
  exists self',
    HandTracker._pinch
      (HandTracker.set__idx_count (HandTracker.__init__ 0.0) [3%Z; 0%Z])
      0 "idx" 0.1 true 1.0 = Ok (true, self')
    /\ (0.45 <? 1.0 - 0.0) = true
    /\ machine_of self' "idx" 0 = Ok (mk_machine "pinched" 0 0 1.0).
Proof.
  destruct (HandTracker._pinch
              (HandTracker.set__idx_count (HandTracker.__init__ 0.0)
                 [3%Z; 0%Z]) 0 "idx" 0.1 true 1.0)
    as [[c self']|] eqn:E; [|exfalso; vm_compute in E; discriminate].
  assert (c = true) by (vm_compute in E; inversion E; reflexivity).
  subst c. exists self'. split; [reflexivity|].
  destruct (click_only_on_qualifying_frame
              (HandTracker.set__idx_count (HandTracker.__init__ 0.0)
                 [3%Z; 0%Z]) self' 0 "idx"
              (mk_machine "open" 3 0 0.0) 0.1 1.0 true eq_refl E)
    as (_ & _ & _ & Hc & _ & _ & Hm).
  split; [exact Hc | exact Hm].
Defined.

Lemma pinch_frames_length (frames : list (float * bool * float)) :
  forall (self self' : HandTracker.t) (i : nat) (which : string)
         (clicks : list bool),
    pinch_frames self i which frames = Ok (clicks, self') ->
    length clicks = length frames.
Proof.
  induction frames as [|[[d q] n] rest IH]; intros self self' i which clicks H;
    simpl in H.
  - inversion H; reflexivity.
  - destruct (HandTracker._pinch self i which d q n) as [[c s1]|];
      [cbn [rbind] in H|discriminate].
    destruct (pinch_frames s1 i which rest) as [[cs s2]|] eqn:E;
      [cbn [rbind] in H|discriminate].
    inversion H; subst. simpl. f_equal. eapply IH; eauto.
Qed.

(** A run without clicks leaves the click stamp alone. *)
Lemma silent_run_keeps_stamp (frames : list (float * bool * float)) :
  forall (self self' : HandTracker.t) (i : nat) (which : string) (m : machine)
         (clicks : list bool),
    machine_of self which i = Ok m ->
    pinch_frames self i which frames = Ok (clicks, self') ->
    forallb negb clicks = true ->
    exists m', machine_of self' which i = Ok m' /\ m_last m' = m_last m.
Proof.
  induction frames as [|[[d q] n] rest IH];
    intros self self' i which m clicks Hm H Hall; simpl in H.
  - inversion H; subst. eauto.
  - destruct (pinch_on_view self i which m d q n Hm) as (s1 & Hp & Hm1).
    rewrite Hp in H. cbn [rbind] in H.
    destruct (pinch_frames s1 i which rest) as [[cs s2]|] eqn:E;
      [cbn [rbind] in H|discriminate].
    inversion H; subst clicks self'. simpl in Hall.
    apply andb_prop in Hall as [Hc Hall].
    apply negb_true_iff in Hc.
    destruct (IH _ _ _ _ _ _ Hm1 E Hall) as (m' & Hm' & Hl).
    exists m'. split; [exact Hm'|]. rewrite Hl.
    apply view_step_silent. exact Hc.
Qed.

(** X7.  Two successive clicks of one pinch machine are more than 0.45 s
    apart: if a frame at time [t1] clicks, the frames after it do not, and
    then a frame at time [t2] clicks, then [t2 - t1 > 0.45]. *)
Theorem successive_clicks_apart :
  forall (self self' : HandTracker.t) (i : nat) (which : string) (m : machine)
         (d1 d2 t1 t2 : float) (q1 q2 : bool)
         (between : list (float * bool * float)),
    machine_of self which i = Ok m ->
    pinch_frames self i which ((d1, q1, t1) :: between ++ [(d2, q2, t2)])
    = Ok (true :: repeat false (length between) ++ [true], self') ->
    (HandTracker.COOLDOWN <? t2 - t1) = true.
Proof.
  intros self self' i which m d1 d2 t1 t2 q1 q2 between Hm H.
  simpl in H.
  destruct (HandTracker._pinch self i which d1 q1 t1) as [[c1 s1]|] eqn:E1;
    [cbn [rbind] in H|discriminate].
  destruct (pinch_frames s1 i which (between ++ [(d2, q2, t2)]))
    as [[cs s2]|] eqn:E2; [cbn [rbind] in H|discriminate].
  inversion H; subst c1 cs s2. clear H.
  destruct (click_frame _ _ _ _ _ _ _ _ Hm E1)
    as (_ & _ & _ & _ & _ & _ & Hm1).
  rewrite pinch_frames_app in E2.
  destruct (pinch_frames s1 i which between) as [[cb sb]|] eqn:Eb;
    [cbn [rbind] in E2|discriminate].
  destruct (pinch_frames sb i which [(d2, q2, t2)]) as [[c2 sc]|] eqn:Ec;
    [cbn [rbind] in E2|discriminate].
  inversion E2 as [[Happ Hself]]. subst sc.
  pose proof (pinch_frames_length _ _ _ _ _ _ Eb) as Lb.
  pose proof (pinch_frames_length _ _ _ _ _ _ Ec) as Lc.
  destruct c2 as [|c [|? ?]]; try discriminate Lc.
  apply app_inj_tail in Happ. destruct Happ as [Hcb Hc2]. subst cb c.
  destruct (silent_run_keeps_stamp _ _ _ _ _ _ _ Hm1 Eb) as (mb & Hmb & Hl).
  { clear. induction (length between); simpl; auto. }
  simpl in Hl. simpl in Ec.
  destruct (HandTracker._pinch sb i which d2 q2 t2) as [[c sd]|] eqn:E3;
    [cbn [rbind] in Ec|discriminate].
  inversion Ec; subst c sd.
  destruct (click_frame _ _ _ _ _ _ _ _ Hmb E3)
    as (_ & _ & _ & Hcool & _).
  rewrite Hl in Hcool. exact Hcool.
Qed.

(** A click at 1.0 s, release and a new pinch: the next click, at 1.8 s. *)
Lemma successive_clicks_apart_witness :
  exists self',
    pinch_frames
      (HandTracker.set__idx_count (HandTracker.__init__ 0.0) [3%Z; 0%Z])
      0 "idx"
      ((0.1, true, 1.0)
         :: [(0.9, true, 1.1); (0.9, true, 1.2); (0.9, true, 1.3);
             (0.1, true, 1.5); (0.1, true, 1.6); (0.1, true, 1.7)]
         ++ [(0.1, true, 1.8)])
    = Ok (true :: repeat false 6 ++ [true], self')
    /\ (HandTracker.COOLDOWN <? 1.8 - 1.0) = true.
Proof.
  destruct (pinch_frames
              (HandTracker.set__idx_count (HandTracker.__init__ 0.0)
                 [3%Z; 0%Z]) 0 "idx"
              ((0.1, true, 1.0)
                 :: [(0.9, true, 1.1); (0.9, true, 1.2); (0.9, true, 1.3);
                     (0.1, true, 1.5); (0.1, true, 1.6); (0.1, true, 1.7)]
                 ++ [(0.1, true, 1.8)]))
    as [[cl self']|] eqn:E; [|exfalso; vm_compute in E; discriminate].
  assert (Hcl : cl = true :: repeat false 6 ++ [true])
    by (vm_compute in E; inversion E; reflexivity).
  subst cl. exists self'. split; [reflexivity|].
  exact (successive_clicks_apart
           (HandTracker.set__idx_count (HandTracker.__init__ 0.0) [3%Z; 0%Z])
           self' 0 "idx" (mk_machine "open" 3 0 0.0)
           0.1 0.1 1.0 1.8 true true
           [(0.9, true, 1.1); (0.9, true, 1.2); (0.9, true, 1.3);
            (0.1, true, 1.5); (0.1, true, 1.6); (0.1, true, 1.7)]
           eq_refl E).
Defined.

(** ** tracker.py: what a hand result can be *)

Lemma clamp_unit (v : float) :
  (0 <=? pymax 0.0 (pymin 1.0 v)) = true
  /\ (pymax 0.0 (pymin 1.0 v) <=? 1) = true.
Proof.
  unfold pymax, pymin.
  destruct (v <? 1.0) eqn:E1.
  - destruct (0.0 <? v) eqn:E0.
    + split; apply ltb_leb; assumption.
    + split; reflexivity.
  - split; reflexivity.
Qed.

(** X8.  The cursor of every hand result lies in the unit square:
    [0 <= x <= 1] and [0 <= y <= 1], whatever the landmarks and the filters
    produced -- in particular neither coordinate is ever NaN. *)
Theorem cursor_in_unit_square :
  forall (math_hypot : float -> float -> float) (self self' : HandTracker.t)
         (lm : list Landmark.t) (i : nat) (now : float) (hs : HandState.t),
    HandTracker._process math_hypot self lm i now = Ok (hs, self') ->
    (0 <=? HandState.x hs) = true /\ (HandState.x hs <=? 1) = true
    /\ (0 <=? HandState.y hs) = true /\ (HandState.y hs <=? 1) = true.
Proof.
  intros math_hypot self self' lm i now hs H.
  destruct (process_inv _ _ _ _ _ _ _ H)
    as (hs_x & hs_y & s1 & vel & s2 & h & d_idx & d_mid & s3 & e1 & e2 & e3
        & e4 & cl & s4 & cr & s5 & fist & E1 & _ & _ & _ & _ & _ & _ & _ & ->).
  simpl. unfold HandTracker.cursor_position in E1.
  destruct (getl lm 8) as [l8|]; [cbn [rbind] in E1|discriminate].
  destruct (HandTracker.call_filter (HandTracker._filt_x self) i _ now)
    as [[vx fx]|]; [cbn [rbind] in E1|discriminate].
  simpl in E1.
  destruct (HandTracker.call_filter (HandTracker._filt_y self) i _ now)
    as [[vy fy]|]; [cbn [rbind] in E1|discriminate].
  inversion E1; subst.
  destruct (clamp_unit vx), (clamp_unit vy). auto.
Qed.

Lemma cursor_in_unit_square_witness :
  exists hs self',
    HandTracker._process hypot_plain (HandTracker.__init__ 0.0)
      (open_hand 0.5) 0 1.0 = Ok (hs, self')
    /\ (0 <=? HandState.x hs) = true /\ (HandState.x hs <=? 1) = true
    /\ (0 <=? HandState.y hs) = true /\ (HandState.y hs <=? 1) = true.
Proof.
  destruct (HandTracker._process hypot_plain (HandTracker.__init__ 0.0)
              (open_hand 0.5) 0 1.0) as [[hs self']|] eqn:E.
  - exists hs, self'. split; [reflexivity|].
    exact (cursor_in_unit_square _ _ _ _ _ _ _ E).
  - exfalso. vm_compute in E. discriminate.
Defined.

(** A call that is told the pinch is not eligible never clicks. *)
Lemma pinch_unqualified_silent (self self' : HandTracker.t) (i : nat)
    (which : string) (dist now : float) (click : bool) :
  HandTracker._pinch self i which dist false now = Ok (click, self') ->
  click = false.
Proof.
  unfold HandTracker._pinch, HandTracker.pinch_body. intros H.
  destruct (getl (HandTracker.state_arr _) i) as [st|];
    [cbn [rbind] in H|discriminate].
  destruct (String.eqb st "open").
  - assert (Hc : (if dist <? HandTracker.PINCH_ENTER
                  then Ok false else Ok false) = @Ok bool false)
      by (destruct (dist <? _); reflexivity).
    rewrite Hc in H. cbn [rbind] in H.
    destruct (setl (HandTracker.count_arr _) i 0%Z) as [c1|] eqn:Es;
      [cbn [rbind] in H|discriminate].
    rewrite (getl_setl_same _ _ _ _ Es) in H. cbn [rbind] in H.
    simpl in H. inversion H; reflexivity.
  - destruct (String.eqb st "pinched").
    + destruct (if HandTracker.PINCH_EXIT <? dist then _ else _);
        [cbn [rbind] in H|discriminate].
      destruct (getl _ i); [cbn [rbind] in H|discriminate].
      destruct (3 <=? _)%Z.
      * destruct (setl _ i _); [cbn [rbind] in H|discriminate].
        destruct (setl _ i _); [cbn [rbind] in H|discriminate].
        inversion H; reflexivity.
      * inversion H; reflexivity.
    + inversion H; reflexivity.
Qed.

(** X9.  A hand result that carries a click (left or right) comes from a
    frame with the ring or the pinky finger extended, and it never carries
    [is_fist]: pinches are suppressed while all fingers are curled, and a
    frame with an extended finger resets the fist counter. *)
Theorem click_excludes_fist :
  forall (math_hypot : float -> float -> float) (self self' : HandTracker.t)
         (lm : list Landmark.t) (i : nat) (now : float) (hs : HandState.t),
    HandTracker._process math_hypot self lm i now = Ok (hs, self') ->
    HandState.click_left hs || HandState.click_right hs = true ->
    HandState.is_fist hs = false
    /\ exists e1 e2 e3 e4,
         HandTracker.extension_flags math_hypot lm = Ok [e1; e2; e3; e4]
         /\ e3 || e4 = true.
Proof.
  intros math_hypot self self' lm i now hs H Hclick.
  destruct (process_inv _ _ _ _ _ _ _ H)
    as (hs_x & hs_y & s1 & vel & s2 & h & d_idx & d_mid & s3 & e1 & e2 & e3
        & e4 & cl & s4 & cr & s5 & fist
        & _ & _ & _ & _ & E5 & E6 & E7 & E8 & ->).
  simpl in Hclick. simpl HandState.is_fist.
  assert (Hext : e3 || e4 = true).
  { destruct (e3 || e4) eqn:E; [reflexivity|].
    rewrite (pinch_unqualified_silent _ _ _ _ _ _ _ E6) in Hclick.
    rewrite (pinch_unqualified_silent _ _ _ _ _ _ _ E7) in Hclick.
    discriminate. }
  split; [|exists e1, e2, e3, e4; auto].
  destruct (sustained_fist_inv _ _ _ _ _ E8) as (cnt & _ & _ & ->).
  unfold HandTracker.fist_count.
  destruct e1, e2, e3, e4; simpl in *; try reflexivity; discriminate.
Qed.

Lemma click_excludes_fist_witness :
  exists hs self',
    HandTracker._process hypot_plain
      (HandTracker.set__idx_count (HandTracker.__init__ 0.0) [3%Z; 0%Z])
      (open_hand 0.1) 0 1.0 = Ok (hs, self')
    /\ HandState.click_left hs = true
    /\ HandState.is_fist hs = false.
Proof.
  destruct (HandTracker._process hypot_plain
              (HandTracker.set__idx_count (HandTracker.__init__ 0.0)
                 [3%Z; 0%Z]) (open_hand 0.1) 0 1.0)
    as [[hs self']|] eqn:E; [|exfalso; vm_compute in E; discriminate].
  assert (Hc : HandState.click_left hs = true)
    by (vm_compute in E; inversion E; reflexivity).
  exists hs, self'. split; [reflexivity|]. split; [exact Hc|].
  apply (click_excludes_fist _ _ _ _ _ _ _ E).
  rewrite Hc. reflexivity.
Defined.

Lemma mapM_last {A B : Type} (f : A -> result B) (l : list A) (a : A) :
  forall r, HandTracker.mapM f (l ++ [a]) = Ok r -> exists b, f a = Ok b.
Proof.
  induction l as [|x l IH]; intros r H; simpl in H.
  - destruct (f a) as [b|]; [eauto | discriminate].
  - destruct (f x); [cbn [rbind] in H|discriminate].
    destruct (HandTracker.mapM f (l ++ [a])) as [bs|];
      [cbn [rbind] in H|discriminate].
    eapply IH. reflexivity.
Qed.

(** X10.  [_process] returns a hand result only for an observation of at
    least 21 landmarks, and with at most 8 landmarks it fails at once with
    [IndexError] (the index fingertip is landmark 8). *)
Theorem process_needs_21_landmarks :
  forall (math_hypot : float -> float -> float) (self : HandTracker.t)
         (lm : list Landmark.t) (i : nat) (now : float),
    (forall hs self',
       HandTracker._process math_hypot self lm i now = Ok (hs, self') ->
       21 <= length lm)
    /\ (length lm <= 8 ->
        HandTracker._process math_hypot self lm i now = Raise IndexError).
Proof.
  intros math_hypot self lm i now. split.
  - intros hs self' H.
    destruct (process_inv _ _ _ _ _ _ _ H)
      as (hs_x & hs_y & s1 & vel & s2 & h & d_idx & d_mid & s3 & e1 & e2 & e3
          & e4 & cl & s4 & cr & s5 & fist & _ & _ & _ & _ & E5 & _).
    unfold HandTracker.extension_flags in E5.
    destruct (mapM_last (HandTracker.finger_ext math_hypot lm)
                [(8, 6); (12, 10); (16, 14)]%nat (20, 18)%nat _ E5)
      as [b Hb].
    unfold HandTracker.finger_ext in Hb.
    destruct (getl lm 20) as [l20|] eqn:E20; [|discriminate].
    assert (20 < length lm) by (apply getl_defined_iff; eauto). lia.
  - intros Hlen. unfold HandTracker._process, HandTracker.cursor_position.
    assert (E8 : getl lm 8 = Raise IndexError).
    { unfold getl. destruct (nth_error lm 8) eqn:E; [|reflexivity].
      assert (nth_error lm 8 <> None) by congruence.
      apply nth_error_Some in H. lia. }
    rewrite E8. reflexivity.
Qed.

Lemma process_needs_21_landmarks_witness :
  HandTracker._process hypot_plain (HandTracker.__init__ 0.0)
    (firstn 8 (open_hand 0.5)) 0 1.0 = Raise IndexError
  /\ (forall hs self',
        HandTracker._process hypot_plain (HandTracker.__init__ 0.0)
          (open_hand 0.5) 0 1.0 = Ok (hs, self') ->
        21 <= length (open_hand 0.5)).
Proof.
  destruct (process_needs_21_landmarks hypot_plain (HandTracker.__init__ 0.0)
              (firstn 8 (open_hand 0.5)) 0 1.0) as (_ & H8).
  destruct (process_needs_21_landmarks hypot_plain (HandTracker.__init__ 0.0)
              (open_hand 0.5) 0 1.0) as (H21 & _).
  split; [apply H8; simpl; lia | exact H21].
Defined.

(** ** tracker.py: the two hand slots *)

Lemma slot_view_filt_x (self : HandTracker.t) (fl : list OneEuroFilter.t)
    (j : nat) :
  getl fl j = getl (HandTracker._filt_x self) j ->
  slot_view (HandTracker.set__filt_x self fl) j = slot_view self j.
Proof. intros H. unfold slot_view. simpl. rewrite H. reflexivity. Qed.

Lemma slot_view_filt_y (self : HandTracker.t) (fl : list OneEuroFilter.t)
    (j : nat) :
  getl fl j = getl (HandTracker._filt_y self) j ->
  slot_view (HandTracker.set__filt_y self fl) j = slot_view self j.
Proof. intros H. unfold slot_view. simpl. rewrite H. reflexivity. Qed.

Lemma slot_view_filt_d_idx (self : HandTracker.t) (fl : list OneEuroFilter.t)
    (j : nat) :
  getl fl j = getl (HandTracker._filt_d_idx self) j ->
  slot_view (HandTracker.set__filt_d_idx self fl) j = slot_view self j.
Proof. intros H. unfold slot_view. simpl. rewrite H. reflexivity. Qed.

Lemma slot_view_filt_d_mid (self : HandTracker.t) (fl : list OneEuroFilter.t)
    (j : nat) :
  getl fl j = getl (HandTracker._filt_d_mid self) j ->
  slot_view (HandTracker.set__filt_d_mid self fl) j = slot_view self j.
Proof. intros H. unfold slot_view. simpl. rewrite H. reflexivity. Qed.

Lemma slot_view_prev (self : HandTracker.t) (px py pt : list float)
    (j : nat) :
  getl px j = getl (HandTracker._prev_x self) j ->
  getl py j = getl (HandTracker._prev_y self) j ->
  getl pt j = getl (HandTracker._prev_t self) j ->
  slot_view (HandTracker.set__prev_t
               (HandTracker.set__prev_y (HandTracker.set__prev_x self px) py)
               pt) j
  = slot_view self j.
Proof.
  intros Hx Hy Ht. unfold slot_view. simpl. rewrite Hx, Hy, Ht. reflexivity.
Qed.

Lemma slot_view_fist (self : HandTracker.t) (fc : list Z) (j : nat) :
  getl fc j = getl (HandTracker._fist_cnt self) j ->
  slot_view (HandTracker.set__fist_cnt self fc) j = slot_view self j.
Proof. intros H. unfold slot_view. simpl. rewrite H. reflexivity. Qed.

Lemma slot_view_pinch (self self' : HandTracker.t) (i j : nat)
    (which : string) (dist now : float) (qualified click : bool) :
  HandTracker._pinch self i which dist qualified now = Ok (click, self') ->
  j <> i -> slot_view self' j = slot_view self j.
Proof.
  intros H Hj.
  unfold slot_view.
  destruct (pinch_frame _ _ _ _ _ _ _ _ H)
    as (Hm & -> & -> & -> & -> & -> & -> & -> & -> & _).
  rewrite (Hm "idx"%string j (or_introl Hj)),
          (Hm "mid"%string j (or_introl Hj)).
  reflexivity.
Qed.

Lemma process_other_slot :
  forall (math_hypot : float -> float -> float) (self self' : HandTracker.t)
         (lm : list Landmark.t) (i j : nat) (now : float) (hs : HandState.t),
    HandTracker._process math_hypot self lm i now = Ok (hs, self') ->
    j <> i ->
    slot_view self' j = slot_view self j.
Proof.
  intros math_hypot self self' lm i j now hs H Hj.
  assert (Hij : i <> j) by congruence.
  destruct (process_inv _ _ _ _ _ _ _ H)
    as (hs_x & hs_y & s1 & vel & s2 & h & d_idx & d_mid & s3 & e1 & e2 & e3
        & e4 & cl & s4 & cr & s5 & fist
        & E1 & E2 & _ & E4 & _ & E6 & E7 & E8 & _).
  assert (V1 : slot_view s1 j = slot_view self j).
  { unfold HandTracker.cursor_position in E1.
    destruct (getl lm 8) as [l8|]; [cbn [rbind] in E1|discriminate].
    destruct (HandTracker.call_filter (HandTracker._filt_x self) i _ now)
      as [[vx fx]|] eqn:Cx; [cbn [rbind] in E1|discriminate].
    simpl in E1.
    destruct (HandTracker.call_filter (HandTracker._filt_y self) i _ now)
      as [[vy fy]|] eqn:Cy; [cbn [rbind] in E1|discriminate].
    inversion E1; subst.
    rewrite slot_view_filt_y;
      [|simpl; exact (call_filter_other _ _ _ j _ _ _ Cy Hij)].
    apply slot_view_filt_x. exact (call_filter_other _ _ _ j _ _ _ Cx Hij). }
  assert (V2 : slot_view s2 j = slot_view s1 j).
  { unfold HandTracker.cursor_velocity in E2.
    destruct (getl (HandTracker._prev_t s1) i) as [pt|];
      [cbn [rbind] in E2|discriminate].
    destruct (if 0 <? now - pt then _ else _) as [v|];
      [cbn [rbind] in E2|discriminate].
    destruct (setl (HandTracker._prev_x s1) i hs_x) as [px'|] eqn:Sx;
      [cbn [rbind] in E2|discriminate].
    destruct (setl (HandTracker._prev_y s1) i hs_y) as [py'|] eqn:Sy;
      [cbn [rbind] in E2|discriminate].
    destruct (setl (HandTracker._prev_t s1) i now) as [pt'|] eqn:St;
      [cbn [rbind] in E2|discriminate].
    inversion E2; subst.
    apply slot_view_prev; eapply getl_setl_other; eauto. }
  assert (V3 : slot_view s3 j = slot_view s2 j).
  { unfold HandTracker.pinch_distances in E4.
    destruct (getl lm 4) as [thumb|]; [cbn [rbind] in E4|discriminate].
    destruct (getl lm 8) as [l8|]; [cbn [rbind] in E4|discriminate].
    destruct (HandTracker._dist3d l8 thumb) as [ri|];
      [cbn [rbind] in E4|discriminate].
    destruct (pydiv ri h) as [ni|]; [cbn [rbind] in E4|discriminate].
    destruct (HandTracker.call_filter (HandTracker._filt_d_idx s2) i ni now)
      as [[di fdi]|] eqn:Ci; [cbn [rbind] in E4|discriminate].
    simpl in E4.
    destruct (getl lm 12) as [l12|]; [cbn [rbind] in E4|discriminate].
    destruct (HandTracker._dist3d l12 thumb) as [rm|];
      [cbn [rbind] in E4|discriminate].
    destruct (pydiv rm h) as [nm|]; [cbn [rbind] in E4|discriminate].
    destruct (HandTracker.call_filter (HandTracker._filt_d_mid s2) i nm now)
      as [[dm fdm]|] eqn:Cm; [cbn [rbind] in E4|discriminate].
    inversion E4; subst.
    rewrite slot_view_filt_d_mid;
      [|simpl; exact (call_filter_other _ _ _ j _ _ _ Cm Hij)].
    apply slot_view_filt_d_idx.
    exact (call_filter_other _ _ _ j _ _ _ Ci Hij). }
  assert (V5 : slot_view self' j = slot_view s5 j).
  { unfold HandTracker.sustained_fist in E8.
    destruct (getl (HandTracker._fist_cnt s5) i) as [cnt|];
      [cbn [rbind] in E8|discriminate].
    destruct (setl (HandTracker._fist_cnt s5) i _) as [fc|] eqn:Sf;
      [cbn [rbind] in E8|discriminate].
    simpl in E8.
    destruct (getl fc i); [cbn [rbind] in E8|discriminate].
    inversion E8; subst.
    apply slot_view_fist. eapply getl_setl_other; eauto. }
  rewrite V5, (slot_view_pinch _ _ _ _ _ _ _ _ _ E7 Hj),
          (slot_view_pinch _ _ _ _ _ _ _ _ _ E6 Hj), V3, V2, V1.
  reflexivity.
Qed.

(** X11.  The two hand slots are independent: processing a frame for slot
    [i] leaves everything the tracker keeps for another slot -- its four
    filters, its previous cursor position and time, its two pinch machines
    and its fist counter -- exactly as it was. *)
Theorem process_slots_independent :
  forall (math_hypot : float -> float -> float) (self self' : HandTracker.t)
         (lm : list Landmark.t) (i j : nat) (now : float) (hs : HandState.t),
    HandTracker._process math_hypot self lm i now = Ok (hs, self') ->
    j <> i ->
    slot_view self' j = slot_view self j.
Proof. exact process_other_slot. Qed.

Lemma process_slots_independent_witness :
  exists hs self',
    HandTracker._process hypot_plain (HandTracker.__init__ 0.0)
      (open_hand 0.1) 0 1.0 = Ok (hs, self')
    /\ slot_view self' 1 = slot_view (HandTracker.__init__ 0.0) 1.
Proof.
  destruct (HandTracker._process hypot_plain (HandTracker.__init__ 0.0)
              (open_hand 0.1) 0 1.0) as [[hs self']|] eqn:E.
  - exists hs, self'. split; [reflexivity|].
    apply (process_slots_independent _ _ _ _ 0%nat 1%nat _ _ E). discriminate.
  - exfalso. vm_compute in E. discriminate.
Defined.

(** ** tracker.py: velocity from one frame to the next *)

Lemma process_stores_cursor (math_hypot : float -> float -> float)
    (self self' : HandTracker.t) (lm : list Landmark.t) (i : nat)
    (now : float) (hs : HandState.t) :
  HandTracker._process math_hypot self lm i now = Ok (hs, self') ->
  getl (HandTracker._prev_x self') i = Ok (HandState.x hs)
  /\ getl (HandTracker._prev_y self') i = Ok (HandState.y hs)
  /\ getl (HandTracker._prev_t self') i = Ok now.
Proof.
  intros H.
  destruct (process_inv _ _ _ _ _ _ _ H)
    as (hs_x & hs_y & s1 & vel & s2 & h & d_idx & d_mid & s3 & e1 & e2 & e3
        & e4 & cl & s4 & cr & s5 & fist
        & _ & E2 & _ & E4 & _ & E6 & E7 & E8 & ->).
  simpl HandState.x. simpl HandState.y.
  destruct (pinch_keeps_cursor _ _ _ _ _ _ _ _ E6) as (P1 & P2 & P3 & _).
  destruct (pinch_keeps_cursor _ _ _ _ _ _ _ _ E7) as (Q1 & Q2 & Q3 & _).
  assert (F : HandTracker._prev_x self' = HandTracker._prev_x s5
              /\ HandTracker._prev_y self' = HandTracker._prev_y s5
              /\ HandTracker._prev_t self' = HandTracker._prev_t s5).
  { unfold HandTracker.sustained_fist in E8. inv_res E8.
    inversion E8; subst. repeat split; reflexivity. }
  destruct F as (F1 & F2 & F3).
  assert (D : HandTracker._prev_x s3 = HandTracker._prev_x s2
              /\ HandTracker._prev_y s3 = HandTracker._prev_y s2
              /\ HandTracker._prev_t s3 = HandTracker._prev_t s2).
  { unfold HandTracker.pinch_distances in E4. inv_res E4.
    inversion E4; subst. repeat split; reflexivity. }
  destruct D as (D1 & D2 & D3).
  rewrite F1, F2, F3, Q1, Q2, Q3, P1, P2, P3, D1, D2, D3.
  unfold HandTracker.cursor_velocity in E2.
  destruct (getl (HandTracker._prev_t s1) i) as [pt|];
    [cbn [rbind] in E2|discriminate].
  destruct (if 0 <? now - pt then _ else _) as [v|];
    [cbn [rbind] in E2|discriminate].
  destruct (setl (HandTracker._prev_x s1) i hs_x) as [px'|] eqn:Sx;
    [cbn [rbind] in E2|discriminate].
  destruct (setl (HandTracker._prev_y s1) i hs_y) as [py'|] eqn:Sy;
    [cbn [rbind] in E2|discriminate].
  destruct (setl (HandTracker._prev_t s1) i now) as [pt'|] eqn:St;
    [cbn [rbind] in E2|discriminate].
  inversion E2; subst. simpl.
  split; [exact (getl_setl_same _ _ _ _ Sx)|].
  split; [exact (getl_setl_same _ _ _ _ Sy) | exact (getl_setl_same _ _ _ _ St)].
Qed.

Lemma process_reads_cursor (math_hypot : float -> float -> float)
    (self self' : HandTracker.t) (lm : list Landmark.t) (i : nat)
    (now px py pt : float) (hs : HandState.t) :
  getl (HandTracker._prev_x self) i = Ok px ->
  getl (HandTracker._prev_y self) i = Ok py ->
  getl (HandTracker._prev_t self) i = Ok pt ->
  HandTracker._process math_hypot self lm i now = Ok (hs, self') ->
  HandState.velocity hs
  = if 0 <? now - pt
    then math_hypot (HandState.x hs - px) (HandState.y hs - py) / (now - pt)
    else 0.0.
Proof.
  intros Hx Hy Ht H.
  destruct (process_inv _ _ _ _ _ _ _ H)
    as (hs_x & hs_y & s1 & vel & s2 & h & d_idx & d_mid & s3 & e1 & e2 & e3
        & e4 & cl & s4 & cr & s5 & fist
        & E1 & E2 & _ & _ & _ & _ & _ & _ & ->).
  simpl HandState.x. simpl HandState.y. simpl HandState.velocity.
  assert (C : HandTracker._prev_x s1 = HandTracker._prev_x self
              /\ HandTracker._prev_y s1 = HandTracker._prev_y self
              /\ HandTracker._prev_t s1 = HandTracker._prev_t self).
  { unfold HandTracker.cursor_position in E1. inv_res E1.
    inversion E1; subst. repeat split; reflexivity. }
  destruct C as (C1 & C2 & C3).
  unfold HandTracker.cursor_velocity in E2.
  rewrite C1, C2, C3, Ht in E2. cbn [rbind] in E2.
  destruct (0 <? now - pt) eqn:Edt.
  - rewrite Hx, Hy in E2. cbn [rbind] in E2.
    unfold pydiv in E2. rewrite (positive_nonzero _ Edt) in E2.
    cbn [rbind] in E2. inv_res E2. inversion E2; subst. reflexivity.
  - cbn [rbind] in E2. inv_res E2. inversion E2; subst. reflexivity.
Qed.

(** X12.  From the second frame of a slot on, the velocity is the distance
    between the cursor reported now and the cursor reported on the slot's
    previous frame, divided by the time between the two frames; it is 0.0
    when the clock did not advance. *)
Theorem velocity_between_frames :
  forall (math_hypot : float -> float -> float)
         (self self1 self2 : HandTracker.t) (lm1 lm2 : list Landmark.t)
         (i : nat) (t1 t2 : float) (hs1 hs2 : HandState.t),
    HandTracker._process math_hypot self lm1 i t1 = Ok (hs1, self1) ->
    HandTracker._process math_hypot self1 lm2 i t2 = Ok (hs2, self2) ->
    HandState.velocity hs2
    = if 0 <? t2 - t1
      then math_hypot (HandState.x hs2 - HandState.x hs1)
                      (HandState.y hs2 - HandState.y hs1) / (t2 - t1)
      else 0.0.
Proof.
  intros math_hypot self self1 self2 lm1 lm2 i t1 t2 hs1 hs2 H1 H2.
  destruct (process_stores_cursor _ _ _ _ _ _ _ H1) as (Hx & Hy & Ht).
  exact (process_reads_cursor _ _ _ _ _ _ _ _ _ _ Hx Hy Ht H2).
Qed.

(** A hand that moves its index fingertip from x = 0.125 to x = 0.1 within
    a thirtieth of a second. *)
Lemma velocity_between_frames_witness :
  exists hs1 self1 hs2 self2,
    HandTracker._process hypot_plain (HandTracker.__init__ 0.0)
      (open_hand 0.5) 0 1.0 = Ok (hs1, self1)
    /\ HandTracker._process hypot_plain self1 (open_hand 0.4) 0
         (1.0 + 1 / 30) = Ok (hs2, self2)
    /\ HandState.velocity hs2
       = hypot_plain (HandState.x hs2 - HandState.x hs1)
                     (HandState.y hs2 - HandState.y hs1)
         / (1.0 + 1 / 30 - 1.0).
Proof.
  destruct (HandTracker._process hypot_plain (HandTracker.__init__ 0.0)
              (open_hand 0.5) 0 1.0) as [[hs1 self1]|] eqn:E1;
    [|exfalso; vm_compute in E1; discriminate].
  destruct (HandTracker._process hypot_plain self1 (open_hand 0.4) 0
              (1.0 + 1 / 30)) as [[hs2 self2]|] eqn:E2.
  - exists hs1, self1, hs2, self2. split; [reflexivity|].
    split; [exact E2|].
    exact (velocity_between_frames _ _ _ _ _ _ _ _ _ _ _ E1 E2).
  - exfalso. vm_compute in E1. inversion E1; subst self1.
    vm_compute in E2. discriminate.
Defined.

(** ** tracker.py: a turn of the loop *)

Lemma process_keeps_ftimes (math_hypot : float -> float -> float)
    (self self' : HandTracker.t) (lm : list Landmark.t) (i : nat)
    (now : float) (hs : HandState.t) :
  HandTracker._process math_hypot self lm i now = Ok (hs, self') ->
  HandTracker._ftimes self' = HandTracker._ftimes self.
Proof.
  intros H.
  destruct (process_inv _ _ _ _ _ _ _ H)
    as (hs_x & hs_y & s1 & vel & s2 & h & d_idx & d_mid & s3 & e1 & e2 & e3
        & e4 & cl & s4 & cr & s5 & fist
        & E1 & E2 & _ & E4 & _ & E6 & E7 & E8 & _).
  destruct (pinch_frame _ _ _ _ _ _ _ _ E6)
    as (_ & _ & _ & _ & _ & _ & _ & _ & _ & P & _).
  destruct (pinch_frame _ _ _ _ _ _ _ _ E7)
    as (_ & _ & _ & _ & _ & _ & _ & _ & _ & Q & _).
  assert (F : HandTracker._ftimes self' = HandTracker._ftimes s5).
  { unfold HandTracker.sustained_fist in E8. inv_res E8.
    inversion E8; subst. reflexivity. }
  assert (D : HandTracker._ftimes s3 = HandTracker._ftimes s2).
  { unfold HandTracker.pinch_distances in E4. inv_res E4.
    inversion E4; subst. reflexivity. }
  assert (V : HandTracker._ftimes s2 = HandTracker._ftimes s1).
  { unfold HandTracker.cursor_velocity in E2. inv_res E2.
    inversion E2; subst. reflexivity. }
  assert (C : HandTracker._ftimes s1 = HandTracker._ftimes self).
  { unfold HandTracker.cursor_position in E1. inv_res E1.
    inversion E1; subst. reflexivity. }
  congruence.
Qed.

Lemma loop_turn :
  forall (math_hypot : float -> float -> float) (sum : list float -> float)
         (self self' : HandTracker.t) (t0 t1 : float)
         (found : option (list (list Landmark.t))),
    HandTracker._loop_body math_hypot sum self t0 found t1 = Ok self' ->
    exists primary secondary n sK,
      match hands_of found with
      | [] =>
          primary = HandState.default /\ secondary = HandState.default
          /\ n = 0%Z /\ sK = self
      | [h0] =>
          HandTracker._process math_hypot self h0 0 t0 = Ok (primary, sK)
          /\ secondary = HandState.default /\ n = 1%Z
      | h0 :: h1 :: _ =>
          exists s1,
            HandTracker._process math_hypot self h0 0 t0 = Ok (primary, s1)
            /\ HandTracker._process math_hypot s1 h1 1 t0 = Ok (secondary, sK)
            /\ n = 2%Z
      end
      /\ let window :=
           HandTracker.deque_append (HandTracker._ftimes sK) (t1 - t0) in
         let avg := sum window / HandTracker.float_of_len window in
         self' = HandTracker.set_state
                   (HandTracker.set__ftimes sK window)
                   (TrackerState.mk primary secondary n
                      (if 0 <? avg then 1.0 / avg else 0.0)).
Proof.
  intros math_hypot sum self self' t0 t1 found H.
  assert (Tail : forall (sK : HandTracker.t) (ns : TrackerState.t),
    (let self2 := HandTracker.set__ftimes sK
                    (HandTracker.deque_append (HandTracker._ftimes sK)
                                              (t1 - t0)) in
     avg <- pydiv (sum (HandTracker._ftimes self2))
                  (HandTracker.float_of_len (HandTracker._ftimes self2)) ;;
     ns_fps <- (if 0 <? avg then pydiv 1.0 avg else Ok 0.0) ;;
     Ok (HandTracker.set_state self2
           (TrackerState.mk (TrackerState.primary ns)
              (TrackerState.secondary ns) (TrackerState.num_hands ns)
              ns_fps))) = Ok self' ->
    let window :=
      HandTracker.deque_append (HandTracker._ftimes sK) (t1 - t0) in
    let avg := sum window / HandTracker.float_of_len window in
    self' = HandTracker.set_state (HandTracker.set__ftimes sK window)
              (TrackerState.mk (TrackerState.primary ns)
                 (TrackerState.secondary ns) (TrackerState.num_hands ns)
                 (if 0 <? avg then 1.0 / avg else 0.0))).
  { intros sK ns HT window avg. cbv zeta in HT. simpl HandTracker._ftimes in HT.
    unfold pydiv at 1 in HT.
    rewrite (float_of_len_nonzero _ (deque_append_length _ _)) in HT.
    cbn [rbind] in HT. fold window in HT. fold avg in HT.
    destruct (0 <? avg) eqn:E.
    - unfold pydiv in HT. rewrite (positive_nonzero _ E) in HT.
      cbn [rbind] in HT. inversion HT; reflexivity.
    - cbn [rbind] in HT. inversion HT; reflexivity. }
  unfold HandTracker._loop_body in H.
  destruct found as [[|h0 [|h1 rest]]|]; simpl hands_of.
  - cbn [rbind] in H.
    exists HandState.default, HandState.default, 0%Z, self.
    split; [auto|]. exact (Tail self TrackerState.default H).
  - simpl in H.
    destruct (HandTracker._process math_hypot self h0 0 t0)
      as [[hs0 s1]|] eqn:E0; [cbn [rbind] in H|discriminate].
    simpl in H.
    exists hs0, HandState.default, 1%Z, s1. split; [auto|].
    exact (Tail s1 (TrackerState.mk hs0 HandState.default 1%Z 0.0) H).
  - simpl in H.
    destruct (HandTracker._process math_hypot self h0 0 t0)
      as [[hs0 s1]|] eqn:E0; [cbn [rbind] in H|discriminate].
    destruct (HandTracker._process math_hypot s1 h1 1 t0)
      as [[hs1 s2]|] eqn:E1; [cbn [rbind] in H|discriminate].
    assert (Hrest : HandTracker.process_hands math_hypot s2 rest 2 t0
                      [hs0; hs1] = Ok ([hs0; hs1], s2))
      by (destruct rest; reflexivity).
    simpl in H. rewrite Hrest in H. cbn [rbind] in H. simpl in H.
    exists hs0, hs1, 2%Z, s2. split; [eauto|].
    exact (Tail s2 (TrackerState.mk hs0 hs1 2%Z 0.0) H).
  - cbn [rbind] in H.
    exists HandState.default, HandState.default, 0%Z, self.
    split; [auto|]. exact (Tail self TrackerState.default H).
Qed.

(** X13.  A turn of the loop processes the first two detected hands, in
    the order the detector reports them, as slots 0 and 1, and ignores any
    further hand.  It publishes the result of slot 0 as primary and that of
    slot 1 as secondary, the data class default where a hand is missing,
    [num_hands] as the number of hands processed (0, 1 or 2), and [fps] as
    the reciprocal of the mean of the frame-time window when that mean is
    positive and 0 otherwise.  Apart from the per-frame processing it
    changes only the window and the published snapshot. *)
Theorem loop_publishes_hands :
  forall (math_hypot : float -> float -> float) (sum : list float -> float)
         (self self' : HandTracker.t) (t0 t1 : float)
         (found : option (list (list Landmark.t))),
    HandTracker._loop_body math_hypot sum self t0 found t1 = Ok self' ->
    exists primary secondary n sK,
      match hands_of found with
      | [] =>
          primary = HandState.default /\ secondary = HandState.default
          /\ n = 0%Z /\ sK = self
      | [h0] =>
          HandTracker._process math_hypot self h0 0 t0 = Ok (primary, sK)
          /\ secondary = HandState.default /\ n = 1%Z
      | h0 :: h1 :: _ =>
          exists s1,
            HandTracker._process math_hypot self h0 0 t0 = Ok (primary, s1)
            /\ HandTracker._process math_hypot s1 h1 1 t0 = Ok (secondary, sK)
            /\ n = 2%Z
      end
      /\ let window :=
           HandTracker.deque_append (HandTracker._ftimes sK) (t1 - t0) in
         let avg := sum window / HandTracker.float_of_len window in
         self' = HandTracker.set_state
                   (HandTracker.set__ftimes sK window)
                   (TrackerState.mk primary secondary n
                      (if 0 <? avg then 1.0 / avg else 0.0)).
Proof. exact loop_turn. Qed.

Lemma loop_publishes_hands_witness :
  exists self' hs0 s1 hs1 s2,
    HandTracker._loop_body hypot_plain sum_plain (HandTracker.__init__ 0.0)
      1.0 (Some [open_hand 0.5; fist_hand; far_hand]) 1.01 = Ok self'
    /\ HandTracker._process hypot_plain (HandTracker.__init__ 0.0)
         (open_hand 0.5) 0 1.0 = Ok (hs0, s1)
    /\ HandTracker._process hypot_plain s1 fist_hand 1 1.0 = Ok (hs1, s2)
    /\ TrackerState.primary (HandTracker.get_state self') = hs0
    /\ TrackerState.secondary (HandTracker.get_state self') = hs1
    /\ TrackerState.num_hands (HandTracker.get_state self') = 2%Z.
Proof.
  destruct (HandTracker._loop_body hypot_plain sum_plain
              (HandTracker.__init__ 0.0) 1.0
              (Some [open_hand 0.5; fist_hand; far_hand]) 1.01)
    as [self'|] eqn:E; [|exfalso; vm_compute in E; discriminate].
  destruct (loop_publishes_hands _ _ _ _ _ _ _ E)
    as (p & s & n & sK & Hm & Hs).
  simpl hands_of in Hm. destruct Hm as (s1 & H0 & H1 & ->).
  exists self', p, s1, s, sK. cbv zeta in Hs. subst self'.
  repeat split; auto.
Defined.

Lemma last_skipn {A : Type} (l : list A) (k : nat) (x : A) :
  (k < length l)%nat -> last (skipn k l) x = last l x.
Proof.
  revert l. induction k as [|k IH]; intros l Hk; [reflexivity|].
  destruct l as [|a l]; [simpl in Hk; lia|].
  simpl in Hk. cbn [skipn]. rewrite IH by lia.
  destruct l as [|b l]; [simpl in Hk; lia|reflexivity].
Qed.

Lemma deque_append_window (d : list float) (v : float) :
  length (HandTracker.deque_append d v) = Nat.min (length d + 1) 30
  /\ last (HandTracker.deque_append d v) 0%float = v
  /\ exists dropped,
       dropped ++ HandTracker.deque_append d v = d ++ [v]
       /\ length dropped = (length d + 1 - 30)%nat.
Proof.
  unfold HandTracker.deque_append. cbv zeta.
  split; [rewrite length_skipn, length_app; simpl; lia|].
  split.
  - rewrite last_skipn by (rewrite length_app; simpl; lia).
    apply last_last.
  - exists (firstn (length (d ++ [v]) - 30) (d ++ [v])).
    split; [apply firstn_skipn|].
    rewrite length_firstn, length_app. simpl. lia.
Qed.

(** X14.  The frame-time window is a sliding window of at most 30 entries:
    a turn of the loop appends the duration of this turn ([t1 - t0]) at the
    end, drops entries only from the front and only as many as exceed 30,
    and processing the hands does not touch the window. *)
Theorem frame_window_slides :
  forall (math_hypot : float -> float -> float) (sum : list float -> float)
         (self self' : HandTracker.t) (t0 t1 : float)
         (found : option (list (list Landmark.t))),
    HandTracker._loop_body math_hypot sum self t0 found t1 = Ok self' ->
    length (HandTracker._ftimes self')
    = Nat.min (length (HandTracker._ftimes self) + 1) 30
    /\ last (HandTracker._ftimes self') 0%float = (t1 - t0)%float
    /\ exists dropped,
         dropped ++ HandTracker._ftimes self'
         = HandTracker._ftimes self ++ [(t1 - t0)%float]
         /\ length dropped = (length (HandTracker._ftimes self) + 1 - 30)%nat.
Proof.
  intros math_hypot sum self self' t0 t1 found H.
  destruct (loop_turn _ _ _ _ _ _ _ H) as (p & s & n & sK & Hm & Hs).
  assert (Hf : HandTracker._ftimes sK = HandTracker._ftimes self).
  { destruct (hands_of found) as [|h0 [|h1 rest]].
    - destruct Hm as (_ & _ & _ & ->). reflexivity.
    - destruct Hm as (H0 & _). exact (process_keeps_ftimes _ _ _ _ _ _ _ H0).
    - destruct Hm as (s1 & H0 & H1 & _).
      rewrite (process_keeps_ftimes _ _ _ _ _ _ _ H1).
      exact (process_keeps_ftimes _ _ _ _ _ _ _ H0). }
  cbv zeta in Hs. rewrite Hs, Hf.
  change (HandTracker._ftimes
            (HandTracker.set_state
               (HandTracker.set__ftimes sK
                  (HandTracker.deque_append (HandTracker._ftimes self) (t1 - t0)))
               ?[st]))
    with (HandTracker.deque_append (HandTracker._ftimes self) (t1 - t0)).
  apply deque_append_window.
Qed.

Lemma frame_window_slides_witness :
  exists self',
    HandTracker._loop_body hypot_plain sum_plain
      (HandTracker.set__ftimes (HandTracker.__init__ 0.0) (repeat 0.5 30))
      1.0 (Some [open_hand 0.5]) 1.25 = Ok self'
    /\ length (HandTracker._ftimes self') = 30%nat
    /\ last (HandTracker._ftimes self') 0%float = 0.25%float.
Proof.
  destruct (HandTracker._loop_body hypot_plain sum_plain
              (HandTracker.set__ftimes (HandTracker.__init__ 0.0)
                 (repeat 0.5 30))
              1.0 (Some [open_hand 0.5]) 1.25)
    as [self'|] eqn:E; [|exfalso; vm_compute in E; discriminate].
  exists self'. split; [reflexivity|].
  destruct (frame_window_slides _ _ _ _ _ _ _ E) as (Hl & Hlast & _).
  split; [rewrite Hl; reflexivity | rewrite Hlast; reflexivity].
Defined.

(** * Properties that follow a distance through the whole frame *)

(** ** tracker.py: the two distance channels of a frame *)

Lemma call_filter_inv (flist flist' : list OneEuroFilter.t) (i : nat)
    (x now v : float) :
  HandTracker.call_filter flist i x now = Ok (v, flist') ->
  exists f f',
    getl flist i = Ok f
    /\ OneEuroFilter.__call__ f x now = Ok (v, f')
    /\ getl flist' i = Ok f'.
Proof.
  unfold HandTracker.call_filter. intros H.
  destruct (getl flist i) as [f|] eqn:Ef; [cbn [rbind] in H|discriminate].
  destruct (OneEuroFilter.__call__ f x now) as [[v0 f']|] eqn:Ec;
    [cbn [rbind] in H|discriminate].
  destruct (setl flist i f') as [fl|] eqn:Es; [cbn [rbind] in H|discriminate].
  inversion H; subst v0 fl.
  exists f, f'. split; [reflexivity|]. split; [exact Ec|].
  exact (getl_setl_same _ _ _ _ Es).
Qed.

Lemma pydiv_inv (a b q : float) : pydiv a b = Ok q -> q = a / b.
Proof.
  unfold pydiv. destruct (b =? 0); [discriminate|].
  intros H. inversion H. reflexivity.
Qed.

(** The sections of [_process] before the distances leave the distance
    filters and the pinch arrays alone. *)
Lemma cursor_position_keeps (self s : HandTracker.t) (lm : list Landmark.t)
    (i : nat) (now x y : float) :
  HandTracker.cursor_position self lm i now = Ok (x, y, s) ->
  HandTracker._filt_d_idx s = HandTracker._filt_d_idx self
  /\ HandTracker._filt_d_mid s = HandTracker._filt_d_mid self
  /\ forall w, HandTracker.select_arrays s w = HandTracker.select_arrays self w.
Proof.
  unfold HandTracker.cursor_position. intros H. inv_res H.
  inversion H; subst. repeat split.
Qed.

Lemma cursor_velocity_keeps (math_hypot : float -> float -> float)
    (self s : HandTracker.t) (i : nat) (x y now v : float) :
  HandTracker.cursor_velocity math_hypot self i x y now = Ok (v, s) ->
  HandTracker._filt_d_idx s = HandTracker._filt_d_idx self
  /\ HandTracker._filt_d_mid s = HandTracker._filt_d_mid self
  /\ forall w, HandTracker.select_arrays s w = HandTracker.select_arrays self w.
Proof.
  unfold HandTracker.cursor_velocity. intros H. inv_res H.
  inversion H; subst. repeat split.
Qed.

Lemma sustained_fist_keeps (self s : HandTracker.t) (i : nat)
    (all_curled fist : bool) :
  HandTracker.sustained_fist self i all_curled = Ok (fist, s) ->
  HandTracker._filt_d_idx s = HandTracker._filt_d_idx self
  /\ HandTracker._filt_d_mid s = HandTracker._filt_d_mid self
  /\ forall w, HandTracker.select_arrays s w = HandTracker.select_arrays self w.
Proof.
  unfold HandTracker.sustained_fist. intros H. inv_res H.
  inversion H; subst. repeat split.
Qed.

(** What [_process] hands to the two distance filters: the raw 3D
    distances divided by [hand_size]. *)
Lemma pinch_distances_inv (self s : HandTracker.t) (lm : list Landmark.t)
    (i : nat) (now hand_size d_idx d_mid : float) :
  HandTracker.pinch_distances self lm i now hand_size = Ok (d_idx, d_mid, s) ->
  exists l4 l8 l12 raw_idx raw_mid fi fm fi' fm',
    getl lm 4 = Ok l4 /\ getl lm 8 = Ok l8 /\ getl lm 12 = Ok l12
    /\ HandTracker._dist3d l8 l4 = Ok raw_idx
    /\ HandTracker._dist3d l12 l4 = Ok raw_mid
    /\ pydiv raw_idx hand_size = Ok (raw_idx / hand_size)
    /\ getl (HandTracker._filt_d_idx self) i = Ok fi
    /\ getl (HandTracker._filt_d_mid self) i = Ok fm
    /\ OneEuroFilter.__call__ fi (raw_idx / hand_size) now = Ok (d_idx, fi')
    /\ OneEuroFilter.__call__ fm (raw_mid / hand_size) now = Ok (d_mid, fm')
    /\ getl (HandTracker._filt_d_idx s) i = Ok fi'
    /\ getl (HandTracker._filt_d_mid s) i = Ok fm'
    /\ forall w, HandTracker.select_arrays s w = HandTracker.select_arrays self w.
Proof.
  unfold HandTracker.pinch_distances. intros H.
  destruct (getl lm 4) as [l4|] eqn:E4; [cbn [rbind] in H|discriminate].
  destruct (getl lm 8) as [l8|] eqn:E8; [cbn [rbind] in H|discriminate].
  destruct (HandTracker._dist3d l8 l4) as [ri|] eqn:Ei;
    [cbn [rbind] in H|discriminate].
  destruct (pydiv ri hand_size) as [ni|] eqn:Pi;
    [cbn [rbind] in H|discriminate].
  destruct (HandTracker.call_filter (HandTracker._filt_d_idx self) i ni now)
    as [[di fdi]|] eqn:Ci; [cbn [rbind] in H|discriminate].
  simpl in H.
  destruct (getl lm 12) as [l12|] eqn:E12; [cbn [rbind] in H|discriminate].
  destruct (HandTracker._dist3d l12 l4) as [rm|] eqn:Em;
    [cbn [rbind] in H|discriminate].
  destruct (pydiv rm hand_size) as [nm|] eqn:Pm;
    [cbn [rbind] in H|discriminate].
  destruct (HandTracker.call_filter (HandTracker._filt_d_mid self) i nm now)
    as [[dm fdm]|] eqn:Cm; [cbn [rbind] in H|discriminate].
  inversion H; subst di dm s. clear H.
  pose proof (pydiv_inv _ _ _ Pi) as Hni.
  pose proof (pydiv_inv _ _ _ Pm) as Hnm. subst ni nm.
  destruct (call_filter_inv _ _ _ _ _ _ Ci) as (fi & fi' & Gi & Ki & Gi').
  destruct (call_filter_inv _ _ _ _ _ _ Cm) as (fm & fm' & Gm & Km & Gm').
  exists l4, l8, l12, ri, rm, fi, fm, fi', fm'.
  repeat (split; [first [reflexivity | assumption]|]).
  reflexivity.
Qed.

(** One frame seen from the two distance filters of its slot: each
    receives the raw 3D distance divided by the hand scale, and what it
    returns and becomes is what one call of it with that sample gives. *)
Lemma process_distance_filters (math_hypot : float -> float -> float)
    (self self' : HandTracker.t) (lm : list Landmark.t) (i : nat)
    (now : float) (hs : HandState.t) :
  HandTracker._process math_hypot self lm i now = Ok (hs, self') ->
  exists h l4 l8 l12 raw_idx raw_mid fi fm v_idx v_mid fi' fm',
    HandTracker.hand_scale lm = Ok h
    /\ getl lm 4 = Ok l4 /\ getl lm 8 = Ok l8 /\ getl lm 12 = Ok l12
    /\ HandTracker._dist3d l8 l4 = Ok raw_idx
    /\ HandTracker._dist3d l12 l4 = Ok raw_mid
    /\ pydiv raw_idx h = Ok (raw_idx / h)
    /\ getl (HandTracker._filt_d_idx self) i = Ok fi
    /\ getl (HandTracker._filt_d_mid self) i = Ok fm
    /\ OneEuroFilter.__call__ fi (raw_idx / h) now = Ok (v_idx, fi')
    /\ OneEuroFilter.__call__ fm (raw_mid / h) now = Ok (v_mid, fm')
    /\ getl (HandTracker._filt_d_idx self') i = Ok fi'
    /\ getl (HandTracker._filt_d_mid self') i = Ok fm'.
Proof.
  intros H.
  destruct (process_inv _ _ _ _ _ _ _ H)
    as (hs_x & hs_y & s1 & vel & s2 & h & d_idx & d_mid & s3 & e1 & e2 & e3
        & e4 & cl & s4 & cr & s5 & fist
        & E1 & E2 & E3 & E4 & E5 & E6 & E7 & E8 & ->).
  destruct (cursor_position_keeps _ _ _ _ _ _ _ E1) as (A1 & A2 & _).
  destruct (cursor_velocity_keeps _ _ _ _ _ _ _ _ E2) as (B1 & B2 & _).
  destruct (pinch_distances_inv _ _ _ _ _ _ _ _ E4)
    as (l4 & l8 & l12 & ri & rm & fi & fm & fi' & fm'
        & G4 & G8 & G12 & Di & Dm & Pd & Gi & Gm & Ki & Km & Gi' & Gm' & _).
  destruct (sustained_fist_keeps _ _ _ _ _ E8) as (F1 & F2 & _).
  destruct (pinch_frame _ _ _ _ _ _ _ _ E6)
    as (_ & _ & _ & P6i & P6m & _).
  destruct (pinch_frame _ _ _ _ _ _ _ _ E7)
    as (_ & _ & _ & P7i & P7m & _).
  rewrite B1, A1 in Gi. rewrite B2, A2 in Gm.
  rewrite <- P6i, <- P7i, <- F1 in Gi'.
  rewrite <- P6m, <- P7m, <- F2 in Gm'.
  exists h, l4, l8, l12, ri, rm, fi, fm, d_idx, d_mid, fi', fm'.
  repeat (split; [assumption|]). assumption.
Qed.

(** One frame seen from the index channel of its slot: the index distance
    filter receives the normalised thumb-index distance, and the index
    pinch machine steps on the value the filter returns; [click_left] is
    the click of that step. *)
Lemma process_index_channel (math_hypot : float -> float -> float)
    (self self' : HandTracker.t) (lm : list Landmark.t) (i : nat)
    (now : float) (hs : HandState.t) (m : machine) :
  HandTracker._process math_hypot self lm i now = Ok (hs, self') ->
  machine_of self "idx" i = Ok m ->
  exists n f v f' q,
    normalised_index_distance lm = Ok n
    /\ getl (HandTracker._filt_d_idx self) i = Ok f
    /\ OneEuroFilter.__call__ f n now = Ok (v, f')
    /\ getl (HandTracker._filt_d_idx self') i = Ok f'
    /\ HandState.click_left hs = fst (view_step m v q now)
    /\ machine_of self' "idx" i = Ok (snd (view_step m v q now)).
Proof.
  intros H Hm.
  destruct (process_distance_filters _ _ _ _ _ _ _ H)
    as (h & l4 & l8 & l12 & ri & rm & fi & fm & vi & vm & fi' & fm'
        & Hh & G4 & G8 & G12 & Di & Dm & Pd & Gi & Gm & Ki & Km & Gi' & Gm').
  destruct (process_inv _ _ _ _ _ _ _ H)
    as (hs_x & hs_y & s1 & vel & s2 & h0 & d_idx & d_mid & s3 & e1 & e2 & e3
        & e4 & cl & s4 & cr & s5 & fist
        & E1 & E2 & E3 & E4 & E5 & E6 & E7 & E8 & ->).
  destruct (cursor_position_keeps _ _ _ _ _ _ _ E1) as (A1 & _ & A3).
  destruct (cursor_velocity_keeps _ _ _ _ _ _ _ _ E2) as (B1 & _ & B3).
  destruct (pinch_distances_inv _ _ _ _ _ _ _ _ E4)
    as (l4' & l8' & l12' & ri' & rm' & gi & gm & gi' & gm'
        & G4' & G8' & G12' & Di' & Dm' & Pd' & Hgi & Hgm & Ki' & Km' & _ & _
        & C3).
  destruct (sustained_fist_keeps _ _ _ _ _ E8) as (_ & _ & F3).
  rewrite E3 in Hh. inversion Hh; subst h0. clear Hh.
  rewrite G4 in G4'. inversion G4'; subst l4'.
  rewrite G8 in G8'. inversion G8'; subst l8'.
  rewrite Di in Di'. inversion Di'; subst ri'.
  rewrite B1, A1, Gi in Hgi. inversion Hgi; subst gi.
  rewrite Ki in Ki'. inversion Ki'; subst d_idx gi'.
  assert (Hm3 : machine_of s3 "idx" i = Ok m).
  { unfold machine_of. rewrite C3, B3, A3. exact Hm. }
  destruct (pinch_on_view s3 i "idx" m vi (e3 || e4) now Hm3)
    as (s4' & Hp & Hm4).
  rewrite E6 in Hp. inversion Hp; subst cl s4'. clear Hp.
  destruct (pinch_frame _ _ _ _ _ _ _ _ E7) as (Pm7 & _).
  assert (Hm5 : machine_of s5 "idx" i = machine_of s4 "idx" i).
  { apply Pm7. right. reflexivity. }
  exists (ri / h), fi, vi, fi', (e3 || e4).
  split.
  { unfold normalised_index_distance. rewrite E3. cbn [rbind].
    rewrite G4. cbn [rbind]. rewrite G8. cbn [rbind]. rewrite Di.
    cbn [rbind]. exact Pd. }
  split; [exact Gi|]. split; [exact Ki|]. split; [exact Gi'|].
  split; [reflexivity|].
  unfold machine_of. rewrite F3. fold (machine_of s5 "idx" i).
  rewrite Hm5. exact Hm4.
Qed.

(** ** The hand scale *)




(** ** The five-frame scenario *)

(** A frame whose distance is not below the enter threshold does not
    click, and leaves the machine four qualifying frames away from a
    click. *)
Lemma far_frame_resets (m : machine) (v : float) (q : bool) (n : float) :
  (m_state m = "pinched"%string -> m_count m = 0%Z) ->
  (v <? 0.28) = false ->
  fst (view_step m v q n) = false
  /\ short_of_click 0 (snd (view_step m v q n)).
Proof.
  intros Hp Hv. unfold view_step, short_of_click.
  destruct (String.eqb (m_state m) "open") eqn:Eo.
  - unfold HandTracker.PINCH_ENTER. rewrite Hv. cbn.
    rewrite Eo. split; [reflexivity | lia].
  - destruct (String.eqb (m_state m) "pinched") eqn:Ep.
    + apply String.eqb_eq in Ep. specialize (Hp Ep).
      destruct (3 <=? _)%Z; cbn; [|rewrite Eo].
      * split; [reflexivity | lia].
      * apply String.eqb_eq in Ep as Ep'. rewrite Ep.
        rewrite String.eqb_refl. split; [reflexivity | exact Hp].
    + cbn. rewrite Eo, Ep. split; [reflexivity | exact I].
Qed.

(** A frame of a machine that is more than one qualifying frame away from
    a click does not click, and brings it at most one frame nearer. *)
Lemma near_frame_counts (k : Z) (m : machine) (v : float) (q : bool)
    (n : float) :
  short_of_click k m -> (0 <= k < 3)%Z ->
  fst (view_step m v q n) = false
  /\ short_of_click (k + 1) (snd (view_step m v q n)).
Proof.
  intros Hs Hk. unfold view_step, short_of_click in *.
  destruct (String.eqb (m_state m) "open") eqn:Eo.
  2: destruct (String.eqb (m_state m) "pinched") eqn:Ep.
  all: cbv iota in Hs.
  - destruct (_ && _ && _).
    + destruct (HandTracker.DEBOUNCE <=? m_count m + 1)%Z eqn:Ed.
      * apply Z.leb_le in Ed. unfold HandTracker.DEBOUNCE in Ed. lia.
      * cbn. rewrite Eo. split; [reflexivity | lia].
    + cbn. rewrite Eo. split; [reflexivity | lia].
  - destruct (3 <=? _)%Z; cbn.
    + split; [reflexivity | lia].
    + rewrite Eo, Ep. split; [reflexivity | exact Hs].
  - cbn. rewrite Eo, Ep. split; [reflexivity | exact I].
Qed.

Lemma short_of_click_pinched (k : Z) (m : machine) :
  short_of_click k m -> m_state m = "pinched"%string -> m_count m = 0%Z.
Proof.
  unfold short_of_click. intros H Hp. rewrite Hp in H. exact H.
Qed.

(** The index distance filter of a new slot passes its first sample
    through. *)
Lemma first_sample (x t : float) :
  OneEuroFilter.__call__ (OneEuroFilter.__init__ 0.5 0.003 1.0) x t
  = Ok (x, OneEuroFilter.mk 0.5 0.003 1.0 (Some x) 0.0 (Some t)).
Proof. reflexivity. Qed.

(** Given 0.4 one frame time after 0.5, it returns a value between the
    two, not below the enter threshold. *)
Lemma second_sample_far (t1 t2 v : float) (f' : OneEuroFilter.t) :
  (t2 - t1)%float = frame_gap ->
  OneEuroFilter.__call__
    (OneEuroFilter.mk 0.5 0.003 1.0 (Some 0.5) 0.0 (Some t1)) 0.4 t2
  = Ok (v, f') ->
  (v <? 0.28) = false /\ (0.4 <? v) = true /\ (v <? 0.5) = true.
Proof.
  intros Hg H. unfold OneEuroFilter.__call__ in H.
  cbv beta iota zeta delta [OneEuroFilter._t_prev OneEuroFilter._x_prev
                            OneEuroFilter._dx_prev OneEuroFilter.min_cutoff
                            OneEuroFilter.beta OneEuroFilter.d_cutoff] in H.
  rewrite Hg in H. vm_compute in H. inversion H; subst v.
  repeat split; reflexivity.
Qed.

(** One turn of the loop seen from the index channel of slot 0: the first
    detected hand goes through the index distance filter and the index
    pinch machine of slot 0, a second hand does not touch them, and the
    click is what [get_state] then reports for the primary hand. *)
Lemma loop_index_channel (math_hypot : float -> float -> float)
    (sum : list float -> float) (self self1 : HandTracker.t) (t0 t1 : float)
    (lm : list Landmark.t) (others : list (list Landmark.t)) (m : machine) :
  HandTracker._loop_body math_hypot sum self t0 (Some (lm :: others)) t1
  = Ok self1 ->
  machine_of self "idx" 0 = Ok m ->
  exists n f v f' q,
    normalised_index_distance lm = Ok n
    /\ getl (HandTracker._filt_d_idx self) 0 = Ok f
    /\ OneEuroFilter.__call__ f n t0 = Ok (v, f')
    /\ getl (HandTracker._filt_d_idx self1) 0 = Ok f'
    /\ HandState.click_left (TrackerState.primary (HandTracker.get_state self1))
       = fst (view_step m v q t0)
    /\ machine_of self1 "idx" 0 = Ok (snd (view_step m v q t0)).
Proof.
  intros H Hm.
  destruct (loop_turn _ _ _ _ _ _ _ H) as (p & s & k & sK & Hh & Hs).
  cbv zeta in Hs. cbn [hands_of] in Hh.
  destruct others as [|h1 rest].
  - destruct Hh as (H0 & _ & _).
    destruct (process_index_channel _ _ _ _ _ _ _ _ H0 Hm)
      as (n & f & v & f' & q & Hn & Gf & Kf & Gf' & Hc & Hm').
    exists n, f, v, f', q. subst self1.
    repeat (split; [first [assumption | reflexivity]|]).
    exact Hm'.
  - destruct Hh as (s1 & H0 & H1 & _).
    destruct (process_index_channel _ _ _ _ _ _ _ _ H0 Hm)
      as (n & f & v & f' & q & Hn & Gf & Kf & Gf' & Hc & Hm').
    assert (Hv : slot_view sK 0 = slot_view s1 0)
      by (apply (process_other_slot _ _ _ _ 1%nat 0%nat _ _ H1); discriminate).
    unfold slot_view in Hv. injection Hv as _ _ Hfi _ _ _ _ Hmi _ _.
    exists n, f, v, f', q. subst self1.
    split; [exact Hn|]. split; [exact Gf|]. split; [exact Kf|].
    split; [cbn; rewrite Hfi; exact Gf'|].
    split; [exact Hc|].
    change (machine_of sK "idx" 0 = Ok (snd (view_step m v q t0))).
    rewrite Hmi. exact Hm'.
Qed.

(** C3 (amended: no click within the five frames, on a slot whose index
    distance filter holds no sample).  The tracker is in any state in
    which the index distance filter of slot 0 is as [__init__] makes it
    and the index pinch machine of slot 0 has its counters within their
    bounds (so a new tracker, whose machine is open with counter 0).  Hand
    0 is the first hand of five consecutive turns of the loop, with any
    further hands; its normalised thumb-index distance is 0.5 on frame 1
    and 0.4 on frame 2, and frame 2 comes one frame time of a 30 fps video
    after frame 1.  Then [click_left] of the primary hand is false on each
    of the five frames, whatever the landmarks and the timestamps of
    frames 3 to 5 are: the filter passes 0.5 through and returns a value
    between 0.4 and 0.5 for the second frame, so neither frame qualifies,
    and the three frames left are one short of the debounce count. *)
Theorem scenario_no_click :
  forall (math_hypot : float -> float -> float) (sum : list float -> float)
         (self self' : HandTracker.t) (snaps : list TrackerState.t)
         (m : machine)
         (lm1 lm2 lm3 lm4 lm5 : list Landmark.t)
         (o1 o2 o3 o4 o5 : list (list Landmark.t))
         (t1 t2 t3 t4 t5 e1 e2 e3 e4 e5 : float),
    getl (HandTracker._filt_d_idx self) 0
    = Ok (OneEuroFilter.__init__ 0.5 0.003 1.0) ->
    machine_of self "idx" 0 = Ok m ->
    machine_inv m ->
    normalised_index_distance lm1 = Ok 0.5 ->
    normalised_index_distance lm2 = Ok 0.4 ->
    (t2 - t1)%float = frame_gap ->
    loop_frames math_hypot sum self
      [(t1, Some (lm1 :: o1), e1); (t2, Some (lm2 :: o2), e2);
       (t3, Some (lm3 :: o3), e3); (t4, Some (lm4 :: o4), e4);
       (t5, Some (lm5 :: o5), e5)]
    = Ok (snaps, self') ->
    map (fun s => HandState.click_left (TrackerState.primary s)) snaps
    = [false; false; false; false; false].
Proof.
  intros math_hypot sum self self' snaps m lm1 lm2 lm3 lm4 lm5
         o1 o2 o3 o4 o5 t1 t2 t3 t4 t5 e1 e2 e3 e4 e5
         Hf Hm Hinv Hn1 Hn2 Hgap H.
  cbn [loop_frames] in H.
  destruct (HandTracker._loop_body math_hypot sum self t1 _ e1)
    as [s1|] eqn:L1; [cbn [rbind] in H | discriminate H].
  destruct (HandTracker._loop_body math_hypot sum s1 t2 _ e2)
    as [s2|] eqn:L2; [cbn [rbind] in H | discriminate H].
  destruct (HandTracker._loop_body math_hypot sum s2 t3 _ e3)
    as [s3|] eqn:L3; [cbn [rbind] in H | discriminate H].
  destruct (HandTracker._loop_body math_hypot sum s3 t4 _ e4)
    as [s4|] eqn:L4; [cbn [rbind] in H | discriminate H].
  destruct (HandTracker._loop_body math_hypot sum s4 t5 _ e5)
    as [s5|] eqn:L5; [cbn [rbind] in H | discriminate H].
  inversion H; subst snaps self'. clear H.
  (* frame 1: the filter passes 0.5 through *)
  destruct (loop_index_channel _ _ _ _ _ _ _ _ _ L1 Hm)
    as (n1 & f0 & v1 & f1 & q1 & N1 & G0 & K1 & G1 & C1 & M1).
  rewrite Hn1 in N1. inversion N1; subst n1. clear N1.
  rewrite Hf in G0. inversion G0; subst f0. clear G0.
  rewrite first_sample in K1. inversion K1; subst v1 f1. clear K1.
  assert (Hp0 : m_state m = "pinched"%string -> m_count m = 0%Z).
  { intros Hp. destruct Hinv as [(Ho & _) | (_ & Hc & _)];
      [congruence | exact Hc]. }
  destruct (far_frame_resets m 0.5 q1 t1 Hp0 eq_refl) as (Q1 & S1).
  (* frame 2: the filter returns a value not below the threshold *)
  destruct (loop_index_channel _ _ _ _ _ _ _ _ _ L2 M1)
    as (n2 & f1 & v2 & f2 & q2 & N2 & G1' & K2 & G2 & C2 & M2).
  rewrite Hn2 in N2. inversion N2; subst n2. clear N2.
  rewrite G1 in G1'. inversion G1'; subst f1. clear G1'.
  destruct (second_sample_far _ _ _ _ Hgap K2) as (V2 & _).
  destruct (far_frame_resets _ v2 q2 t2
              (short_of_click_pinched _ _ S1) V2) as (Q2 & S2).
  (* frames 3 to 5: at most three qualifying frames *)
  destruct (loop_index_channel _ _ _ _ _ _ _ _ _ L3 M2)
    as (n3 & f2' & v3 & f3 & q3 & _ & _ & _ & _ & C3 & M3).
  destruct (near_frame_counts 0 _ v3 q3 t3 S2 ltac:(lia)) as (Q3 & S3).
  destruct (loop_index_channel _ _ _ _ _ _ _ _ _ L4 M3)
    as (n4 & f3' & v4 & f4 & q4 & _ & _ & _ & _ & C4 & M4).
  destruct (near_frame_counts _ _ v4 q4 t4 S3 ltac:(lia)) as (Q4 & S4).
  destruct (loop_index_channel _ _ _ _ _ _ _ _ _ L5 M4)
    as (n5 & f4' & v5 & f5 & q5 & _ & _ & _ & _ & C5 & M5).
  destruct (near_frame_counts _ _ v5 q5 t5 S4 ltac:(lia)) as (Q5 & _).
  cbn [map]. rewrite C1, C2, C3, C4, C5, Q1, Q2, Q3, Q4, Q5. reflexivity.
Qed.

(** The scenario of section 8 on a new tracker: two hands, distances 0.5,
    0.4, 0.2, 0.15 and 0.1, all fingers extended, 30 frames per second
    from 1 s on, last click stamp 0.0. *)
Lemma scenario_no_click_witness :
  exists snaps self',
    loop_frames hypot_plain sum_plain (HandTracker.__init__ 0.0) scenario
    = Ok (snaps, self')
    /\ map normalised_index_distance scenario_hands
       = [Ok 0.5; Ok 0.4; Ok 0.2; Ok 0.15; Ok 0.1]
    /\ map (fun s => HandState.click_left (TrackerState.primary s)) snaps
       = [false; false; false; false; false].
Proof.
  destruct (loop_frames hypot_plain sum_plain (HandTracker.__init__ 0.0)
              scenario) as [[snaps self']|] eqn:E;
    [|exfalso; vm_compute in E; discriminate].
  exists snaps, self'. split; [reflexivity|].
  split; [vm_compute; reflexivity|].
  apply (scenario_no_click hypot_plain sum_plain (HandTracker.__init__ 0.0)
           self' snaps (mk_machine "open" 0 0 0.0)
           (open_hand 0.5) (open_hand 0.4) (open_hand 0.2) (open_hand 0.15)
           (open_hand 0.1)
           [open_hand 0.9] [open_hand 0.9] [open_hand 0.9] [open_hand 0.9]
           [open_hand 0.9]
           (scenario_time 1) (scenario_time 2) (scenario_time 3)
           (scenario_time 4) (scenario_time 5)
           (scenario_time 1 + 0.01) (scenario_time 2 + 0.01)
           (scenario_time 3 + 0.01) (scenario_time 4 + 0.01)
           (scenario_time 5 + 0.01)).
  - reflexivity.
  - reflexivity.
  - left. cbn. repeat split; lia.
  - vm_compute. reflexivity.
  - vm_compute. reflexivity.
  - reflexivity.
  - exact E.
Defined.

(** C3 as stated fails: on a new tracker the fifth frame of the scenario
    does not click.  And the start state matters: when the index distance
    filter of slot 0 already holds the sample 0.05, the same five frames
    click on frame 4. *)
Lemma scenario_click_counterexample :
  (exists snaps self',
     loop_frames hypot_plain sum_plain (HandTracker.__init__ 0.0) scenario
     = Ok (snaps, self')
     /\ map (fun s => HandState.click_left (TrackerState.primary s))
            (skipn 4 snaps) = [false])
  /\ (exists snaps self',
        loop_frames hypot_plain sum_plain warm_tracker scenario
        = Ok (snaps, self')
        /\ map (fun s => HandState.click_left (TrackerState.primary s)) snaps
           = [false; false; false; true; false]).
Proof.
  split; do 2 eexists; vm_compute; split; reflexivity.
Qed.

(** * Further properties of the code: the controller and the main loop *)

(** ** The mouse controller *)

Ltac inv_out H :=
  repeat match type of H with
  | obind ?e _ = Returns _ =>
      let E := fresh "E" in
      destruct e as [?|?] eqn:E; [cbn [obind] in H | discriminate H]
  end.

Lemma sent_app (flags : Z) (a b : list MouseController.call) :
  sent flags (a ++ b) = (sent flags a + sent flags b)%nat.
Proof. unfold sent. rewrite filter_app, length_app. reflexivity. Qed.

Lemma move_inv (self : MouseController.t) (nx ny : float)
    (calls : list MouseController.call) :
  MouseController.move self nx ny = Returns calls ->
  exists x y,
    calls = [MouseController.SetCursorPos x y]
    /\ (0 <= x)%Z /\ (0 <= y)%Z
    /\ (0 < MouseController.screen_w self ->
        x < MouseController.screen_w self)%Z
    /\ (0 < MouseController.screen_h self ->
        y < MouseController.screen_h self)%Z.
Proof.
  intros H. unfold MouseController.move in H. inv_out H.
  inversion H; subst calls. clear H.
  eexists _, _. split; [reflexivity|]. lia.
Qed.

Lemma scroll_inv (self self' : MouseController.t) (ny sensitivity : float)
    (calls : list MouseController.call) :
  MouseController.scroll self ny sensitivity = Returns (self', calls) ->
  self' = MouseController.set__last_scroll_y self (Some ny)
  /\ (calls = []
      \/ exists last data,
           MouseController._last_scroll_y self = Some last
           /\ py_int (((last - ny) * sensitivity) * 120) = Returns data
           /\ calls = [MouseController._send
                         MouseController.MOUSEEVENTF_WHEEL 0 0 data]).
Proof.
  intros H. unfold MouseController.scroll in H.
  destruct (MouseController._last_scroll_y self) as [last|] eqn:El.
  - cbv zeta in H.
    destruct (0.3 <? abs ((last - ny) * sensitivity)).
    + inv_out H. inversion H; subst self' calls.
      split; [reflexivity|]. right. exists last, a. auto.
    + inversion H; subst self' calls. auto.
  - inversion H; subst self' calls. auto.
Qed.

(** What a method call does to the buttons and to the configuration. *)
Lemma invoke_balance (self self' : MouseController.t) (m : method)
    (r : option bool) (calls : list MouseController.call) :
  invoke self m = Returns (r, self', calls) ->
  (sent MouseController.MOUSEEVENTF_LEFTDOWN calls + button_held self
   = sent MouseController.MOUSEEVENTF_LEFTUP calls + button_held self')%nat
  /\ sent MouseController.MOUSEEVENTF_RIGHTDOWN calls
     = sent MouseController.MOUSEEVENTF_RIGHTUP calls
  /\ MouseController._click_cooldown self'
     = MouseController._click_cooldown self
  /\ MouseController.screen_w self' = MouseController.screen_w self
  /\ MouseController.screen_h self' = MouseController.screen_h self.
Proof.
  intros H. destruct m; cbn [invoke] in H.
  - inv_out H. inversion H; subst r self' calls.
    destruct (move_inv _ _ _ _ E) as (x & y & -> & _). auto.
  - unfold MouseController.left_click in H.
    destruct (MouseController._click_cooldown self
              <? now - MouseController._last_left self);
      inversion H; subst r self' calls; auto.
  - unfold MouseController.right_click in H.
    destruct (MouseController._click_cooldown self
              <? now - MouseController._last_right self);
      inversion H; subst r self' calls; auto.
  - unfold MouseController.start_drag, button_held in *.
    destruct (MouseController._dragging self) eqn:Ed;
      inversion H; subst r self' calls; cbn; rewrite ?Ed; auto.
  - unfold MouseController.stop_drag, button_held in *.
    destruct (MouseController._dragging self) eqn:Ed;
      inversion H; subst r self' calls; cbn; rewrite ?Ed; auto.
  - inv_out H. destruct a as [s1 c1]. inversion H; subst r self' calls.
    destruct (scroll_inv _ _ _ _ _ E) as (-> & [-> | (l & d & _ & _ & ->)]);
      auto.
  - inversion H; subst r self' calls. auto.
Qed.

Lemma run_balance (ms : list method) :
  forall (self self' : MouseController.t)
         (calls : list MouseController.call) (rs : list (option bool)),
    run self ms = Returns (self', calls, rs) ->
    (sent MouseController.MOUSEEVENTF_LEFTDOWN calls + button_held self
     = sent MouseController.MOUSEEVENTF_LEFTUP calls + button_held self')%nat
    /\ sent MouseController.MOUSEEVENTF_RIGHTDOWN calls
       = sent MouseController.MOUSEEVENTF_RIGHTUP calls
    /\ MouseController._click_cooldown self'
       = MouseController._click_cooldown self
    /\ MouseController.screen_w self' = MouseController.screen_w self
    /\ MouseController.screen_h self' = MouseController.screen_h self.
Proof.
  induction ms as [|m rest IH]; intros self self' calls rs H.
  - cbn [run] in H. inversion H; subst self' calls rs. auto.
  - cbn [run] in H. inv_out H.
    destruct a as [[r s1] c1]. cbn [obind] in H. inv_out H.
    destruct a as [[s2 c2] rs2]. inversion H; subst self' calls rs. clear H.
    destruct (invoke_balance _ _ _ _ _ E) as (B1 & R1 & K1 & W1 & H1).
    destruct (IH _ _ _ _ E0) as (B2 & R2 & K2 & W2 & H2).
    rewrite !sent_app.
    split; [lia|]. split; [lia|]. split; [congruence|].
    split; congruence.
Qed.

(** X15.  Whatever methods are called on a new controller, in whatever
    order, the left button has been pressed once more than released
    exactly when the controller says it is dragging (and as often
    otherwise), every press of the right button has been released, and the
    click cooldown is still 0.4 s. *)
Theorem drag_flag_matches_button :
  forall (screen_w screen_h : Z) (ms : list method)
         (self' : MouseController.t) (calls : list MouseController.call)
         (rs : list (option bool)),
    run (MouseController.__init__ screen_w screen_h) ms
    = Returns (self', calls, rs) ->
    sent MouseController.MOUSEEVENTF_LEFTDOWN calls
    = (sent MouseController.MOUSEEVENTF_LEFTUP calls
       + if MouseController.is_dragging self' then 1 else 0)%nat
    /\ sent MouseController.MOUSEEVENTF_RIGHTDOWN calls
       = sent MouseController.MOUSEEVENTF_RIGHTUP calls
    /\ MouseController._click_cooldown self' = 0.4.
Proof.
  intros screen_w screen_h ms self' calls rs H.
  destruct (run_balance _ _ _ _ _ H) as (B & R & K & _).
  unfold button_held in B. cbn in B.
  split; [unfold MouseController.is_dragging; lia|].
  split; [exact R | exact K].
Qed.

Lemma drag_flag_matches_button_witness :
  exists self' calls rs,
    run (MouseController.__init__ 1920 1080)
      [StartDrag; LeftClick 1.0; Move 0.5 0.5; RightClick 1.0; StartDrag]
    = Returns (self', calls, rs)
    /\ sent MouseController.MOUSEEVENTF_LEFTDOWN calls = 2%nat
    /\ sent MouseController.MOUSEEVENTF_LEFTUP calls = 1%nat
    /\ MouseController.is_dragging self' = true.
Proof.
  destruct (run (MouseController.__init__ 1920 1080)
              [StartDrag; LeftClick 1.0; Move 0.5 0.5; RightClick 1.0;
               StartDrag])
    as [[[self' calls] rs]|] eqn:E; [|exfalso; vm_compute in E; discriminate].
  exists self', calls, rs. split; [reflexivity|].
  destruct (drag_flag_matches_button _ _ _ _ _ _ E) as (B & _).
  assert (Hc : sent MouseController.MOUSEEVENTF_LEFTUP calls = 1%nat
               /\ MouseController.is_dragging self' = true)
    by (vm_compute in E; inversion E; split; reflexivity).
  destruct Hc as (Hu & Hd). rewrite Hu, Hd in B.
  split; [exact B|]. split; [exact Hu | exact Hd].
Defined.

Lemma click_inv (right : bool) (self self' : MouseController.t)
    (now : float) (r : bool) (calls : list MouseController.call) :
  click right self now = (r, self', calls) ->
  r = (MouseController._click_cooldown self <? now - stamp right self)
  /\ (r = true -> stamp right self' = now)
  /\ (r = false -> self' = self /\ calls = [])
  /\ MouseController._click_cooldown self'
     = MouseController._click_cooldown self.
Proof.
  intros H.
  destruct right; cbn [click stamp] in *;
    [unfold MouseController.right_click in H
    |unfold MouseController.left_click in H].
  - destruct (MouseController._click_cooldown self
              <? now - MouseController._last_right self);
      inversion H; subst r self' calls;
      (split; [reflexivity|]); (split; [intros; first [reflexivity|discriminate]|]);
      (split; [intros; first [discriminate|split; reflexivity]|reflexivity]).
  - destruct (MouseController._click_cooldown self
              <? now - MouseController._last_left self);
      inversion H; subst r self' calls;
      (split; [reflexivity|]); (split; [intros; first [reflexivity|discriminate]|]);
      (split; [intros; first [discriminate|split; reflexivity]|reflexivity]).
Qed.

Lemma invoke_keeps_stamp (right : bool) (self self' : MouseController.t)
    (m : method) (r : option bool) (calls : list MouseController.call) :
  invoke self m = Returns (r, self', calls) ->
  (forall t, m = Click right t -> r = Some false) ->
  stamp right self' = stamp right self.
Proof.
  intros H Hq. destruct m; cbn [invoke] in H.
  - inv_out H. inversion H; subst; reflexivity.
  - unfold MouseController.left_click in H.
    destruct (MouseController._click_cooldown self
              <? now - MouseController._last_left self);
      inversion H; subst r self' calls; [|reflexivity].
    destruct right; [reflexivity|].
    specialize (Hq now eq_refl). discriminate.
  - unfold MouseController.right_click in H.
    destruct (MouseController._click_cooldown self
              <? now - MouseController._last_right self);
      inversion H; subst r self' calls; [|reflexivity].
    destruct right; [|reflexivity].
    specialize (Hq now eq_refl). discriminate.
  - unfold MouseController.start_drag in H.
    destruct (negb (MouseController._dragging self));
      inversion H; subst; destruct right; reflexivity.
  - unfold MouseController.stop_drag in H.
    destruct (MouseController._dragging self);
      inversion H; subst; destruct right; reflexivity.
  - inv_out H. destruct a as [s1 c1]. inversion H; subst r self' calls.
    destruct (scroll_inv _ _ _ _ _ E) as (-> & _).
    destruct right; reflexivity.
  - inversion H; subst. destruct right; reflexivity.
Qed.

Lemma run_keeps_stamp (right : bool) (ms : list method) :
  forall (self self' : MouseController.t)
         (calls : list MouseController.call) (rs : list (option bool)),
    run self ms = Returns (self', calls, rs) ->
    Forall2 (fun m r => forall t, m = Click right t -> r = Some false)
            ms rs ->
    stamp right self' = stamp right self.
Proof.
  induction ms as [|m rest IH]; intros self self' calls rs H Hq.
  - cbn [run] in H. inversion H; subst. reflexivity.
  - cbn [run] in H. inv_out H.
    destruct a as [[r s1] c1]. cbn [obind] in H. inv_out H.
    destruct a as [[s2 c2] rs2]. inversion H; subst self' calls rs. clear H.
    inversion Hq as [|m0 r0 ms0 rs0 Hm Hrest]; subst.
    rewrite (IH _ _ _ _ E0 Hrest).
    exact (invoke_keeps_stamp _ _ _ _ _ _ E Hm).
Qed.

(** X16.  Two successive clicks of the same button are more than 0.4 s
    apart: on a controller made by [__init__] and used in any way, if a
    click method succeeds at time [t1], any methods are called afterwards
    of which no click of that button succeeds, and then the click method
    succeeds at time [t2], then [t2 - t1 > 0.4].  This holds for the left
    and for the right button, each with its own time stamp. *)
Theorem clicks_of_a_button_apart :
  forall (right : bool) (screen_w screen_h : Z) (before between : list method)
         (s s1 s2 s3 : MouseController.t)
         (c0 c1 c2 c3 : list MouseController.call)
         (r0 rs : list (option bool)) (t1 t2 : float),
    run (MouseController.__init__ screen_w screen_h) before
    = Returns (s, c0, r0) ->
    click right s t1 = (true, s1, c1) ->
    run s1 between = Returns (s2, c2, rs) ->
    Forall2 (fun m r => forall t, m = Click right t -> r = Some false)
            between rs ->
    click right s2 t2 = (true, s3, c3) ->
    (0.4 <? t2 - t1) = true.
Proof.
  intros right screen_w screen_h before between s s1 s2 s3 c0 c1 c2 c3 r0 rs
         t1 t2 H0 H1 H2 Hq H3.
  destruct (run_balance _ _ _ _ _ H0) as (_ & _ & K0 & _).
  cbn in K0.
  destruct (click_inv _ _ _ _ _ _ H1) as (_ & S1 & _ & K1).
  destruct (run_balance _ _ _ _ _ H2) as (_ & _ & K2 & _).
  destruct (click_inv _ _ _ _ _ _ H3) as (R3 & _).
  rewrite (run_keeps_stamp _ _ _ _ _ _ H2 Hq), (S1 eq_refl) in R3.
  rewrite K2, K1, K0 in R3. symmetry. exact R3.
Qed.

Lemma clicks_of_a_button_apart_witness :
  exists s1 c1 s2 c2 rs s3 c3,
    click false (MouseController.__init__ 1920 1080) 1.0 = (true, s1, c1)
    /\ run s1 [RightClick 1.125; LeftClick 1.25; StartDrag]
       = Returns (s2, c2, rs)
    /\ rs = [Some true; Some false; None]
    /\ click false s2 1.5 = (true, s3, c3)
    /\ (0.4 <? 1.5 - 1.0) = true.
Proof.
  destruct (click false (MouseController.__init__ 1920 1080) 1.0)
    as [[b1 s1] c1] eqn:E1.
  assert (b1 = true) by (vm_compute in E1; inversion E1; reflexivity).
  subst b1.
  destruct (run s1 [RightClick 1.125; LeftClick 1.25; StartDrag])
    as [[[s2 c2] rs]|] eqn:E2;
    [|exfalso; vm_compute in E1; inversion E1; subst s1;
      vm_compute in E2; discriminate].
  assert (Hrs : rs = [Some true; Some false; None])
    by (vm_compute in E1; inversion E1; subst s1;
        vm_compute in E2; inversion E2; reflexivity).
  destruct (click false s2 1.5) as [[b3 s3] c3] eqn:E3.
  assert (b3 = true)
    by (vm_compute in E1; inversion E1; subst s1;
        vm_compute in E2; inversion E2; subst s2;
        vm_compute in E3; inversion E3; reflexivity).
  subst b3.
  exists s1, c1, s2, c2, rs, s3, c3.
  split; [reflexivity|]. split; [exact E2|]. split; [exact Hrs|].
  split; [exact E3|].
  apply (clicks_of_a_button_apart false 1920 1080 []
           [RightClick 1.125; LeftClick 1.25; StartDrag]
           (MouseController.__init__ 1920 1080) s1 s2 s3 [] c1 c2 c3 [] rs
           1.0 1.5);
    [reflexivity | exact E1 | exact E2 | | exact E3].
  rewrite Hrs.
  repeat constructor; intros t Ht; discriminate.
Defined.

(** ** The main loop *)

Ltac turn_split H st m :=
  unfold Main.gesture_turn in H; cbv zeta in H;
  destruct (HandState.detected (TrackerState.primary st)) eqn:Ed;
  [ destruct (MouseController.move m
                (HandState.x (TrackerState.primary st))
                (HandState.y (TrackerState.primary st)))
      as [moved|] eqn:Em; [cbn [obind] in H | discriminate H];
    destruct (HandState.click_left (TrackerState.primary st)) eqn:Ecl;
    [ unfold MouseController.left_click in H
    | destruct (HandState.click_right (TrackerState.primary st)) eqn:Ecr;
      [ unfold MouseController.right_click in H
      | destruct (HandState.is_peace (TrackerState.primary st)) eqn:Epe;
        [ destruct (MouseController.scroll m
                      (HandState.y (TrackerState.primary st)) 15.0)
            as [[ms cs]|] eqn:Es; [cbn [obind] in H | discriminate H]
        | destruct (HandState.is_fist (TrackerState.primary st)) eqn:Efi;
          [ unfold MouseController.start_drag in H
          | destruct (HandState.is_open_palm (TrackerState.primary st))
              eqn:Eop;
            unfold MouseController.stop_drag in H ] ] ] ]
  | unfold MouseController.stop_drag in H ];
  repeat match type of H with
  | context [if ?b then _ else _] => destruct b eqn:?
  end;
  cbn in H; injection H as <-.

Lemma turn_scroll_ref (m : MouseController.t) (c : float)
    (st : TrackerState.t) (n n' : float) (o : Main.turn) :
  Main.gesture_turn m c st n n' = Returns o ->
  MouseController._last_scroll_y (Main.mouse o)
  = (if String.eqb (Main.mode o) "SCROLL"
     then Some (HandState.y (TrackerState.primary st)) else None)
  /\ (String.eqb (Main.mode o) "SCROLL" = true ->
      HandState.detected (TrackerState.primary st) = true
      /\ HandState.click_left (TrackerState.primary st) = false
      /\ HandState.click_right (TrackerState.primary st) = false
      /\ HandState.is_peace (TrackerState.primary st) = true).
Proof.
  intros H. turn_split H st m.
  all: cbn.
  all: try (destruct (scroll_inv _ _ _ _ _ Es) as (-> & _)).
  all: split; [reflexivity | intros; first [discriminate | auto]].
Qed.

Lemma turn_wheel (m : MouseController.t) (c : float)
    (st : TrackerState.t) (n n' : float) (o : Main.turn) (data : Z) :
  Main.gesture_turn m c st n n' = Returns o ->
  In (Main.Mouse (MouseController._send
                    MouseController.MOUSEEVENTF_WHEEL 0 0 data))
     (Main.effects o) ->
  String.eqb (Main.mode o) "SCROLL" = true
  /\ exists last,
       MouseController._last_scroll_y m = Some last
       /\ py_int (((last - HandState.y (TrackerState.primary st)) * 15.0)
                  * 120) = Returns data.
Proof.
  intros H Hin. turn_split H st m.
  all: try (destruct (move_inv _ _ _ _ Em) as (x & y & -> & _)).
  all: try (destruct (scroll_inv _ _ _ _ _ Es)
              as (-> & [-> | (l & d & El & Ei & ->)])).
  all: unfold MouseController.MOUSEEVENTF_WHEEL,
         MouseController.MOUSEEVENTF_LEFTDOWN,
         MouseController.MOUSEEVENTF_LEFTUP,
         MouseController.MOUSEEVENTF_RIGHTDOWN,
         MouseController.MOUSEEVENTF_RIGHTUP in Hin.
  all: cbn in Hin.
  all: repeat match type of Hin with
       | _ \/ _ => destruct Hin as [Hin | Hin]
       | False => destruct Hin
       end.
  all: try discriminate Hin.
  all: injection Hin as <-.
  all: cbn; split; [reflexivity|]; exists l; split; assumption.
Qed.

(** X17.  A wheel event needs two scroll turns in a row: if a turn of the
    main loop sends a wheel event, then that turn and the turn before it
    both were in scroll mode (primary hand detected and in the peace pose,
    no click), and the wheel amount is the integer part of 120 times 15
    times the drop of the hand's [y] between the two turns.  The first
    scroll turn after any other turn only records the reference. *)
Theorem wheel_needs_two_scroll_turns :
  forall (m : MouseController.t) (c : float) (st1 st2 : TrackerState.t)
         (n1 n1' n2 n2' : float) (o1 o2 : Main.turn) (data : Z),
    Main.gesture_turn m c st1 n1 n1' = Returns o1 ->
    Main.gesture_turn (Main.mouse o1) (Main.hud_toggle_cooldown o1)
      st2 n2 n2' = Returns o2 ->
    In (Main.Mouse (MouseController._send
                      MouseController.MOUSEEVENTF_WHEEL 0 0 data))
       (Main.effects o2) ->
    Main.mode o1 = "SCROLL"%string
    /\ Main.mode o2 = "SCROLL"%string
    /\ HandState.is_peace (TrackerState.primary st1) = true
    /\ HandState.is_peace (TrackerState.primary st2) = true
    /\ py_int (((HandState.y (TrackerState.primary st1)
                 - HandState.y (TrackerState.primary st2)) * 15.0) * 120)
       = Returns data.
Proof.
  intros m c st1 st2 n1 n1' n2 n2' o1 o2 data H1 H2 Hin.
  destruct (turn_wheel _ _ _ _ _ _ _ H2 Hin) as (M2 & last & El & Ei).
  destruct (turn_scroll_ref _ _ _ _ _ _ H1) as (R1 & P1).
  destruct (turn_scroll_ref _ _ _ _ _ _ H2) as (_ & P2).
  rewrite R1 in El.
  destruct (String.eqb (Main.mode o1) "SCROLL") eqn:M1; [|discriminate El].
  injection El as <-.
  destruct (P1 eq_refl) as (_ & _ & _ & Pe1).
  destruct (P2 M2) as (_ & _ & _ & Pe2).
  apply String.eqb_eq in M1. apply String.eqb_eq in M2.
  repeat split; assumption.
Qed.

Lemma wheel_needs_two_scroll_turns_witness :
  exists o1 o2,
    Main.gesture_turn (MouseController.__init__ 1920 1080) 0.0
      (seen (peace_at 0.5)) 1.0 1.0 = Returns o1
    /\ Main.gesture_turn (Main.mouse o1) (Main.hud_toggle_cooldown o1)
         (seen (peace_at 0.25)) 1.5 1.5 = Returns o2
    /\ Main.effects o1
       = [Main.Mouse (MouseController.SetCursorPos 960 540)]
    /\ Main.effects o2
       = [Main.Mouse (MouseController.SetCursorPos 960 270);
          Main.Mouse (MouseController._send
                        MouseController.MOUSEEVENTF_WHEEL 0 0 450)]
    /\ Main.mode o1 = "SCROLL"%string.
Proof.
  destruct (Main.gesture_turn (MouseController.__init__ 1920 1080) 0.0
              (seen (peace_at 0.5)) 1.0 1.0) as [o1|] eqn:E1;
    [|exfalso; vm_compute in E1; discriminate].
  destruct (Main.gesture_turn (Main.mouse o1) (Main.hud_toggle_cooldown o1)
              (seen (peace_at 0.25)) 1.5 1.5) as [o2|] eqn:E2;
    [|exfalso; vm_compute in E1; injection E1 as <-;
      vm_compute in E2; discriminate].
  assert (He1 : Main.effects o1
                = [Main.Mouse (MouseController.SetCursorPos 960 540)])
    by (vm_compute in E1; injection E1 as <-; reflexivity).
  assert (He2 : Main.effects o2
                = [Main.Mouse (MouseController.SetCursorPos 960 270);
                   Main.Mouse (MouseController._send
                                 MouseController.MOUSEEVENTF_WHEEL 0 0 450)])
    by (vm_compute in E1; injection E1 as <-;
        vm_compute in E2; injection E2 as <-; reflexivity).
  exists o1, o2.
  split; [reflexivity|]. split; [exact E2|].
  split; [exact He1|]. split; [exact He2|].
  apply (wheel_needs_two_scroll_turns _ _ _ _ _ _ _ _ o1 o2 450 E1 E2).
  rewrite He2. right. left. reflexivity.
Defined.

(** X18.  How a turn of the main loop treats the drag: the controller
    starts dragging only in a turn in drag mode, which needs a fist; a turn
    in idle or move mode ends with the drag released; a turn in click or
    scroll mode leaves the drag flag as it was; and over the turn the left
    button is pressed and released so that the flag and the button stay
    matched. *)
Theorem turn_drag_discipline :
  forall (m : MouseController.t) (c : float) (st : TrackerState.t)
         (n n' : float) (o : Main.turn),
    Main.gesture_turn m c st n n' = Returns o ->
    (MouseController._dragging (Main.mouse o) = true ->
     MouseController._dragging m = true \/ Main.mode o = "DRAG"%string)
    /\ (Main.mode o = "IDLE"%string \/ Main.mode o = "MOVE"%string ->
        MouseController._dragging (Main.mouse o) = false)
    /\ (Main.mode o = "DRAG"%string ->
        MouseController._dragging (Main.mouse o) = true
        /\ HandState.is_fist (TrackerState.primary st) = true)
    /\ (Main.mode o = "CLICK"%string \/ Main.mode o = "SCROLL"%string ->
        MouseController._dragging (Main.mouse o)
        = MouseController._dragging m)
    /\ (sent MouseController.MOUSEEVENTF_LEFTDOWN
          (Main.mouse_calls (Main.effects o)) + button_held m
        = sent MouseController.MOUSEEVENTF_LEFTUP
            (Main.mouse_calls (Main.effects o))
          + button_held (Main.mouse o))%nat.
Proof.
  intros m c st n n' o H. unfold button_held. turn_split H st m.
  all: try (destruct (move_inv _ _ _ _ Em) as (x & y & -> & _)).
  all: try (destruct (scroll_inv _ _ _ _ _ Es)
              as (-> & [-> | (l & d & El & Ei & ->)])).
  all: cbn.
  all: repeat match goal with
       | E : negb (negb _) = _ |- _ => rewrite negb_involutive in E
       | E : MouseController._dragging _ = _ |- _ => rewrite E
       | E : negb (MouseController._dragging _) = _ |- _ =>
           apply negb_true_iff in E || apply negb_false_iff in E
       end.
  all: repeat split; intros;
       repeat match goal with
       | D : _ \/ _ |- _ => destruct D
       end;
       first [discriminate | reflexivity | auto].
Qed.

Lemma turn_drag_discipline_witness :
  exists o1 o2 o3,
    Main.gesture_turn (MouseController.__init__ 1920 1080) 0.0
      (seen (fist_at 0.5)) 1.0 1.0 = Returns o1
    /\ Main.gesture_turn (Main.mouse o1) (Main.hud_toggle_cooldown o1)
         (seen (fist_at 0.5)) 1.5 1.5 = Returns o2
    /\ Main.gesture_turn (Main.mouse o2) (Main.hud_toggle_cooldown o2)
         TrackerState.default 2.0 2.0 = Returns o3
    /\ Main.effects o1
       = [Main.Mouse (MouseController.SetCursorPos 960 540);
          Main.Mouse (MouseController._send
                        MouseController.MOUSEEVENTF_LEFTDOWN 0 0 0)]
    /\ Main.effects o2
       = [Main.Mouse (MouseController.SetCursorPos 960 540)]
    /\ Main.effects o3
       = [Main.Mouse (MouseController._send
                        MouseController.MOUSEEVENTF_LEFTUP 0 0 0)]
    /\ MouseController._dragging (Main.mouse o1) = true
    /\ MouseController._dragging (Main.mouse o3) = false.
Proof.
  destruct (Main.gesture_turn (MouseController.__init__ 1920 1080) 0.0
              (seen (fist_at 0.5)) 1.0 1.0) as [o1|] eqn:E1;
    [|exfalso; vm_compute in E1; discriminate].
  destruct (Main.gesture_turn (Main.mouse o1) (Main.hud_toggle_cooldown o1)
              (seen (fist_at 0.5)) 1.5 1.5) as [o2|] eqn:E2;
    [|exfalso; vm_compute in E1; injection E1 as <-;
      vm_compute in E2; discriminate].
  destruct (Main.gesture_turn (Main.mouse o2) (Main.hud_toggle_cooldown o2)
              TrackerState.default 2.0 2.0) as [o3|] eqn:E3;
    [|exfalso; vm_compute in E1; injection E1 as <-;
      vm_compute in E2; injection E2 as <-;
      vm_compute in E3; discriminate].
  assert (Hm1 : Main.mode o1 = "DRAG"%string)
    by (vm_compute in E1; injection E1 as <-; reflexivity).
  assert (Hm3 : Main.mode o3 = "IDLE"%string)
    by (vm_compute in E1; injection E1 as <-;
        vm_compute in E2; injection E2 as <-;
        vm_compute in E3; injection E3 as <-; reflexivity).
  destruct (turn_drag_discipline _ _ _ _ _ _ E1) as (_ & _ & D1 & _).
  destruct (turn_drag_discipline _ _ _ _ _ _ E3) as (_ & D3 & _).
  exists o1, o2, o3.
  split; [reflexivity|]. split; [exact E2|]. split; [exact E3|].
  split; [vm_compute in E1; injection E1 as <-; reflexivity|].
  split; [vm_compute in E1; injection E1 as <-;
          vm_compute in E2; injection E2 as <-; reflexivity|].
  split; [vm_compute in E1; injection E1 as <-;
          vm_compute in E2; injection E2 as <-;
          vm_compute in E3; injection E3 as <-; reflexivity|].
  split; [exact (proj1 (D1 Hm1)) | exact (D3 (or_introl Hm3))].
Defined.

(** X19.  From the camera to the mouse: after a turn of the tracker loop in
    which the detector reports no hand, a turn of the main loop that reads
    the snapshot cannot fail, does not move the cursor, is in idle mode,
    releases the left button if the controller was dragging (and sends
    nothing otherwise), forgets the scroll reference and leaves the overlay
    alone. *)
Theorem no_hand_releases_mouse :
  forall (math_hypot : float -> float -> float) (sum : list float -> float)
         (self self' : HandTracker.t) (t0 t1 : float)
         (found : option (list (list Landmark.t)))
         (m : MouseController.t) (c n n' : float),
    HandTracker._loop_body math_hypot sum self t0 found t1 = Ok self' ->
    hands_of found = [] ->
    exists o,
      Main.gesture_turn m c (HandTracker.get_state self') n n' = Returns o
      /\ Main.mode o = "IDLE"%string
      /\ Main.gesture_label o = ""%string
      /\ Main.cursor_state o = "idle"%string
      /\ Main.effects o
         = (if MouseController.is_dragging m
            then [Main.Mouse (MouseController._send
                                MouseController.MOUSEEVENTF_LEFTUP 0 0 0)]
            else [])
      /\ MouseController.is_dragging (Main.mouse o) = false
      /\ MouseController._last_scroll_y (Main.mouse o) = None
      /\ Main.hud_toggle_cooldown o = c.
Proof.
  intros math_hypot sum self self' t0 t1 found m c n n' H Hh.
  destruct (loop_turn _ _ _ _ _ _ _ H) as (p & s & k & sK & Hm & Hs).
  rewrite Hh in Hm. destruct Hm as (-> & -> & -> & ->).
  cbv zeta in Hs. subst self'.
  unfold Main.gesture_turn, HandTracker.get_state, MouseController.is_dragging.
  cbn. unfold MouseController.stop_drag.
  destruct (MouseController._dragging m) eqn:Ed; cbn;
    (eexists; split; [reflexivity|]); cbn;
    repeat split; first [reflexivity | exact Ed].
Qed.

Lemma no_hand_releases_mouse_witness :
  exists self' o1 o2,
    HandTracker._loop_body hypot_plain sum_plain (HandTracker.__init__ 0.0)
      1.0 (Some []) 1.25 = Ok self'
    /\ Main.gesture_turn (MouseController.__init__ 1920 1080) 0.0
         (seen (fist_at 0.5)) 1.0 1.0 = Returns o1
    /\ Main.gesture_turn (Main.mouse o1) (Main.hud_toggle_cooldown o1)
         (HandTracker.get_state self') 1.5 1.5 = Returns o2
    /\ Main.effects o2
       = [Main.Mouse (MouseController._send
                        MouseController.MOUSEEVENTF_LEFTUP 0 0 0)]
    /\ MouseController.is_dragging (Main.mouse o2) = false.
Proof.
  destruct (HandTracker._loop_body hypot_plain sum_plain
              (HandTracker.__init__ 0.0) 1.0 (Some []) 1.25)
    as [self'|] eqn:E; [|exfalso; vm_compute in E; discriminate].
  destruct (Main.gesture_turn (MouseController.__init__ 1920 1080) 0.0
              (seen (fist_at 0.5)) 1.0 1.0) as [o1|] eqn:E1;
    [|exfalso; vm_compute in E1; discriminate].
  assert (Hd : MouseController.is_dragging (Main.mouse o1) = true)
    by (vm_compute in E1; injection E1 as <-; reflexivity).
  destruct (no_hand_releases_mouse _ _ _ _ _ _ _ (Main.mouse o1)
              (Main.hud_toggle_cooldown o1) 1.5 1.5 E eq_refl)
    as (o2 & E2 & _ & _ & _ & He & Hr & _).
  rewrite Hd in He.
  exists self', o1, o2.
  split; [reflexivity|]. split; [reflexivity|]. split; [exact E2|].
  split; [exact He | exact Hr].
Defined.

(** X20.  The cursor stays on the screen: on a screen of at least one
    pixel each way, every position a turn of the main loop passes to
    [SetCursorPos] has [0 <= x < screen_w] and [0 <= y < screen_h]; a turn
    sets the cursor exactly when the primary hand is detected, once, before
    anything else, and the screen size the controller holds does not
    change. *)
Theorem cursor_stays_on_screen :
  forall (m : MouseController.t) (c : float) (st : TrackerState.t)
         (n n' : float) (o : Main.turn),
    (0 < MouseController.screen_w m)%Z ->
    (0 < MouseController.screen_h m)%Z ->
    Main.gesture_turn m c st n n' = Returns o ->
    (forall x y,
        In (Main.Mouse (MouseController.SetCursorPos x y)) (Main.effects o) ->
        (0 <= x < MouseController.screen_w m)%Z
        /\ (0 <= y < MouseController.screen_h m)%Z)
    /\ (if HandState.detected (TrackerState.primary st)
        then exists x y rest,
               Main.effects o
               = Main.Mouse (MouseController.SetCursorPos x y) :: rest
               /\ forall x' y',
                    ~ In (Main.Mouse (MouseController.SetCursorPos x' y'))
                         rest
        else forall x y,
               ~ In (Main.Mouse (MouseController.SetCursorPos x y))
                    (Main.effects o))
    /\ MouseController.screen_w (Main.mouse o) = MouseController.screen_w m
    /\ MouseController.screen_h (Main.mouse o) = MouseController.screen_h m.
Proof.
  intros m c st n n' o Hw Hh H. turn_split H st m.
  all: try (destruct (move_inv _ _ _ _ Em) as (x0 & y0 & -> & X0 & Y0 & X1 & Y1);
            specialize (X1 Hw); specialize (Y1 Hh)).
  all: try (destruct (scroll_inv _ _ _ _ _ Es)
              as (-> & [-> | (l & d & El & Ei & ->)])).
  all: cbn.
  all: split;
       [ intros x y Hin;
         repeat match type of Hin with
                | _ \/ _ => destruct Hin as [Hin | Hin]
                | False => destruct Hin
                end;
         try discriminate Hin;
         injection Hin as <- <-; lia
       | split;
         [ first
             [ eexists _, _, _; split; [reflexivity|];
               intros x' y' Hin; cbn in Hin;
               repeat match type of Hin with
                      | _ \/ _ => destruct Hin as [Hin | Hin]
                      | False => destruct Hin
                      end;
               discriminate Hin
             | intros x y Hin;
               repeat match type of Hin with
                      | _ \/ _ => destruct Hin as [Hin | Hin]
                      | False => destruct Hin
                      end;
               discriminate Hin ]
         | split; reflexivity ] ].
Qed.

Lemma cursor_stays_on_screen_witness :
  exists o,
    Main.gesture_turn (MouseController.__init__ 1920 1080) 0.0
      (seen (left_pinch_at 1.0)) 1.0 1.0 = Returns o
    /\ Main.effects o
       = [Main.Mouse (MouseController.SetCursorPos 960 1079);
          Main.Mouse (MouseController._send
                        MouseController.MOUSEEVENTF_LEFTDOWN 0 0 0);
          Main.Mouse (MouseController._send
                        MouseController.MOUSEEVENTF_LEFTUP 0 0 0);
          Main.force_topmost]
    /\ (0 <= 1079 < 1080)%Z.
Proof.
  destruct (Main.gesture_turn (MouseController.__init__ 1920 1080) 0.0
              (seen (left_pinch_at 1.0)) 1.0 1.0) as [o|] eqn:E;
    [|exfalso; vm_compute in E; discriminate].
  assert (He : Main.effects o
               = [Main.Mouse (MouseController.SetCursorPos 960 1079);
                  Main.Mouse (MouseController._send
                                MouseController.MOUSEEVENTF_LEFTDOWN 0 0 0);
                  Main.Mouse (MouseController._send
                                MouseController.MOUSEEVENTF_LEFTUP 0 0 0);
                  Main.force_topmost])
    by (vm_compute in E; injection E as <-; reflexivity).
  exists o. split; [reflexivity|]. split; [exact He|].
  assert (Hw : (0 < MouseController.screen_w
                      (MouseController.__init__ 1920 1080))%Z)
    by reflexivity.
  assert (Hh : (0 < MouseController.screen_h
                      (MouseController.__init__ 1920 1080))%Z)
    by reflexivity.
  destruct (cursor_stays_on_screen _ _ _ _ _ _ Hw Hh E) as (Hin & _).
  apply (Hin 960%Z 1079%Z). rewrite He. left. reflexivity.
Defined.
